(** * SCANVI: two-phase semi-supervised training and label prediction

    A shallow embedding of [scvi/models/scanvi.py]: the constructor of the
    [SCANVI] model class (pretrained-model guard, label partition, code to
    label table), the epoch schedule heuristics and the two training phases
    of [train], and the hard / soft branches of [predict].  After it, the
    hooks and fixtures of [tests/conftest.py].

    Python integers are [Z]; Python floats are IEEE-754 binary64 values of
    the standard library's [SpecFloat]; dictionaries are [gmap]s; exceptions
    are values of [exn] carried by [result].  The neural networks, the two
    trainers and the posterior are collaborators outside the file: they are
    section variables, and every statement holds for all of them. *)

From Stdlib Require Import ZArith Lia Bool.
From Stdlib Require Import Floats.SpecFloat.
From stdpp Require Import gmap strings list fin_maps.

#[local] Open Scope Z_scope.

(** ** Python exceptions and fallible results *)

Inductive exn : Type :=
  | ValueError (msg : string)
  | ZeroDivisionError
  | OverflowError
  | KeyError (key : Z)
  | RuntimeError (msg : string).

Inductive result (A : Type) : Type :=
  | Ok (a : A)
  | Raise (e : exn).

Arguments Ok {A} a.
Arguments Raise {A} e.

#[global] Instance exn_eq_dec : EqDecision exn.
Proof. solve_decision. Defined.

#[global] Instance result_eq_dec `{EqDecision A} : EqDecision (result A).
Proof. solve_decision. Defined.

#[global] Instance result_ret : MRet result := fun A a => Ok a.
#[global] Instance result_bind : MBind result := fun A B f r =>
  match r with
  | Ok a => f a
  | Raise e => Raise e
  end.

(** ** Binary64 arithmetic as Python performs it *)

Module Float64.

Definition prec : Z := 53.
Definition emax : Z := 1024.

Definition float : Type := spec_float.

(** [float(z)] for a Python int: round to nearest even; a value beyond the
    binary64 range raises [OverflowError]. *)
Definition of_int (z : Z) : result float :=
  match binary_normalize prec emax z 0 false with
  | S754_infinity _ => Raise OverflowError
  | x => Ok x
  end.

(** A Python int read as an exact (unrounded) binary number. *)
Definition exact (z : Z) : float :=
  match z with
  | Z0 => S754_zero false
  | Zpos m => S754_finite false m 0
  | Zneg m => S754_finite true m 0
  end.

(** [a / b] on two Python ints: the correctly rounded quotient of the two
    integers themselves (no intermediate conversion). *)
Definition int_truediv (a b : Z) : result float :=
  if Z.eqb b 0 then Raise ZeroDivisionError
  else match SFdiv prec emax (exact a) (exact b) with
       | S754_infinity _ => Raise OverflowError
       | x => Ok x
       end.

(** [x * k] with [x] a float and [k] an int: [k] is converted first. *)
Definition mul_int (x : float) (k : Z) : result float :=
  y ← of_int k; mret (SFmul prec emax x y).

(** [n / y] with [n] an int and [y] a float: [n] is converted first, and a
    zero divisor raises. *)
Definition int_div (n : Z) (y : float) : result float :=
  x ← of_int n;
  match y with
  | S754_zero _ => Raise ZeroDivisionError
  | _ => mret (SFdiv prec emax x y)
  end.

(** The builtin [round(x)] with one argument: the nearest integer, ties to
    the even one; infinities and NaN raise. *)
Definition round_half_even (m d : Z) : Z :=
  let q := m / d in
  let r := m mod d in
  match Z.compare (2 * r) d with
  | Lt => q
  | Gt => q + 1
  | Eq => if Z.even q then q else q + 1
  end.

Definition round (x : float) : result Z :=
  match x with
  | S754_zero _ => Ok 0
  | S754_infinity _ => Raise OverflowError
  | S754_nan => Raise (ValueError "cannot convert float NaN to integer")
  | S754_finite s m e =>
      let a := match e with
               | Zneg p => round_half_even (Zpos m) (2 ^ Zpos p)
               | _ => Zpos m * 2 ^ e
               end in
      Ok (if s then - a else a)
  end.

(** The literal [3.0]. *)
Definition three : float := S754_finite false 6755399441055744 (-51).

End Float64.

(** ** Schedule heuristics of [train] *)

(** [np.min([round((20000 / self.adata.shape[0]) * 400), 400])] *)
Definition default_n_epochs_unsupervised (n_obs : Z) : result Z :=
  q ← Float64.int_truediv 20000 n_obs;
  p ← Float64.mul_int q 400;
  r ← Float64.round p;
  mret (Z.min r 400).

(** [int(np.min([10, np.max([2, round(n_epochs_unsupervised / 3.0)])]))] *)
Definition default_n_epochs_semisupervised (n_epochs_unsupervised : Z) : result Z :=
  x ← Float64.int_div n_epochs_unsupervised Float64.three;
  r ← Float64.round x;
  mret (Z.min 10 (Z.max 2 r)).

(** ** torch: parameter dictionaries and [load_state_dict] *)

Section StateDict.
Variable tensor : Type.
Variable shape : tensor → list nat.

(** The entries of [own] that [src] also names, with a different shape:
    the "size mismatch" errors of [Module.load_state_dict]. *)
Definition size_mismatches (own src : gmap string tensor) : gmap string tensor :=
  map_imap (λ k v,
    match src !! k with
    | Some w => if decide (shape w = shape v) then None else Some w
    | None => None
    end) own.

(** What [param.copy_(input_param)] leaves in the module: an entry is
    overwritten when [src] has the same name with the same shape. *)
Definition copy_matching (own src : gmap string tensor) : gmap string tensor :=
  map_imap (λ k v,
    match src !! k with
    | Some w => if decide (shape w = shape v) then Some w else Some v
    | None => Some v
    end) own.

(** [own.load_state_dict(src, strict)]: the module is updated in place, and
    the collected errors are raised afterwards.  Missing and unexpected
    names are errors only when [strict]; size mismatches always are. *)
Definition load_state_dict (own src : gmap string tensor) (strict : bool)
  : gmap string tensor * result unit :=
  (copy_matching own src,
   if bool_decide (dom (size_mismatches own src) = ∅)
      && (negb strict || bool_decide (dom own = dom src))
   then Ok tt
   else Raise (RuntimeError "Error(s) in loading state_dict")).

(** No name is present on both sides with two different shapes. *)
Definition compatible (own src : gmap string tensor) : Prop :=
  ∀ k v w, own !! k = Some v → src !! k = Some w → shape w = shape v.
End StateDict.

Arguments size_mismatches {tensor}.
Arguments copy_matching {tensor}.
Arguments load_state_dict {tensor}.
Arguments compatible {tensor}.

(** ** numpy and pandas helpers *)

Section Arrays.
Context {A : Type}.

(** [np.argwhere(mask).ravel()] on a one-dimensional boolean array. *)
Fixpoint argwhere_from (i : nat) (mask : list bool) : list nat :=
  match mask with
  | [] => []
  | b :: mask' =>
      if b then i :: argwhere_from (S i) mask' else argwhere_from (S i) mask'
  end.

Definition argwhere (mask : list bool) : list nat := argwhere_from 0 mask.

(** [enumerate(l)] *)
Fixpoint enumerate_from (i : Z) (l : list A) : list (Z * A) :=
  match l with
  | [] => []
  | x :: l' => (i, x) :: enumerate_from (i + 1) l'
  end.

Definition enumerate (l : list A) : list (Z * A) := enumerate_from 0 l.

(** [{i: l for i, l in pairs}]: later pairs overwrite earlier ones. *)
Definition dict_of (pairs : list (Z * A)) : gmap Z A :=
  foldl (λ d kv, <[kv.1 := kv.2]> d) ∅ pairs.

(** [d[p]]: a missing key raises [KeyError]. *)
Definition getitem (d : gmap Z A) (p : Z) : result A :=
  match d !! p with
  | Some x => Ok x
  | None => Raise (KeyError p)
  end.
End Arrays.

(** A two-dimensional float array: its row width is part of the array, also
    when there is no row. *)
Record ndarray2 := {
  ncols : nat;
  rows : list (list Float64.float)
}.

Section Frames.
Variable label : Type.

Record DataFrame := {
  df_columns : list label;
  df_index : list string;
  df_values : list (list Float64.float)
}.

(** [pd.DataFrame(data, columns=columns, index=index)] on a 2-D array:
    the axes must have the lengths of the array's shape. *)
Definition pd_DataFrame (data : ndarray2) (columns : list label)
    (index : list string) : result DataFrame :=
  if Nat.eqb (length (rows data)) (length index)
     && Nat.eqb (ncols data) (length columns)
  then Ok {| df_columns := columns; df_index := index; df_values := rows data |}
  else Raise (ValueError "Shape of passed values does not match the indices").
End Frames.

Arguments df_columns {label} _.
Arguments df_index {label} _.
Arguments df_values {label} _.
Arguments pd_DataFrame {label} _ _ _.

(** ** The [SCANVI] model class *)

Inductive dispersion_t := gene | gene_batch | gene_label | gene_cell.
Inductive gene_likelihood_t := zinb | nb | poisson.

Section SCANVI.
(** Raw label values, network parameters, and configuration values that
    are only passed on (fractions, learning rate, keyword dictionaries). *)
Context {label tensor pyobj : Type}.

#[local] Abbreviation state_dict := (gmap string tensor).

(** The registered dataset: [obs_labels] is the column
    [adata.obs[original_key]], [label_mapping] the registry's
    [categorical_mappings[key]["mapping"]], and the three counts are
    [summary_stats]. *)
Record AnnData := {
  obs_names : list string;
  obs_labels : list label;
  label_mapping : list label;
  n_genes : Z;
  n_batch : Z;
  n_labels : Z
}.

(** [adata.shape[0]] *)
Definition shape0 (adata : AnnData) : Z := Z.of_nat (length (obs_names adata)).

Record hyper := {
  n_hidden : Z;
  n_latent : Z;
  n_layers : Z;
  dropout_rate : pyobj;
  dispersion : dispersion_t;
  gene_likelihood : gene_likelihood_t;
  model_kwargs : pyobj
}.

(** An [SCVI] model handed in as [pretrained_model]. *)
Record SCVI := {
  scvi_is_trained : bool;
  scvi_model : state_dict
}.

Record UnsupervisedTrainer := {
  ut_train_size : pyobj;
  ut_test_size : pyobj;
  ut_n_iter_kl_warmup : pyobj;
  ut_n_epochs_kl_warmup : pyobj;
  ut_frequency : pyobj;
  ut_use_cuda : bool;
  ut_kwargs : pyobj
}.

Record SemiSupervisedTrainer := {
  st_use_cuda : bool;
  unlabelled_set : option (list nat);
  labelled_set : option (list nat)
}.

Record SCANVI := {
  adata : AnnData;
  use_cuda : bool;
  unlabeled_category : label;
  _base_model : state_dict;
  _is_trained_base : bool;
  model : state_dict;
  _label_mapping : list label;
  _code_to_label : gmap Z label;
  _unlabeled_indices : list nat;
  _labeled_indices : list nat;
  is_trained : bool;
  _unsupervised_trainer : option UnsupervisedTrainer;
  trainer : option SemiSupervisedTrainer
}.

(** Calls into the collaborators, in the order they happen. *)
Inductive event :=
  | New_VAE
  | New_SCANVAE
  | New_UnsupervisedTrainer (t : UnsupervisedTrainer)
  | UnsupervisedTrainer_train_call (n_epochs : Z)
  | Load_state_dict
  | New_SemiSupervisedTrainer (params : state_dict)
  | Create_posterior (indices : list nat)
  | SemiSupervisedTrainer_train_call (n_epochs : Z).

(** *** Collaborators

    What the file imports and calls but does not define. *)
Class Collaborators := {
  (** [==] on raw label values; [!=] is its negation. *)
  label_eq : label → label → bool;
  (** [torch.Tensor.shape] *)
  shape : tensor → list nat;
  (** Freshly initialised parameters of the two networks. *)
  VAE : Z → Z → hyper → state_dict;
  SCANVAE : Z → Z → Z → hyper → state_dict;
  (** The parameters a trainer leaves in the network it is bound to. *)
  UnsupervisedTrainer_train :
    state_dict → AnnData → UnsupervisedTrainer → Z → pyobj → pyobj → state_dict;
  SemiSupervisedTrainer_train :
    state_dict → AnnData → SemiSupervisedTrainer → Z → state_dict;
  (** [compute_predictions] of the annotation posterior, per cell: the
      predicted code, and the row of class probabilities with its width. *)
  predicted_code : state_dict → AnnData → nat → Z;
  predicted_proba : state_dict → AnnData → nat → list Float64.float;
  n_classes : state_dict → nat
}.

Context {collaborators : Collaborators}.

(** *** Construction *)

(** Modelled from the spec: the constructor of the base class, which is
    not part of the file, starts the trained flag at false. *)
Definition is_trained_initially : bool := false.

(** The attribute assignments of the constructor once the base model is
    settled: the semi-supervised network, the registry's label mapping, the
    code to label table, and the two index arrays. *)
Definition assemble (adata : AnnData) (unlabeled_category : label)
    (hp : hyper) (use_cuda : bool) (base : state_dict) (trained : bool)
  : SCANVI :=
  let labels := obs_labels adata in
  {| adata := adata;
     use_cuda := use_cuda;
     unlabeled_category := unlabeled_category;
     _base_model := base;
     _is_trained_base := trained;
     model := SCANVAE (n_genes adata) (n_batch adata) (n_labels adata) hp;
     _label_mapping := label_mapping adata;
     _code_to_label := dict_of (enumerate (label_mapping adata));
     _unlabeled_indices :=
       argwhere ((λ l, label_eq l unlabeled_category) <$> labels);
     _labeled_indices :=
       argwhere ((λ l, negb (label_eq l unlabeled_category)) <$> labels);
     is_trained := is_trained_initially;
     _unsupervised_trainer := None;
     trainer := None |}.

Definition __init__ (adata : AnnData) (unlabeled_category : label)
    (pretrained_model : option SCVI) (hp : hyper) (use_cuda : bool)
  : result SCANVI * list event :=
  match pretrained_model with
  | Some pm =>
      if negb (scvi_is_trained pm)
      then (Raise (ValueError "pretrained model has not been trained"), [])
      else (Ok (assemble adata unlabeled_category hp use_cuda (scvi_model pm) true),
            [New_SCANVAE])
  | None =>
      (Ok (assemble adata unlabeled_category hp use_cuda
             (VAE (n_genes adata) (n_batch adata) hp) false),
       [New_VAE; New_SCANVAE])
  end.

(** *** Commands over the object and the call trace

    A command runs on the object [self] and the trace of collaborator
    calls; when it raises, what it changed before stays changed. *)

Record world := {
  self : SCANVI;
  trace : list event
}.

Definition Exec (A : Type) : Type := world → result A * world.

#[local] Instance exec_ret : MRet Exec := λ A a w, (Ok a, w).
#[local] Instance exec_bind : MBind Exec := λ A B f c w,
  match c w with
  | (Ok a, w') => f a w'
  | (Raise e, w') => (Raise e, w')
  end.

Definition get : Exec SCANVI := λ w, (Ok (self w), w).
Definition modify (f : SCANVI → SCANVI) : Exec unit :=
  λ w, (Ok tt, {| self := f (self w); trace := trace w |}).
Definition emit (e : event) : Exec unit :=
  λ w, (Ok tt, {| self := self w; trace := trace w ++ [e] |}).
Definition lift {A : Type} (r : result A) : Exec A := λ w, (r, w).

(** Attribute assignments [self.x = v]. *)
Definition set_base_model (v : state_dict) (s : SCANVI) : SCANVI :=
  {| adata := adata s; use_cuda := use_cuda s;
     unlabeled_category := unlabeled_category s;
     _base_model := v; _is_trained_base := _is_trained_base s;
     model := model s; _label_mapping := _label_mapping s;
     _code_to_label := _code_to_label s;
     _unlabeled_indices := _unlabeled_indices s;
     _labeled_indices := _labeled_indices s; is_trained := is_trained s;
     _unsupervised_trainer := _unsupervised_trainer s; trainer := trainer s |}.

Definition set_is_trained_base (v : bool) (s : SCANVI) : SCANVI :=
  {| adata := adata s; use_cuda := use_cuda s;
     unlabeled_category := unlabeled_category s;
     _base_model := _base_model s; _is_trained_base := v;
     model := model s; _label_mapping := _label_mapping s;
     _code_to_label := _code_to_label s;
     _unlabeled_indices := _unlabeled_indices s;
     _labeled_indices := _labeled_indices s; is_trained := is_trained s;
     _unsupervised_trainer := _unsupervised_trainer s; trainer := trainer s |}.

Definition set_model (v : state_dict) (s : SCANVI) : SCANVI :=
  {| adata := adata s; use_cuda := use_cuda s;
     unlabeled_category := unlabeled_category s;
     _base_model := _base_model s; _is_trained_base := _is_trained_base s;
     model := v; _label_mapping := _label_mapping s;
     _code_to_label := _code_to_label s;
     _unlabeled_indices := _unlabeled_indices s;
     _labeled_indices := _labeled_indices s; is_trained := is_trained s;
     _unsupervised_trainer := _unsupervised_trainer s; trainer := trainer s |}.

Definition set_is_trained (v : bool) (s : SCANVI) : SCANVI :=
  {| adata := adata s; use_cuda := use_cuda s;
     unlabeled_category := unlabeled_category s;
     _base_model := _base_model s; _is_trained_base := _is_trained_base s;
     model := model s; _label_mapping := _label_mapping s;
     _code_to_label := _code_to_label s;
     _unlabeled_indices := _unlabeled_indices s;
     _labeled_indices := _labeled_indices s; is_trained := v;
     _unsupervised_trainer := _unsupervised_trainer s; trainer := trainer s |}.

Definition set_unsupervised_trainer (v : option UnsupervisedTrainer)
    (s : SCANVI) : SCANVI :=
  {| adata := adata s; use_cuda := use_cuda s;
     unlabeled_category := unlabeled_category s;
     _base_model := _base_model s; _is_trained_base := _is_trained_base s;
     model := model s; _label_mapping := _label_mapping s;
     _code_to_label := _code_to_label s;
     _unlabeled_indices := _unlabeled_indices s;
     _labeled_indices := _labeled_indices s; is_trained := is_trained s;
     _unsupervised_trainer := v; trainer := trainer s |}.

Definition set_trainer (v : option SemiSupervisedTrainer) (s : SCANVI) : SCANVI :=
  {| adata := adata s; use_cuda := use_cuda s;
     unlabeled_category := unlabeled_category s;
     _base_model := _base_model s; _is_trained_base := _is_trained_base s;
     model := model s; _label_mapping := _label_mapping s;
     _code_to_label := _code_to_label s;
     _unlabeled_indices := _unlabeled_indices s;
     _labeled_indices := _labeled_indices s; is_trained := is_trained s;
     _unsupervised_trainer := _unsupervised_trainer s; trainer := v |}.

(** *** Training *)

Record train_args := {
  n_epochs_unsupervised : option Z;
  n_epochs_semisupervised : option Z;
  train_size : pyobj;
  test_size : pyobj;
  lr : pyobj;
  n_iter_kl_warmup : pyobj;
  n_epochs_kl_warmup : pyobj;
  frequency : pyobj;
  unsupervised_trainer_kwargs : pyobj;
  semisupervised_trainer_kwargs : pyobj;
  train_kwargs : pyobj
}.

(** The first two statements of [train]: the epoch counts, from the
    arguments or from the heuristics. *)
Definition resolve_epochs (a : train_args) (n_obs : Z) : result (Z * Z) :=
  n_u ← match n_epochs_unsupervised a with
        | Some n => mret n
        | None => default_n_epochs_unsupervised n_obs
        end;
  n_s ← match n_epochs_semisupervised a with
        | Some n => mret n
        | None => default_n_epochs_semisupervised n_u
        end;
  mret (n_u, n_s).

(** [if self._is_trained_base is not True: ...] *)
Definition phase1 (a : train_args) (n_u : Z) : Exec unit :=
  s ← get;
  if negb (_is_trained_base s) then
    let t := {| ut_train_size := train_size a;
                ut_test_size := test_size a;
                ut_n_iter_kl_warmup := n_iter_kl_warmup a;
                ut_n_epochs_kl_warmup := n_epochs_kl_warmup a;
                ut_frequency := frequency a;
                ut_use_cuda := use_cuda s;
                ut_kwargs := unsupervised_trainer_kwargs a |} in
    emit (New_UnsupervisedTrainer t);;
    modify (set_unsupervised_trainer (Some t));;
    emit (UnsupervisedTrainer_train_call n_u);;
    modify (λ s, set_base_model
      (UnsupervisedTrainer_train (_base_model s) (adata s) t n_u
         (lr a) (train_kwargs a)) s);;
    modify (set_is_trained_base true)
  else mret tt.

(** [self.model.load_state_dict(self._base_model.state_dict(), strict=False)] *)
Definition transplant : Exec unit :=
  emit Load_state_dict;;
  s ← get;
  let loaded := load_state_dict shape (model s) (_base_model s) false in
  modify (set_model loaded.1);;
  lift loaded.2.

(** The object once the unsupervised phase has run. *)
Definition pretrained (a : train_args) (n_u : Z) (s : SCANVI) : SCANVI :=
  let t := {| ut_train_size := train_size a;
              ut_test_size := test_size a;
              ut_n_iter_kl_warmup := n_iter_kl_warmup a;
              ut_n_epochs_kl_warmup := n_epochs_kl_warmup a;
              ut_frequency := frequency a;
              ut_use_cuda := use_cuda s;
              ut_kwargs := unsupervised_trainer_kwargs a |} in
  set_is_trained_base true
    (set_base_model
       (UnsupervisedTrainer_train (_base_model s) (adata s) t n_u
          (lr a) (train_kwargs a))
       (set_unsupervised_trainer (Some t) s)).

(** The semi-supervised trainer with both views attached. *)
Definition views (s : SCANVI) : SemiSupervisedTrainer :=
  {| st_use_cuda := use_cuda s;
     unlabelled_set := Some (_unlabeled_indices s);
     labelled_set := Some (_labeled_indices s) |}.

(** The semi-supervised trainer, its two views and its training run. *)
Definition phase2 (n_s : Z) : Exec unit :=
  s ← get;
  emit (New_SemiSupervisedTrainer (model s));;
  modify (set_trainer (Some {| st_use_cuda := use_cuda s;
                               unlabelled_set := None;
                               labelled_set := None |}));;
  emit (Create_posterior (_unlabeled_indices s));;
  modify (set_trainer (Some {| st_use_cuda := use_cuda s;
                               unlabelled_set := Some (_unlabeled_indices s);
                               labelled_set := None |}));;
  emit (Create_posterior (_labeled_indices s));;
  let t := views s in
  modify (set_trainer (Some t));;
  emit (SemiSupervisedTrainer_train_call n_s);;
  modify (λ s, set_model (SemiSupervisedTrainer_train (model s) (adata s) t n_s) s);;
  modify (set_is_trained true).

Definition train (a : train_args) : Exec unit :=
  s ← get;
  '(n_u, n_s) ← lift (resolve_epochs a (shape0 (adata s)));
  phase1 a n_u;;
  transplant;;
  phase2 n_s.

(** *** Prediction *)

Inductive prediction :=
  | Labels (l : list label)
  | Table (df : DataFrame label).

(** Modelled from the spec: [_validate_anndata] of the base class, which
    is not part of the file: the dataset given, or the one the model was
    built on. *)
Definition _validate_anndata (s : SCANVI) (a : option AnnData) : AnnData :=
  match a with
  | Some a => a
  | None => adata s
  end.

(** Modelled from the spec: [_make_posterior] of the base class, which is
    not part of the file: the observation subset to score, all
    observations when none is given, kept in the given order by
    [sequential()]. *)
Definition _make_posterior (a : AnnData) (indices : option (list nat)) : list nat :=
  match indices with
  | Some ix => ix
  | None => seq 0 (length (obs_names a))
  end.

Definition predict (s : SCANVI) (a : option AnnData)
    (indices : option (list nat)) (soft : bool) : result prediction :=
  let a := _validate_anndata s a in
  let post := _make_posterior a indices in
  if negb soft then
    predictions ← mapM (getitem (_code_to_label s))
                       (predicted_code (model s) a <$> post);
    mret (Labels predictions)
  else
    let pred := {| ncols := n_classes (model s);
                   rows := predicted_proba (model s) a <$> post |} in
    df ← pd_DataFrame pred (_label_mapping s) (obs_names a);
    mret (Table df).
End SCANVI.

(** The types take their parameters explicitly. *)
Arguments AnnData : clear implicits.
Arguments hyper : clear implicits.
Arguments SCVI : clear implicits.
Arguments UnsupervisedTrainer : clear implicits.
Arguments SCANVI : clear implicits.
Arguments event : clear implicits.
Arguments Collaborators : clear implicits.
Arguments world : clear implicits.
Arguments Exec : clear implicits.
Arguments train_args : clear implicits.
Arguments prediction : clear implicits.

(** ** Reading a call trace *)

(** The epoch counts of the unsupervised training runs a trace records,
    oldest first. *)
Definition unsupervised_runs {tensor pyobj : Type}
    (t : list (event tensor pyobj)) : list Z :=
  omap (λ e, match e with
             | UnsupervisedTrainer_train_call n => Some n
             | _ => None
             end) t.

(** ** A small concrete instance

    Two label sets over four cells, networks of two parameters each, and
    trainers that shift every parameter: enough to run the definitions. *)

Module Toy.

(** A tensor is its shape and one number standing for its contents. *)
Definition tensor : Type := list nat * Z.

Definition shift (d : Z) (m : gmap string tensor) : gmap string tensor :=
  (λ t, (t.1, t.2 + d)) <$> m.

Definition one : Float64.float := S754_finite false 4503599627370496 (-52).

(** The encoder is shared by the two networks, the classifier is the
    semi-supervised network's own; training shifts every parameter; even
    cells are put on the first class, odd cells on the second. *)
#[export] Instance collaborators : Collaborators string tensor unit := {|
  label_eq := String.eqb;
  shape := fst;
  VAE := λ _ _ _,
    {[ "z_encoder.weight" := ([2; 3]%nat, 0); "px_r" := ([3]%nat, 0) ]};
  SCANVAE := λ _ _ _ _,
    {[ "z_encoder.weight" := ([2; 3]%nat, 1);
       "classifier.weight" := ([2]%nat, 1) ]};
  UnsupervisedTrainer_train := λ m _ _ n _ _, shift n m;
  SemiSupervisedTrainer_train := λ m _ _ n, shift (100 * n) m;
  predicted_code := λ _ _ i, Z.of_nat (i mod 2);
  predicted_proba := λ _ _ i,
    if Nat.even i then [one; S754_zero false] else [S754_zero false; one];
  n_classes := λ _, 2%nat
|}.

Definition hp : hyper unit :=
  {| n_hidden := 128; n_latent := 10; n_layers := 1; dropout_rate := tt;
     dispersion := gene; gene_likelihood := zinb; model_kwargs := tt |}.

(** Four cells, two of them unlabeled. *)
Definition cells : AnnData string :=
  {| obs_names := ["c0"; "c1"; "c2"; "c3"];
     obs_labels := ["A"; "Unknown"; "B"; "Unknown"];
     label_mapping := ["A"; "B"; "Unknown"];
     n_genes := 3; n_batch := 1; n_labels := 3 |}.

(** Four cells with the two labels A and B. *)
Definition cells_ab : AnnData string :=
  {| obs_names := ["c0"; "c1"; "c2"; "c3"];
     obs_labels := ["A"; "B"; "A"; "B"];
     label_mapping := ["A"; "B"];
     n_genes := 3; n_batch := 1; n_labels := 2 |}.

(** No cell at all. *)
Definition no_cells : AnnData string :=
  {| obs_names := []; obs_labels := []; label_mapping := [];
     n_genes := 3; n_batch := 1; n_labels := 0 |}.

Definition defaults : train_args unit :=
  {| n_epochs_unsupervised := None; n_epochs_semisupervised := None;
     train_size := tt; test_size := tt; lr := tt; n_iter_kl_warmup := tt;
     n_epochs_kl_warmup := tt; frequency := tt;
     unsupervised_trainer_kwargs := tt; semisupervised_trainer_kwargs := tt;
     train_kwargs := tt |}.

Definition untrained_scvi : SCVI tensor :=
  {| scvi_is_trained := false; scvi_model := VAE 3 1 hp |}.

(** A pretrained model whose encoder has another width than the one
    [SCANVAE] builds. *)
Definition wide_scvi : SCVI tensor :=
  {| scvi_is_trained := true;
     scvi_model := {[ "z_encoder.weight" := ([2; 5]%nat, 7) ]} |}.

(** The world the constructor leaves on a dataset, without and with a
    pretrained model. *)
Definition fresh (a : AnnData string) : world string tensor unit :=
  {| self := assemble a "Unknown" hp false (VAE (n_genes a) (n_batch a) hp) false;
     trace := [New_VAE; New_SCANVAE] |}.

Definition seeded (a : AnnData string) (pm : SCVI tensor)
  : world string tensor unit :=
  {| self := assemble a "Unknown" hp false (scvi_model pm) true;
     trace := [New_SCANVAE] |}.

(** The worlds after one and after two calls of [train] with defaults. *)
Definition once : world string tensor unit := (train defaults (fresh cells)).2.
Definition twice : world string tensor unit := (train defaults once).2.

End Toy.

(** * [tests/conftest.py]: options, markers and fixtures of the test session

    The hooks and fixtures of the file, over the parts of pytest they
    touch: the parser's option list, the parsed option values, and the
    collected items with their keywords and markers. *)

Module conftest.

(** ** pytest: options *)

(** What an option holds: a flag for [store_true], a string for [store]. *)
Inductive value :=
  | VBool (b : bool)
  | VStr (s : string).

(** The truth value [not x] negates. *)
Definition truth (v : value) : bool :=
  match v with
  | VBool b => b
  | VStr EmptyString => false
  | VStr _ => true
  end.

Inductive action := store_true | store.

(** One [parser.addoption(name, action=..., default=..., help=...)]. *)
Record Argument := {
  opt_name : string;
  opt_action : action;
  opt_default : value;
  opt_help : string
}.

(** The options added through [parser.addoption], oldest first. *)
Definition Parser : Type := list Argument.

(** A hook runs on the object it is handed and may raise; what it changed
    before raising stays changed. *)
Definition Hook (S A : Type) : Type := S → result A * S.

#[local] Instance hook_ret {S : Type} : MRet (Hook S) := λ A a s, (Ok a, s).
#[local] Instance hook_bind {S : Type} : MBind (Hook S) := λ A B f c s,
  match c s with
  | (Ok a, s') => f a s'
  | (Raise e, s') => (Raise e, s')
  end.

Definition modify {S : Type} (f : S → S) : Hook S unit := λ s, (Ok tt, f s).
Definition lift {S A : Type} (r : result A) : Hook S A := λ s, (r, s).

(** [parser.addoption]: a name that was added before is refused. *)
Definition addoption (o : Argument) : Hook Parser unit := λ parser,
  if bool_decide (opt_name o ∈ opt_name <$> parser)
  then (Raise (ValueError ("option names {'" +:+ opt_name o +:+ "'} already added")),
        parser)
  else (Ok tt, parser ++ [o]).

(** The command line as parsed: the flags that were given, and the options
    that were given a value. *)
Record argv := {
  given_flags : gset string;
  given_values : gmap string string
}.

(** What parsing leaves for one option: a given [store_true] flag is true,
    a given [store] option holds its argument, and an option that was not
    given holds its default. *)
Definition option_value (c : argv) (o : Argument) : value :=
  match opt_action o with
  | store_true =>
      if bool_decide (opt_name o ∈ given_flags c) then VBool true
      else opt_default o
  | store =>
      match given_values c !! opt_name o with
      | Some s => VStr s
      | None => opt_default o
      end
  end.

(** The option values parsing leaves, by option name. *)
Definition parse_args (parser : Parser) (c : argv) : gmap string value :=
  list_to_map ((λ o, (opt_name o, option_value c o)) <$> parser).

(** [config]: the parsed option values, and the lines of the [markers]
    ini setting. *)
Record Config := {
  config_option : gmap string value;
  markers : list string
}.

(** [config.getoption(name)] with no default: an unknown name raises. *)
Definition getoption (config : Config) (name : string) : result value :=
  match config_option config !! name with
  | Some v => Ok v
  | None => Raise (ValueError ("no option named '" +:+ name +:+ "'"))
  end.

(** [config.addinivalue_line("markers", line)] *)
Definition addinivalue_line (line : string) (config : Config) : Config :=
  {| config_option := config_option config; markers := markers config ++ [line] |}.

(** ** pytest: items and marks *)

Record Mark := {
  mark_name : string;
  mark_reason : string
}.

(** [pytest.mark.skip(reason=...)] *)
Definition skip (reason : string) : Mark :=
  {| mark_name := "skip"; mark_reason := reason |}.

(** A collected test: the keywords it matches, and its own markers. *)
Record Item := {
  keywords : gset string;
  own_markers : list Mark
}.

(** [item.add_marker(m)]: the marker is appended, and its name becomes a
    keyword of the item. *)
Definition add_marker (m : Mark) (item : Item) : Item :=
  {| keywords := keywords item ∪ {[ mark_name m ]};
     own_markers := own_markers item ++ [m] |}.

(** ** The hooks *)

Definition pytest_addoption : Hook Parser unit :=
  addoption {| opt_name := "--internet-tests"; opt_action := store_true;
               opt_default := VBool false;
               opt_help := "Run tests that retrieve stuff from the internet. This increases test time." |};;
  addoption {| opt_name := "--optional"; opt_action := store_true;
               opt_default := VBool false;
               opt_help := "Run tests that are optional." |};;
  addoption {| opt_name := "--accelerator"; opt_action := store;
               opt_default := VStr "cpu";
               opt_help := "Option to specify which accelerator to use for tests." |};;
  addoption {| opt_name := "--devices"; opt_action := store;
               opt_default := VStr "auto";
               opt_help := "Option to specify which devices to use for tests." |}.

Definition pytest_configure (config : Config) : Config :=
  addinivalue_line "optional: mark test as optional." config.

(** One of the two loops over the collected items:
    [if not run and (keyword in item.keywords): item.add_marker(m)].
    The collected items are distinct objects. *)
Definition skip_unless (run : value) (keyword : string) (m : Mark)
    (items : list Item) : list Item :=
  (λ item, if negb (truth run) && bool_decide (keyword ∈ keywords item)
           then add_marker m item else item) <$> items.

Definition pytest_collection_modifyitems (config : Config)
  : Hook (list Item) unit :=
  run_internet ← lift (getoption config "--internet-tests");
  let skip_internet := skip "need --internet-tests option to run" in
  modify (skip_unless run_internet "internet" skip_internet);;
  run_optional ← lift (getoption config "--optional");
  let skip_optional := skip "need --optional option to run" in
  modify (skip_unless run_optional "optional" skip_optional).

(** ** The fixtures that read an option *)

Definition accelerator (config : Config) : result value :=
  getoption config "--accelerator".

Definition devices (config : Config) : result value :=
  getoption config "--devices".

End conftest.

(** ** A small test session

    Four collected tests: one that needs the internet, one optional, one
    plain, one both; and two command lines. *)

Module ToySession.
Import conftest.

Definition items : list Item :=
  [ {| keywords := {[ "test_download"; "internet" ]}; own_markers := [] |};
    {| keywords := {[ "test_slow"; "optional" ]}; own_markers := [] |};
    {| keywords := {[ "test_plain" ]}; own_markers := [] |};
    {| keywords := {[ "test_both"; "internet"; "optional" ]}; own_markers := [] |} ].

(** [pytest] with no argument, and [pytest --optional --accelerator gpu]. *)
Definition no_arguments : argv :=
  {| given_flags := ∅; given_values := ∅ |}.

Definition optional_on_gpu : argv :=
  {| given_flags := {[ "--optional" ]};
     given_values := {[ "--accelerator" := "gpu" ]} |}.

(** The configuration of [pytest --optional] once the options of the file
    are registered. *)
Definition config : Config :=
  {| config_option := {[ "--internet-tests" := VBool false;
                         "--optional" := VBool true;
                         "--accelerator" := VStr "cpu";
                         "--devices" := VStr "auto" ]};
     markers := [] |}.

(** A configuration in which no option was registered. *)
Definition bare_config : Config :=
  {| config_option := ∅; markers := [] |}.

End ToySession.

(** * Facts

    First the binary64 operations, then the helpers, then the class. *)

(** ** Rounding in binary64 *)

Section Rounding.
Import Float64.

Lemma digits2_pos_size p : digits2_pos p = Pos.size p.
Proof. induction p; simpl; congruence. Qed.

Lemma Zdigits2_log2 m : 0 < m → Zdigits2 m = Z.log2 m + 1.
Proof.
  destruct m as [|p|p]; try lia. intros _. simpl.
  rewrite digits2_pos_size. destruct p; simpl; lia.
Qed.

Lemma Zdigits2_nonneg m : 0 ≤ Zdigits2 m.
Proof. destruct m; simpl; lia. Qed.

Lemma Zdigits2_le m n : 0 ≤ m → m ≤ n → Zdigits2 m ≤ Zdigits2 n.
Proof.
  intros Hm Hmn. destruct (Z.eq_dec m 0) as [->|].
  - apply Zdigits2_nonneg.
  - rewrite !Zdigits2_log2 by lia. pose proof (Z.log2_le_mono m n Hmn). lia.
Qed.

Lemma Zdigits2_succ m : 0 ≤ m → Zdigits2 (m + 1) ≤ Zdigits2 m + 1.
Proof.
  intros Hm. destruct (Z.eq_dec m 0) as [->|]; [simpl; lia|].
  rewrite !Zdigits2_log2 by lia.
  pose proof (Z.log2_succ_le m). unfold Z.succ in *. lia.
Qed.

Lemma Zdigits2_shiftr m k :
  0 ≤ m → 0 ≤ k → Zdigits2 (Z.shiftr m k) = Z.max 0 (Zdigits2 m - k).
Proof.
  intros Hm Hk. destruct (Z.eq_dec m 0) as [->|Hne].
  { rewrite Z.shiftr_0_l. simpl. lia. }
  assert (0 < m) as Hpos by lia.
  pose proof (Z.log2_nonneg m) as Hl.
  destruct (Z.eq_dec (Z.shiftr m k) 0) as [E|E].
  - rewrite E. simpl. apply Z.shiftr_eq_0_iff in E.
    destruct E as [E|[_ E]]; [lia|]. rewrite Zdigits2_log2 by lia. lia.
  - assert (0 < Z.shiftr m k).
    { pose proof (proj2 (Z.shiftr_nonneg m k) Hm). lia. }
    rewrite !Zdigits2_log2 by lia. rewrite Z.log2_shiftr by lia.
    assert (¬ Z.log2 m < k).
    { intros Hlt. apply E. apply Z.shiftr_eq_0_iff. right. lia. }
    lia.
Qed.

Lemma Zdigits2_mul (a b : positive) :
  Zdigits2 (Zpos (a * b)) ≤ Zdigits2 (Zpos a) + Zdigits2 (Zpos b).
Proof.
  rewrite Pos2Z.inj_mul. rewrite !Zdigits2_log2 by lia.
  pose proof (Z.log2_mul_above (Zpos a) (Zpos b)). lia.
Qed.

Lemma shr_m_shr_1 mrs : 0 ≤ shr_m mrs → shr_m (shr_1 mrs) = Z.div2 (shr_m mrs).
Proof.
  destruct mrs as [m r s]. simpl. intros Hm.
  destruct m as [|[p|p|]|p]; simpl; try lia; reflexivity.
Qed.

Lemma shr_m_iter p : ∀ mrs,
  0 ≤ shr_m mrs → shr_m (SpecFloat.iter_pos (A:=shr_record) shr_1 p mrs) = Z.shiftr (shr_m mrs) (Zpos p).
Proof.
  induction p as [p IH|p IH|]; intros mrs Hm; cbn [SpecFloat.iter_pos].
  - assert (0 ≤ shr_m (shr_1 mrs)) as H1.
    { rewrite shr_m_shr_1 by done. rewrite Z.div2_nonneg. done. }
    rewrite IH; [rewrite IH by done|].
    + rewrite shr_m_shr_1 by done. rewrite Z.div2_spec.
      rewrite !Z.shiftr_shiftr by lia. f_equal. lia.
    + rewrite IH by done. apply Z.shiftr_nonneg. done.
  - rewrite IH; [rewrite IH by done|].
    + rewrite !Z.shiftr_shiftr by lia. f_equal. lia.
    + rewrite IH by done. apply Z.shiftr_nonneg. done.
  - rewrite shr_m_shr_1 by done. apply Z.div2_spec.
Qed.

Lemma shr_m_of_loc m l : shr_m (shr_record_of_loc m l) = m.
Proof. destruct l as [|[]]; reflexivity. Qed.

Lemma shr_fexp_spec m e l :
  0 ≤ m →
  let k := Z.max 0 (fexp prec emax (Zdigits2 m + e) - e) in
  shr_m (shr_fexp prec emax m e l).1 = Z.shiftr m k
  ∧ (shr_fexp prec emax m e l).2 = e + k.
Proof.
  intros Hm k. unfold shr_fexp, shr. subst k.
  destruct (fexp prec emax (Zdigits2 m + e) - e) as [|p|p] eqn:E; simpl.
  - rewrite shr_m_of_loc. split; [reflexivity | lia].
  - rewrite shr_m_iter by (rewrite shr_m_of_loc; done).
    rewrite shr_m_of_loc. split; [reflexivity|lia].
  - rewrite shr_m_of_loc. split; [reflexivity | lia].
Qed.

Lemma round_nearest_even_cases m l :
  round_nearest_even m l = m ∨ round_nearest_even m l = m + 1.
Proof.
  destruct l as [|[]]; simpl; auto. destruct (Z.even m); auto.
Qed.

Lemma Zdigits2_pos m : 0 < m → 1 ≤ Zdigits2 m.
Proof. intros. rewrite Zdigits2_log2 by done. pose proof (Z.log2_nonneg m). lia. Qed.

(** What rounding a non-negative mantissa [mx] at exponent [ex] can give:
    never NaN, the sign kept, a canonical mantissa, and the magnitude
    [Zdigits2 m + e] moved by at most one binade. *)
Lemma binary_round_aux_spec s mx ex lx :
  0 ≤ mx →
  match binary_round_aux prec emax s mx ex lx with
  | S754_zero s' => s' = s ∧ ¬ (0 < mx ∧ -1074 < Zdigits2 mx + ex)
  | S754_finite s' m e =>
      s' = s ∧ Zdigits2 (Zpos m) ≤ 53 ∧ e ≤ 971
      ∧ Zdigits2 (Zpos m) + e ≤ Z.max (Z.max (Zdigits2 mx + ex) ex) (-1074) + 1
      ∧ e ≤ Z.max (Z.max ex (Zdigits2 mx + ex - 52)) (-1074)
      ∧ Zdigits2 mx + ex - 53 ≤ e
      ∧ (0 < mx → -1074 < Zdigits2 mx + ex → Zdigits2 mx + ex ≤ Zdigits2 (Zpos m) + e)
  | S754_infinity s' =>
      s' = s ∧ ¬ (ex ≤ 971 ∧ Zdigits2 mx + ex ≤ 1023)
  | S754_nan => False
  end.
Proof.
  intros Hm. unfold binary_round_aux.
  pose proof (shr_fexp_spec mx ex lx Hm) as [H1 H2].
  destruct (shr_fexp prec emax mx ex lx) as [mrs1 e1]. simpl in H1, H2.
  set (m2 := round_nearest_even (shr_m mrs1) (loc_of_shr_record mrs1)).
  assert (0 ≤ shr_m mrs1) as Hm1 by (rewrite H1; apply Z.shiftr_nonneg; done).
  assert (0 ≤ m2 ∧ Zdigits2 m2 ≤ Zdigits2 (shr_m mrs1) + 1
          ∧ Zdigits2 (shr_m mrs1) ≤ Zdigits2 m2) as (Hm2 & Hd2 & Hd2').
  { subst m2. destruct (round_nearest_even_cases (shr_m mrs1)
      (loc_of_shr_record mrs1)) as [->| ->].
    - lia.
    - split; [lia|]. split; [by apply Zdigits2_succ|].
      apply Zdigits2_le; lia. }
  pose proof (shr_fexp_spec m2 e1 loc_Exact Hm2) as [H3 H4].
  destruct (shr_fexp prec emax m2 e1 loc_Exact) as [mrs2 e2]. simpl in H3, H4.
  assert (Zdigits2 (shr_m mrs1)
          = Z.max 0 (Zdigits2 mx - Z.max 0 (fexp prec emax (Zdigits2 mx + ex) - ex)))
    as Hd1 by (rewrite H1; apply Zdigits2_shiftr; lia).
  assert (Zdigits2 (shr_m mrs2)
          = Z.max 0 (Zdigits2 m2 - Z.max 0 (fexp prec emax (Zdigits2 m2 + e1) - e1)))
    as Hd3 by (rewrite H3; apply Zdigits2_shiftr; lia).
  assert (0 ≤ shr_m mrs2) as Hm3 by (rewrite H3; apply Z.shiftr_nonneg; done).
  pose proof (Zdigits2_nonneg mx). pose proof (Zdigits2_nonneg m2).
  assert (0 < mx → 1 ≤ Zdigits2 mx) as Hpos by apply Zdigits2_pos.
  unfold fexp, emin, prec, emax in *.
  destruct (shr_m mrs2) as [|m|m] eqn:Em; [|  |lia].
  - change (Zdigits2 0) with 0 in Hd3. split; [done|]. lia.
  - assert (1 ≤ Zdigits2 (Zpos m)) by (apply Zdigits2_pos; lia).
    destruct (Z.leb_spec e2 (1024 - 53)).
    + repeat split; try lia.
    + split; [done|]. lia.
Qed.

Lemma Zdigits2_shiftl m k :
  0 < m → 0 ≤ k → Zdigits2 (Z.shiftl m k) = Zdigits2 m + k.
Proof.
  intros Hm Hk.
  assert (0 < Z.shiftl m k).
  { rewrite Z.shiftl_mul_pow2 by done. pose proof (Z.pow_pos_nonneg 2 k). lia. }
  rewrite !Zdigits2_log2 by done. rewrite Z.log2_shiftl by done. lia.
Qed.

Lemma Zdigits2_div m d :
  0 ≤ m → 0 < d → Zdigits2 (m / d) ≤ Z.max 0 (Zdigits2 m - Zdigits2 d + 1).
Proof.
  intros Hm Hd.
  assert (2 ^ Z.log2 d ≤ d) as Hlow by (apply Z.log2_spec; done).
  pose proof (Z.log2_nonneg d) as Hl.
  assert (0 < 2 ^ Z.log2 d) as Hp by (apply Z.pow_pos_nonneg; lia).
  assert (m / d ≤ Z.shiftr m (Z.log2 d)) as Hq.
  { rewrite Z.shiftr_div_pow2 by done. apply Z.div_le_compat_l; lia. }
  assert (0 ≤ m / d) by (apply Z.div_pos; lia).
  etrans; [apply Zdigits2_le; [done | exact Hq]|].
  rewrite Zdigits2_shiftr by lia. rewrite (Zdigits2_log2 d) by done. lia.
Qed.

Lemma Zdigits2_div_lower m d :
  0 ≤ m → 0 < d → Zdigits2 m - Zdigits2 d ≤ Zdigits2 (m / d).
Proof.
  intros Hm Hd.
  pose proof (Z.log2_nonneg d) as Hl.
  assert (d < 2 ^ Zdigits2 d) as Hup.
  { rewrite Zdigits2_log2 by done. apply Z.log2_spec. done. }
  assert (Z.shiftr m (Zdigits2 d) ≤ m / d) as Hq.
  { rewrite Z.shiftr_div_pow2 by apply Zdigits2_nonneg.
    apply Z.div_le_compat_l; lia. }
  assert (0 ≤ Z.shiftr m (Zdigits2 d)) by (apply Z.shiftr_nonneg; done).
  pose proof (Zdigits2_le _ _ H Hq) as Hle.
  rewrite Zdigits2_shiftr in Hle by (done || apply Zdigits2_nonneg). lia.
Qed.

Lemma SFdiv_core_binary_spec m1 e1 m2 e2 :
  let Dx := Zdigits2 (Zpos m1) + e1 in
  let Dy := Zdigits2 (Zpos m2) + e2 in
  let '(q, e, _) := SFdiv_core_binary prec emax (Zpos m1) e1 (Zpos m2) e2 in
  0 ≤ q
  ∧ e ≤ Z.max (Dx - Dy - 53) (-1074)
  ∧ Zdigits2 q + e ≤ Z.max e (Dx - Dy + 1)
  ∧ Dx - Dy ≤ Zdigits2 q + e.
Proof.
  intros Dx Dy. unfold SFdiv_core_binary.
  set (e := Z.min _ _).
  set (m := match e1 - e2 - e with Z0 => _ | Zpos _ => _ | Zneg _ => _ end).
  assert (e ≤ e1 - e2) as He by (subst e; lia).
  assert (m = Z.shiftl (Zpos m1) (e1 - e2 - e)) as Hm.
  { subst m. destruct (e1 - e2 - e) eqn:E; [reflexivity | reflexivity | lia]. }
  assert (Zdigits2 m = Zdigits2 (Zpos m1) + (e1 - e2 - e)) as Hdm.
  { rewrite Hm. apply Zdigits2_shiftl; lia. }
  assert (0 < m) as Hmpos.
  { rewrite Hm, Z.shiftl_mul_pow2 by lia.
    pose proof (Z.pow_pos_nonneg 2 (e1 - e2 - e)). lia. }
  pose proof (Zdigits2_div m (Zpos m2) ltac:(lia) ltac:(lia)) as Hq.
  pose proof (Zdigits2_div_lower m (Zpos m2) ltac:(lia) ltac:(lia)) as Hq'.
  assert (0 ≤ m / Zpos m2) as Hq0 by (apply Z.div_pos; lia).
  unfold Z.div in Hq, Hq', Hq0.
  destruct (Z.div_eucl m (Zpos m2)) as [q r]. cbn [fst] in Hq, Hq', Hq0.
  split; [done|]. split; [|split].
  - subst e Dx Dy. unfold fexp, emin, prec, emax. lia.
  - subst Dx Dy. lia.
  - subst Dx Dy. lia.
Qed.

(** Division of two finite numbers: the sign is the xor of the signs; the
    quotient overflows only from 2^1022 on and vanishes only below
    2^-1074. *)
Lemma SFdiv_finite_spec s1 m1 e1 s2 m2 e2 :
  let Dx := Zdigits2 (Zpos m1) + e1 in
  let Dy := Zdigits2 (Zpos m2) + e2 in
  match SFdiv prec emax (S754_finite s1 m1 e1) (S754_finite s2 m2 e2) with
  | S754_zero s => s = xorb s1 s2 ∧ Dx - Dy ≤ -1074
  | S754_finite s m e =>
      s = xorb s1 s2 ∧ Zdigits2 (Zpos m) ≤ 53 ∧ e ≤ 971
      ∧ Zdigits2 (Zpos m) + e ≤ Z.max (Dx - Dy + 2) (-1073)
      ∧ (-1074 < Dx - Dy → Dx - Dy ≤ Zdigits2 (Zpos m) + e)
  | S754_infinity s => s = xorb s1 s2 ∧ 1022 < Dx - Dy
  | S754_nan => False
  end.
Proof.
  intros Dx Dy. unfold SFdiv.
  pose proof (SFdiv_core_binary_spec m1 e1 m2 e2) as Hc.
  destruct (SFdiv_core_binary prec emax (Zpos m1) e1 (Zpos m2) e2)
    as [[q e] l].
  fold Dx Dy in Hc. destruct Hc as (Hq & He & Hd & Hd').
  pose proof (binary_round_aux_spec (xorb s1 s2) q e l Hq) as Hr.
  assert (-1074 < Dx - Dy → 0 < q) as Hqpos.
  { intros HD. destruct (Z.eq_dec q 0) as [->|]; [|lia].
    change (Zdigits2 0) with 0 in Hd'. lia. }
  destruct (binary_round_aux prec emax (xorb s1 s2) q e l); try done.
  - destruct Hr as [-> Hr]. split; [done|]. lia.
  - destruct Hr as [-> Hr]. split; [done|]. lia.
  - destruct Hr as (-> & ? & ? & ? & ? & ? & ?). repeat split; lia.
Qed.

Lemma SFmul_finite_spec s1 m1 e1 s2 m2 e2 :
  let Dx := Zdigits2 (Zpos m1) + e1 in
  let Dy := Zdigits2 (Zpos m2) + e2 in
  match SFmul prec emax (S754_finite s1 m1 e1) (S754_finite s2 m2 e2) with
  | S754_zero s => s = xorb s1 s2
  | S754_finite s m e =>
      s = xorb s1 s2 ∧ Zdigits2 (Zpos m) ≤ 53 ∧ e ≤ 971
  | S754_infinity s => s = xorb s1 s2 ∧ ¬ (e1 + e2 ≤ 971 ∧ Dx + Dy ≤ 1023)
  | S754_nan => False
  end.
Proof.
  intros Dx Dy. unfold SFmul.
  pose proof (binary_round_aux_spec (xorb s1 s2) (Zpos (m1 * m2)) (e1 + e2)
                loc_Exact ltac:(lia)) as Hr.
  pose proof (Zdigits2_mul m1 m2) as Hd.
  destruct (binary_round_aux prec emax (xorb s1 s2) (Zpos (m1 * m2)) (e1 + e2)
              loc_Exact); try done.
  - by destruct Hr as [-> _].
  - destruct Hr as [-> Hr]. split; [done|]. subst Dx Dy. lia.
  - destruct Hr as (-> & ? & ? & _). done.
Qed.

Lemma round_half_even_lower m d : m / d ≤ round_half_even m d.
Proof.
  unfold round_half_even.
  destruct (2 * (m mod d) ?= d); [destruct (Z.even (m / d))| |]; lia.
Qed.

(** [round] of a non-negative finite number returns, and what it returns
    is at least the number's integer part. *)
Lemma round_finite_pos m e :
  ∃ r, round (S754_finite false m e) = Ok r
       ∧ Z.shiftl (Zpos m) e ≤ r.
Proof.
  unfold round. eexists. split; [reflexivity|].
  destruct e as [|p|p].
  - rewrite Z.shiftl_0_r. lia.
  - rewrite Z.shiftl_mul_pow2 by lia. lia.
  - change (Z.shiftl (Z.pos m) (Z.neg p)) with (Z.shiftr (Z.pos m) (Z.pos p)).
    rewrite Z.shiftr_div_pow2 by lia. apply round_half_even_lower.
Qed.

Lemma of_int_400 : of_int 400 = Ok (S754_finite false 7036874417766400 (-44)).
Proof. reflexivity. Qed.

End Rounding.


Section Conversion.
Import Float64.

Lemma shr_r_shr_1 mrs : 0 ≤ shr_m mrs → shr_r (shr_1 mrs) = Z.odd (shr_m mrs).
Proof.
  destruct mrs as [m r s]. simpl. intros Hm.
  destruct m as [|[p|p|]|p]; simpl; try lia; reflexivity.
Qed.

Lemma shr_m_shr_1_nonneg mrs : 0 ≤ shr_m mrs → 0 ≤ shr_m (shr_1 mrs).
Proof. intros. rewrite shr_m_shr_1 by done. by rewrite Z.div2_nonneg. Qed.

Lemma shr_r_iter p : ∀ mrs,
  0 ≤ shr_m mrs →
  shr_r (SpecFloat.iter_pos shr_1 p mrs) = Z.testbit (shr_m mrs) (Zpos p - 1).
Proof.
  induction p as [p IH|p IH|]; intros mrs Hm; cbn [SpecFloat.iter_pos].
  - pose proof (shr_m_shr_1_nonneg mrs Hm) as H1.
    rewrite IH by (rewrite shr_m_iter by done; by apply Z.shiftr_nonneg).
    rewrite shr_m_iter by done. rewrite shr_m_shr_1 by done.
    rewrite Z.div2_spec, Z.shiftr_shiftr by lia.
    rewrite Z.shiftr_spec by lia. f_equal. lia.
  - rewrite IH by (rewrite shr_m_iter by done; by apply Z.shiftr_nonneg).
    rewrite shr_m_iter by done.
    rewrite Z.shiftr_spec by lia. f_equal. lia.
  - rewrite shr_r_shr_1 by done. symmetry. apply Z.bit0_odd.
Qed.

Lemma round_nearest_even_record mrs :
  round_nearest_even (shr_m mrs) (loc_of_shr_record mrs)
  = if shr_r mrs && (shr_s mrs || Z.odd (shr_m mrs))
    then shr_m mrs + 1 else shr_m mrs.
Proof.
  destruct mrs as [m [] []]; cbn; try reflexivity.
  rewrite <- Z.negb_even. by destruct (Z.even m).
Qed.

Lemma Zdigits2_bounds m d : 0 < m → (Zdigits2 m ≤ d ↔ m < 2 ^ d).
Proof.
  intros Hm. rewrite Zdigits2_log2 by done.
  pose proof (Z.log2_nonneg m).
  destruct (Z.le_gt_cases 0 d) as [Hd|Hd].
  - rewrite (Z.log2_lt_pow2 m d Hm). lia.
  - rewrite Z.pow_neg_r by done. lia.
Qed.

(** The last binade: which integers of 1024 bits round up to 2^1024. *)
Lemma top_binade p :
  0 ≤ p < 2 ^ 1024 →
  (2 ^ 1024 - 2 ^ 970 ≤ p
   ↔ Z.shiftr p 971 = 2 ^ 53 - 1 ∧ Z.testbit p 970 = true).
Proof.
  intros [Hp0 Hp]. rewrite Z.shiftr_div_pow2 by lia.
  pose proof (Z.testbit_spec' p 970 ltac:(lia)) as Hb.
  change (2 ^ 971) with (2 ^ 970 * 2). rewrite <- Z.div_div by lia.
  change (2 ^ 1024) with (2 ^ 54 * 2 ^ 970) in *.
  assert (0 < 2 ^ 970) as Ha by lia.
  set (a := 2 ^ 970) in *. set (h := p / a) in *.
  assert (h < 2 ^ 54) by (apply Z.div_lt_upper_bound; lia).
  assert (0 ≤ h) by (apply Z.div_pos; lia).
  assert (2 ^ 54 * a - a ≤ p ↔ 2 ^ 54 - 1 ≤ h) as ->.
  { split; intros.
    - apply Z.div_le_lower_bound; lia.
    - pose proof (Z.mul_div_le p a Ha). fold h in H2. nia. }
  pose proof (Z.div_mod h 2 ltac:(lia)) as Hh.
  pose proof (Z.mod_pos_bound h 2 ltac:(lia)).
  destruct (Z.testbit p 970); simpl in Hb; split; intros; lia.
Qed.

Lemma shl_align_spec p e e' :
  Zdigits2 (Zpos (shl_align p e e').1) + (shl_align p e e').2 = Zdigits2 (Zpos p) + e
  ∧ (shl_align p e e').2 = Z.min e e'.
Proof.
  unfold shl_align. destruct (e' - e) as [|d|d] eqn:E; cbn [fst snd].
  - lia.
  - lia.
  - assert (Zpos (Pos.iter xO p d) = Z.shiftl (Zpos p) (Zpos d)) as ->.
    { cbn [Z.shiftl]. apply (Pos.iter_swap_gen _ _ Zpos xO (Z.mul 2)). done. }
    rewrite Zdigits2_shiftl by lia. lia.
Qed.

Lemma shl_align_id p e e' : e ≤ e' → shl_align p e e' = (p, e).
Proof. intros. unfold shl_align. destruct (e' - e) eqn:E; (done || lia). Qed.

(** An integer of exactly 1024 bits overflows exactly from
    [2^1024 - 2^970] on. *)
Lemma binary_round_top p :
  Zdigits2 (Zpos p) = 1024 →
  (∃ s, binary_round prec emax false p 0 = S754_infinity s)
  ↔ 2 ^ 1024 - 2 ^ 970 ≤ Zpos p.
Proof.
  intros Hd.
  assert (2 ^ 1023 ≤ Zpos p < 2 ^ 1024) as Hp.
  { pose proof (Zdigits2_bounds (Zpos p) 1024 ltac:(lia)).
    pose proof (Zdigits2_bounds (Zpos p) 1023 ltac:(lia)). lia. }
  rewrite (top_binade (Zpos p)) by lia.
  unfold binary_round. change (Z.pos (digits2_pos p)) with (Zdigits2 (Zpos p)).
  rewrite Hd. rewrite shl_align_id by (vm_compute; discriminate).
  unfold binary_round_aux.
  unfold shr_fexp at 1. rewrite Hd.
  change (fexp prec emax (1024 + 0) - 0) with 971.
  cbv beta iota delta [shr].
  set (mrs1 := SpecFloat.iter_pos shr_1 971 (shr_record_of_loc (Z.pos p) loc_Exact)).
  assert (shr_m mrs1 = Z.shiftr (Zpos p) 971) as Hm1.
  { subst mrs1. rewrite shr_m_iter; by rewrite shr_m_of_loc. }
  assert (shr_r mrs1 = Z.testbit (Zpos p) 970) as Hr1.
  { subst mrs1. rewrite shr_r_iter; by rewrite shr_m_of_loc. }
  assert (Zdigits2 (shr_m mrs1) = 53) as Hd1.
  { rewrite Hm1, Zdigits2_shiftr by lia. rewrite Hd. reflexivity. }
  assert (0 < shr_m mrs1) as Hpos1.
  { pose proof (Z.shiftr_nonneg (Zpos p) 971) as Hnn. rewrite <- Hm1 in Hnn.
    destruct (Z.eq_dec (shr_m mrs1) 0) as [E|]; [|lia].
    rewrite E in Hd1. discriminate Hd1. }
  assert (2 ^ 52 ≤ shr_m mrs1 < 2 ^ 53) as Hb1.
  { pose proof (Zdigits2_bounds (shr_m mrs1) 53 Hpos1).
    pose proof (Zdigits2_bounds (shr_m mrs1) 52 Hpos1). lia. }
  rewrite round_nearest_even_record.
  set (m2 := if shr_r mrs1 && _ then _ else _).
  assert (0 < m2) as Hm2 by (subst m2; destruct (_ && _); lia).
  pose proof (shr_fexp_spec m2 (0 + 971) loc_Exact ltac:(lia)) as [H3 H4].
  destruct (shr_fexp prec emax m2 (0 + 971) loc_Exact) as [mrs2 e2].
  cbn [fst snd] in H3, H4.
  assert (Zdigits2 (shr_m mrs2)
          = Z.max 0 (Zdigits2 m2
                     - Z.max 0 (fexp prec emax (Zdigits2 m2 + (0 + 971)) - (0 + 971))))
    as Hd3 by (rewrite H3; apply Zdigits2_shiftr; lia).
  pose proof (Zdigits2_bounds m2 53 Hm2) as Hb2.
  pose proof (Zdigits2_pos m2 Hm2) as Hp2.
  unfold fexp, emin, prec, emax in *.
  assert (m2 < 2 ^ 53 ↔ ¬ (shr_m mrs1 = 2 ^ 53 - 1 ∧ shr_r mrs1 = true)) as Hiff.
  { subst m2. destruct (shr_r mrs1); cbn [andb orb].
    - destruct (shr_s mrs1); cbn [orb].
      + lia.
      + assert (shr_m mrs1 = 2 ^ 53 - 1 → Z.odd (shr_m mrs1) = true)
          as Ho by (intros ->; reflexivity).
        destruct (Z.odd (shr_m mrs1)); [lia|].
        split; [intros _ [E _]; by specialize (Ho E) | lia].
    - split; [intros _ [_ ?]; done | lia]. }
  rewrite <- Hm1, <- Hr1.
  destruct (shr_m mrs2) as [|m|m] eqn:Em.
  - change (Zdigits2 0) with 0 in Hd3. lia.
  - destruct (Z.leb_spec e2 (1024 - 53)) as [Hle|Hgt].
    + split; [intros [s ?]; done|]. intros HT. exfalso.
      assert (m2 < 2 ^ 53) as Hlt by lia. by apply Hiff in Hlt.
    + split; [|by eauto]. intros _.
      destruct (decide (shr_m mrs1 = 2 ^ 53 - 1 ∧ shr_r mrs1 = true))
        as [|Hn]; [done|].
      exfalso. apply Hiff in Hn. lia.
  - pose proof (Z.shiftr_nonneg m2 (Z.max 0 (Z.max (Zdigits2 m2 + (0 + 971) - 53)
                  (3 - 1024 - 53) - (0 + 971)))). lia.
Qed.

Lemma binary_round_spec s p :
  let d := Zdigits2 (Zpos p) in
  match binary_round prec emax s p 0 with
  | S754_finite s' m e =>
      s' = s ∧ Zdigits2 (Zpos m) ≤ 53 ∧ e ≤ 971
      ∧ d ≤ Zdigits2 (Zpos m) + e ≤ d + 1 ∧ d - 53 ≤ e
  | S754_infinity s' => s' = s ∧ 1023 < d
  | _ => False
  end.
Proof.
  intros d. unfold binary_round.
  pose proof (shl_align_spec p 0 (fexp prec emax (Z.pos (digits2_pos p) + 0)))
    as [HD He].
  destruct (shl_align p 0 (fexp prec emax (Z.pos (digits2_pos p) + 0)))
    as [mz ez]. cbn [fst snd] in HD, He.
  pose proof (binary_round_aux_spec s (Zpos mz) ez loc_Exact ltac:(lia)) as Hr.
  pose proof (Zdigits2_pos (Zpos p) ltac:(lia)) as Hd. fold d in HD, Hd.
  destruct (binary_round_aux prec emax s (Z.pos mz) ez loc_Exact)
    as [s'|s'| |s' m e].
  - lia.
  - destruct Hr as [-> Hr]. split; [done|]. lia.
  - done.
  - destruct Hr as (-> & ? & ? & ? & ? & ? & ?). repeat split; lia.
Qed.

(** [float(n)] for a non-negative int below [2^1024 - 2^970]. *)
Lemma of_int_ok n :
  0 ≤ n < 2 ^ 1024 - 2 ^ 970 →
  (n = 0 ∧ of_int n = Ok (S754_zero false))
  ∨ ∃ m e, of_int n = Ok (S754_finite false m e)
           ∧ Zdigits2 (Zpos m) ≤ 53 ∧ e ≤ 971
           ∧ Zdigits2 n ≤ Zdigits2 (Zpos m) + e.
Proof.
  intros [Hn HT]. destruct n as [|p|p]; [by left| |lia]. right.
  unfold of_int, binary_normalize.
  pose proof (binary_round_spec false p) as Hr. cbv zeta in Hr.
  pose proof (binary_round_top p) as Htop.
  destruct (binary_round prec emax false p 0) as [s'|s'| |s' m e]; try done.
  - exfalso. destruct Hr as [_ Hr].
    assert (Zdigits2 (Zpos p) = 1024) as Hd.
    { pose proof (Zdigits2_bounds (Zpos p) 1024 ltac:(lia)). lia. }
    apply Htop in Hd. destruct Hd as [Hd _].
    specialize (Hd ltac:(eauto)). lia.
  - destruct Hr as (-> & ? & ? & ? & ?). exists m, e. repeat split; (done || lia).
Qed.

(** From [2^1024 - 2^970] on the conversion raises. *)
Lemma of_int_overflow n :
  2 ^ 1024 - 2 ^ 970 ≤ n → of_int n = Raise OverflowError.
Proof.
  intros HT. destruct n as [|p|p]; [lia| |lia].
  unfold of_int, binary_normalize.
  pose proof (binary_round_spec false p) as Hr. cbv zeta in Hr.
  pose proof (binary_round_top p) as Htop.
  destruct (binary_round prec emax false p 0) as [s'|s'| |s' m e]; try done.
  exfalso. destruct Hr as (-> & ? & ? & ? & ?).
  assert (Zdigits2 (Zpos p) = 1024) as Hd.
  { pose proof (Zdigits2_bounds (Zpos p) 1023 ltac:(lia)). lia. }
  apply Htop in Hd. destruct Hd as [_ Hd].
  destruct (Hd HT) as [s ?]. done.
Qed.

Lemma shiftl_lower m e k :
  0 ≤ k → k < Zdigits2 (Zpos m) + e → 2 ^ k ≤ Z.shiftl (Zpos m) e.
Proof.
  intros Hk Hd.
  assert (0 ≤ Z.shiftl (Zpos m) e) as H0 by (apply Z.shiftl_nonneg; lia).
  assert (Zdigits2 (Z.shiftl (Zpos m) e) = Z.max 0 (Zdigits2 (Zpos m) + e)) as HD.
  { destruct (Z.le_gt_cases 0 e).
    - rewrite Zdigits2_shiftl by lia.
      pose proof (Zdigits2_nonneg (Zpos m)). lia.
    - rewrite <- (Z.opp_involutive e), Z.shiftl_opp_r.
      rewrite Zdigits2_shiftr by lia. lia. }
  destruct (Z.eq_dec (Z.shiftl (Zpos m) e) 0) as [E|E].
  - rewrite E in HD. change (Zdigits2 0) with 0 in HD. lia.
  - pose proof (Zdigits2_bounds (Z.shiftl (Zpos m) e) k ltac:(lia)). lia.
Qed.
End Conversion.

(** Below 64 the heuristic is checked case by case. *)
Lemma default_n_epochs_semisupervised_small n :
  0 ≤ n < 64 →
  default_n_epochs_semisupervised n
  = Ok (Z.min 10 (Z.max 2 (Float64.round_half_even n 3))).
Proof.
  assert (Forall (λ n, default_n_epochs_semisupervised n
                       = Ok (Z.min 10 (Z.max 2 (Float64.round_half_even n 3))))
            (seqZ 0 64)) as H.
  { apply (bool_decide_unpack _). vm_compute. exact I. }
  rewrite Forall_seqZ in H. intros. apply H. lia.
Qed.

(** C4 (amended). For every non-negative unsupervised epoch count that
    Python converts to a float, that is below [2^1024 - 2^970], the default
    semi-supervised count is [min(10, max(2, round(n / 3)))] with [round]
    the exact nearest integer, ties to even; it lies in [[2, 10]] and is 3
    for 9.  From [2^1024 - 2^970] on the computation raises
    [OverflowError]. *)
Theorem default_n_epochs_semisupervised_spec :
  (∀ n : Z, 0 ≤ n → n < 2 ^ 1024 - 2 ^ 970 →
     default_n_epochs_semisupervised n
     = Ok (Z.min 10 (Z.max 2 (Float64.round_half_even n 3)))
     ∧ 2 ≤ Z.min 10 (Z.max 2 (Float64.round_half_even n 3)) ≤ 10)
  ∧ (∀ n : Z, 2 ^ 1024 - 2 ^ 970 ≤ n →
       default_n_epochs_semisupervised n = Raise OverflowError)
  ∧ default_n_epochs_semisupervised 9 = Ok 3.
Proof.
  split; [|split; [|reflexivity]].
  - intros n Hn HT. split; [|lia].
    destruct (Z.lt_ge_cases n 64) as [Hs|Hl].
    { apply default_n_epochs_semisupervised_small. lia. }
    assert (Z.min 10 (Z.max 2 (Float64.round_half_even n 3)) = 10) as ->.
    { pose proof (round_half_even_lower n 3).
      assert (21 ≤ n / 3) by (apply Z.div_le_lower_bound; lia). lia. }
    unfold default_n_epochs_semisupervised, Float64.int_div, Float64.three.
    destruct (of_int_ok n ltac:(lia)) as [[-> _]|(m & e & -> & Hm & He & HD)];
      [lia|].
    cbn [mbind result_bind mret result_ret].
    assert (7 ≤ Zdigits2 n) as Hd7.
    { destruct (Z.le_gt_cases 7 (Zdigits2 n)) as [|Hlt]; [done|].
      pose proof (Zdigits2_bounds n 6 ltac:(lia)). lia. }
    pose proof (SFdiv_finite_spec false m e false 6755399441055744 (-51)) as Hq.
    cbv zeta in Hq. change (Zdigits2 6755399441055744) with 53 in Hq.
    destruct (SFdiv Float64.prec Float64.emax (S754_finite false m e)
                (S754_finite false 6755399441055744 (-51)))
      as [s|s| |s m' e']; [| |done|].
    + lia.
    + lia.
    + destruct Hq as (-> & _ & _ & _ & Hlow). cbn [xorb].
      destruct (round_finite_pos m' e') as (r & -> & Hr).
      pose proof (shiftl_lower m' e' 4 ltac:(lia) ltac:(lia)).
      cbn [mbind result_bind mret result_ret]. f_equal. lia.
  - intros n HT. unfold default_n_epochs_semisupervised, Float64.int_div.
    by rewrite of_int_overflow.
Qed.

(** C4, counterexample to the claim as stated: the count [2^1024] is
    non-negative, and the heuristic raises instead of returning a value in
    [[2, 10]]. *)
Lemma default_n_epochs_semisupervised_overflow :
  0 ≤ 2 ^ 1024
  ∧ default_n_epochs_semisupervised (2 ^ 1024) = Raise OverflowError.
Proof. split; [lia | reflexivity]. Qed.


Section Brackets.
Import Float64.

Lemma shiftr_bracket a k :
  0 ≤ k → Z.shiftr a k * 2 ^ k ≤ a < (Z.shiftr a k + 1) * 2 ^ k.
Proof.
  intros Hk. rewrite Z.shiftr_div_pow2 by done.
  assert (0 < 2 ^ k) as Hp by (apply Z.pow_pos_nonneg; lia).
  pose proof (Z.mul_div_le a (2 ^ k) Hp).
  pose proof (Z.mul_succ_div_gt a (2 ^ k) Hp). lia.
Qed.

(** The value kept by rounding is within one unit in the last place of
    the value rounded: the interval [[mx, mx + 1)] at exponent [ex] lies
    inside [[m - 1, m + 1]] at the result's exponent. *)
Lemma binary_round_aux_bracket s mx ex lx :
  0 ≤ mx →
  match binary_round_aux prec emax s mx ex lx with
  | S754_finite _ m e =>
      ex ≤ e
      ∧ (Zpos m - 1) * 2 ^ (e - ex) ≤ mx
      ∧ mx + 1 ≤ (Zpos m + 1) * 2 ^ (e - ex)
  | _ => True
  end.
Proof.
  intros Hm. unfold binary_round_aux.
  pose proof (shr_fexp_spec mx ex lx Hm) as [H1 H2].
  destruct (shr_fexp prec emax mx ex lx) as [mrs1 e1]. simpl in H1, H2.
  set (m2 := round_nearest_even (shr_m mrs1) (loc_of_shr_record mrs1)).
  assert (0 ≤ shr_m mrs1) as Hm1 by (rewrite H1; apply Z.shiftr_nonneg; done).
  assert (shr_m mrs1 ≤ m2 ≤ shr_m mrs1 + 1) as Hm2.
  { subst m2. destruct (round_nearest_even_cases (shr_m mrs1)
      (loc_of_shr_record mrs1)) as [->| ->]; lia. }
  pose proof (shr_fexp_spec m2 e1 loc_Exact ltac:(lia)) as [H3 H4].
  destruct (shr_fexp prec emax m2 e1 loc_Exact) as [mrs2 e2]. simpl in H3, H4.
  set (k1 := Z.max 0 (fexp prec emax (Zdigits2 mx + ex) - ex)) in *.
  set (k2 := Z.max 0 (fexp prec emax (Zdigits2 m2 + e1) - e1)) in *.
  destruct (shr_m mrs2) as [|m|m] eqn:Em; [done| |done].
  destruct (e2 <=? emax - prec); [|done].
  pose proof (shiftr_bracket mx k1 ltac:(lia)) as B1.
  pose proof (shiftr_bracket m2 k2 ltac:(lia)) as B2.
  rewrite <- H1 in B1. rewrite <- H3 in B2.
  replace (e2 - ex) with (k1 + k2) by lia.
  rewrite Z.pow_add_r by lia.
  assert (0 < 2 ^ k1) by (apply Z.pow_pos_nonneg; lia).
  assert (0 < 2 ^ k2) by (apply Z.pow_pos_nonneg; lia).
  set (A := 2 ^ k1) in *. set (B := 2 ^ k2) in *.
  split; [lia|]. split; nia.
Qed.

Lemma SFdiv_core_binary_quotient m1 e1 m2 e2 :
  let '(q, e, _) := SFdiv_core_binary prec emax (Zpos m1) e1 (Zpos m2) e2 in
  e ≤ e1 - e2
  ∧ q * Zpos m2 ≤ Zpos m1 * 2 ^ (e1 - e2 - e) < (q + 1) * Zpos m2.
Proof.
  unfold SFdiv_core_binary.
  set (e := Z.min _ _).
  set (m := match e1 - e2 - e with Z0 => _ | Zpos _ => _ | Zneg _ => _ end).
  assert (e ≤ e1 - e2) as He by (subst e; lia).
  assert (m = Zpos m1 * 2 ^ (e1 - e2 - e)) as Hm.
  { subst m. destruct (e1 - e2 - e) eqn:E; [lia| |lia].
    rewrite Z.shiftl_mul_pow2; lia. }
  pose proof (Z.div_mod m (Zpos m2) ltac:(lia)) as Hdm.
  pose proof (Z.mod_pos_bound m (Zpos m2) ltac:(lia)) as Hmod.
  unfold Z.div, Z.modulo in Hdm, Hmod.
  destruct (Z.div_eucl m (Zpos m2)) as [q r].
  split; [done|]. rewrite <- Hm. lia.
Qed.

(** The correctly rounded quotient of two positive integers, when its
    exponent is not positive, is within one unit in the last place of the
    exact quotient. *)
Lemma SFdiv_int_bracket (a n : positive) :
  match SFdiv prec emax (S754_finite false a 0) (S754_finite false n 0) with
  | S754_finite _ m e =>
      e ≤ 0 →
      (Zpos m - 1) * Zpos n ≤ Zpos a * 2 ^ (- e)
      ∧ Zpos a * 2 ^ (- e) < (Zpos m + 1) * Zpos n
  | _ => True
  end.
Proof.
  unfold SFdiv.
  pose proof (SFdiv_core_binary_quotient a 0 n 0) as Hc.
  pose proof (SFdiv_core_binary_spec a 0 n 0) as Hs.
  destruct (SFdiv_core_binary prec emax (Zpos a) 0 (Zpos n) 0) as [[q e'] l].
  destruct Hc as (He' & Hq1 & Hq2). cbv zeta in Hs. destruct Hs as (Hq0 & _).
  pose proof (binary_round_aux_bracket (xorb false false) q e' l Hq0) as Hb.
  destruct (binary_round_aux prec emax (xorb false false) q e' l)
    as [| | |s m e]; try done.
  destruct Hb as (Hee & Hlo & Hhi). intros He.
  replace (0 - 0 - e') with ((e - e') + (- e)) in Hq1, Hq2 by lia.
  rewrite Z.pow_add_r in Hq1, Hq2 by lia.
  assert (0 < 2 ^ (e - e')) by (apply Z.pow_pos_nonneg; lia).
  assert (0 < 2 ^ (- e)) by (apply Z.pow_pos_nonneg; lia).
  set (G := 2 ^ (e - e')) in *. set (T := 2 ^ (- e)) in *.
  split.
  - apply (Z.mul_le_mono_pos_r _ _ G); [done|]. nia.
  - apply (Z.mul_lt_mono_pos_r G); [done|]. nia.
Qed.

(** The rounded product of two positive floats is within one unit in the
    last place of the exact product, and its magnitude grows by at most
    one binade. *)
Lemma SFmul_bracket m1 e1 m2 e2 :
  match SFmul prec emax (S754_finite false m1 e1) (S754_finite false m2 e2) with
  | S754_finite _ m e =>
      e1 + e2 ≤ e
      ∧ (Zpos m - 1) * 2 ^ (e - (e1 + e2)) ≤ Zpos m1 * Zpos m2
      ∧ Zpos m1 * Zpos m2 + 1 ≤ (Zpos m + 1) * 2 ^ (e - (e1 + e2))
      ∧ e ≤ Z.max (Z.max (e1 + e2)
                     (Zdigits2 (Zpos m1) + e1 + Zdigits2 (Zpos m2) + e2 - 52))
                  (-1074)
      ∧ Zdigits2 (Zpos m) + e
        ≤ Z.max (Zdigits2 (Zpos m1) + e1 + Zdigits2 (Zpos m2) + e2) (-1074) + 1
  | _ => True
  end.
Proof.
  unfold SFmul.
  pose proof (binary_round_aux_bracket (xorb false false) (Zpos (m1 * m2))
                (e1 + e2) loc_Exact ltac:(lia)) as Hb.
  pose proof (binary_round_aux_spec (xorb false false) (Zpos (m1 * m2))
                (e1 + e2) loc_Exact ltac:(lia)) as Hs.
  pose proof (Zdigits2_mul m1 m2) as Hd.
  pose proof (Zdigits2_pos (Zpos m1) ltac:(lia)).
  pose proof (Zdigits2_pos (Zpos m2) ltac:(lia)).
  destruct (binary_round_aux prec emax (xorb false false) (Zpos (m1 * m2))
              (e1 + e2) loc_Exact) as [| | |s m e]; try done.
  destruct Hb as (? & ? & ?). destruct Hs as (_ & _ & _ & ? & ? & _).
  rewrite Pos2Z.inj_mul in *. repeat split; lia.
Qed.

Lemma round_half_even_unique a d r :
  0 < d → - d < 2 * (a - r * d) < d → round_half_even a d = r.
Proof.
  intros Hd Hr. unfold round_half_even.
  pose proof (Z.div_mod a d ltac:(lia)) as Hdm.
  pose proof (Z.mod_pos_bound a d Hd) as Hmod.
  assert (r = a / d ∨ r = a / d + 1) as [-> | ->] by nia.
  - destruct (Z.compare_spec (2 * (a mod d)) d); [nia|done|nia].
  - destruct (Z.compare_spec (2 * (a mod d)) d); [nia|nia|done].
Qed.

Lemma round_half_even_spec a d :
  0 < d →
  let r := round_half_even a d in
  - d ≤ 2 * (a - r * d) ≤ d
  ∧ (2 * (a mod d) ≠ d → - d < 2 * (a - r * d) < d).
Proof.
  intros Hd r. subst r. unfold round_half_even.
  pose proof (Z.div_mod a d ltac:(lia)) as Hdm.
  pose proof (Z.mod_pos_bound a d Hd) as Hmod.
  destruct (Z.compare_spec (2 * (a mod d)) d);
    [destruct (Z.even (a / d))| |]; split; nia.
Qed.

Lemma Zdigits2_mul_lower (a b : positive) :
  Zdigits2 (Zpos a) + Zdigits2 (Zpos b) - 1 ≤ Zdigits2 (Zpos (a * b)).
Proof.
  rewrite Pos2Z.inj_mul. rewrite !Zdigits2_log2 by lia.
  pose proof (Z.log2_mul_below (Zpos a) (Zpos b) ltac:(lia) ltac:(lia)). lia.
Qed.

(** The quotient [20000 / n] in full: zero only for [n] of 1090 bits or
    more; otherwise a positive float with its exponent, magnitude and
    one-ulp bracket. *)
Lemma int_truediv_20000_bracket (n : positive) :
  let Dn := Zdigits2 (Zpos n) in
  (int_truediv 20000 (Zpos n) = Ok (S754_zero false) ∧ 1089 ≤ Dn)
  ∨ ∃ m e, int_truediv 20000 (Zpos n) = Ok (S754_finite false m e)
           ∧ e ≤ 0
           ∧ e ≤ Z.max (- 36 - Dn) (-1074)
           ∧ Zdigits2 (Zpos m) + e ≤ Z.max (17 - Dn) (-1073)
           ∧ (Dn < 1089 → 15 - Dn ≤ Zdigits2 (Zpos m) + e)
           ∧ (Zpos m - 1) * Zpos n ≤ 20000 * 2 ^ (- e)
           ∧ 20000 * 2 ^ (- e) < (Zpos m + 1) * Zpos n.
Proof.
  intros Dn. unfold int_truediv. cbn [Z.eqb exact].
  pose proof (SFdiv_finite_spec false 20000 0 false n 0) as H.
  pose proof (SFdiv_int_bracket 20000 n) as Hb.
  cbv zeta in H. change (Zdigits2 20000) with 15 in H. fold Dn in H.
  pose proof (Zdigits2_pos (Zpos n) ltac:(lia)) as Hn. fold Dn in Hn.
  (* the exponent of the quotient *)
  assert (match SFdiv prec emax (S754_finite false 20000 0) (S754_finite false n 0)
          with
          | S754_finite _ _ e => e ≤ Z.max (- 36 - Dn) (-1074)
          | _ => True
          end) as He.
  { unfold SFdiv.
    pose proof (SFdiv_core_binary_spec 20000 0 n 0) as Hc.
    destruct (SFdiv_core_binary prec emax 20000 0 (Zpos n) 0) as [[q e'] l].
    cbv zeta in Hc. change (Zdigits2 20000) with 15 in Hc. fold Dn in Hc.
    destruct Hc as (Hq & He' & Hd & _).
    pose proof (binary_round_aux_spec (xorb false false) q e' l Hq) as Hr.
    destruct (binary_round_aux prec emax (xorb false false) q e' l); try done.
    destruct Hr as (_ & _ & _ & _ & ? & _). lia. }
  destruct (SFdiv prec emax (S754_finite false 20000 0) (S754_finite false n 0))
    as [s|s| |s m e]; [| |done|].
  - destruct H as [-> H]. left. split; [done|lia].
  - destruct H as [_ H]. lia.
  - destruct H as (-> & ? & ? & ? & ?). right. exists m, e.
    assert (e ≤ 0) as He0 by lia. destruct (Hb He0).
    repeat split; (done || lia).
Qed.

(** The product with [400.0]: never an overflow for a factor below 2^17;
    zero only for a factor below 2^-1082. *)
Lemma mul_int_400_bracket (m : positive) (e : Z) :
  let D := Zdigits2 (Zpos m) + e in
  e ≤ 0 → D ≤ 17 →
  (∃ s, mul_int (S754_finite false m e) 400 = Ok (S754_zero s) ∧ D ≤ -1082)
  ∨ ∃ m' e', mul_int (S754_finite false m e) 400 = Ok (S754_finite false m' e')
             ∧ e - 44 ≤ e'
             ∧ e' ≤ Z.max (Z.max (e - 44) (D - 43)) (-1074)
             ∧ Zdigits2 (Zpos m') + e' ≤ Z.max (D + 9) (-1074) + 1
             ∧ (Zpos m' - 1) * 2 ^ (e' - (e - 44)) ≤ Zpos m * 7036874417766400
             ∧ Zpos m * 7036874417766400 + 1 ≤ (Zpos m' + 1) * 2 ^ (e' - (e - 44)).
Proof.
  intros D He HD. unfold mul_int. rewrite of_int_400.
  cbn [mbind result_bind mret result_ret].
  pose proof (SFmul_bracket m e 7036874417766400 (-44)) as Hb.
  pose proof (SFmul_finite_spec false m e false 7036874417766400 (-44)) as Hs.
  cbv zeta in Hs. change (Zdigits2 7036874417766400) with 53 in Hs, Hb.
  fold D in Hs, Hb.
  assert (match SFmul prec emax (S754_finite false m e)
                  (S754_finite false 7036874417766400 (-44)) with
          | S754_zero _ => D ≤ -1082
          | _ => True
          end) as Hz.
  { unfold SFmul.
    pose proof (binary_round_aux_spec (xorb false false)
                  (Zpos (m * 7036874417766400)) (e + -44) loc_Exact ltac:(lia)) as Hr.
    pose proof (Zdigits2_mul_lower m 7036874417766400) as Hl.
    change (Zdigits2 7036874417766400) with 53 in Hl.
    destruct (binary_round_aux prec emax (xorb false false)
                (Zpos (m * 7036874417766400)) (e + -44) loc_Exact); try done.
    destruct Hr as [_ Hr]. subst D.
    destruct (Z.le_gt_cases (Zdigits2 (Zpos m) + e) (-1082)); [done|].
    exfalso. apply Hr. lia. }
  destruct (SFmul prec emax (S754_finite false m e)
              (S754_finite false 7036874417766400 (-44)))
    as [s|s| |s m' e']; [| |done|].
  - left. eauto.
  - destruct Hs as [_ Hs]. lia.
  - destruct Hs as (-> & _). destruct Hb as (? & ? & ? & ? & ?).
    right. exists m', e'. cbn [xorb].
    replace (e + -44) with (e - 44) in * by lia.
    repeat split; (done || lia).
Qed.

Lemma round_finite_neg m e :
  e < 0 →
  round (S754_finite false m e) = Ok (round_half_even (Zpos m) (2 ^ (- e))).
Proof. intros He. destruct e as [|p|p]; [lia|lia|reflexivity]. Qed.

Lemma round_half_even_zero a d : 0 ≤ a → 2 * a < d → round_half_even a d = 0.
Proof. intros. apply round_half_even_unique; lia. Qed.
End Brackets.

(** The dataset sizes above 20000 at which 8000000 / n falls half way
    between two integers, checked one by one. *)
Lemma default_n_epochs_unsupervised_ties_checked n :
  20000 < n → 2 * (8000000 mod n) = n →
  default_n_epochs_unsupervised n
  = Ok (Z.min (Float64.round_half_even 8000000 n) 400).
Proof.
  assert (Forall (λ j, 16000000 mod (2 * j + 1) = 0 →
                       let n := 16000000 / (2 * j + 1) in
                       default_n_epochs_unsupervised n
                       = Ok (Z.min (Float64.round_half_even 8000000 n) 400))
            (seqZ 0 400)) as H.
  { apply (bool_decide_unpack _). vm_compute. exact I. }
  rewrite Forall_seqZ in H. intros Hn Htie.
  pose proof (Z.div_mod 8000000 n ltac:(lia)) as Hdm.
  set (j := 8000000 / n) in *.
  assert (0 ≤ j < 400) as Hj.
  { split; [apply Z.div_pos; lia | apply Z.div_lt_upper_bound; lia]. }
  assert (16000000 = n * (2 * j + 1)) as Hf by lia.
  assert (16000000 / (2 * j + 1) = n) as Hq.
  { rewrite Hf. apply Z.div_mul. lia. }
  assert (16000000 mod (2 * j + 1) = 0) as Hm.
  { rewrite Hf. apply Z.mod_mul. lia. }
  specialize (H j ltac:(lia) Hm). cbv zeta in H. by rewrite Hq in H.
Qed.

Section Exactness.
Import Float64.

Lemma pow2_split (t w u : Z) :
  0 ≤ t → 0 ≤ w → 0 ≤ u → t + 44 = w + u → 2 ^ t * 2 ^ 44 = 2 ^ w * 2 ^ u.
Proof. intros. rewrite <- !Z.pow_add_r by lia. f_equal. lia. Qed.

(** Small datasets: the quotient is at least 1, the product at least 400. *)
Lemma unsupervised_small (n mq mp : positive) (eq ep : Z) :
  Zpos n ≤ 20000 → eq ≤ 0 → ep < 0 → eq - 44 ≤ ep →
  20000 * 2 ^ (- eq) < (Zpos mq + 1) * Zpos n →
  Zpos mq * 7036874417766400 + 1 ≤ (Zpos mp + 1) * 2 ^ (ep - (eq - 44)) →
  400 ≤ round_half_even (Zpos mp) (2 ^ (- ep)).
Proof.
  intros Hn Heq Hep Hu B1 B2.
  pose proof (pow2_split (- eq) (- ep) (ep - (eq - 44)) ltac:(lia) ltac:(lia)
                ltac:(lia) ltac:(lia)) as Hs.
  assert (0 < 2 ^ (- eq)) by (apply Z.pow_pos_nonneg; lia).
  assert (0 < 2 ^ (- ep)) by (apply Z.pow_pos_nonneg; lia).
  assert (0 < 2 ^ (ep - (eq - 44))) by (apply Z.pow_pos_nonneg; lia).
  set (T := 2 ^ (- eq)) in *. set (W := 2 ^ (- ep)) in *.
  set (U := 2 ^ (ep - (eq - 44))) in *.
  change (2 ^ 44) with 17592186044416 in Hs.
  assert (T ≤ Zpos mq) as Hq by nia.
  assert (400 * W * U < (Zpos mp + 1) * U) as Hp by nia.
  assert (400 * W ≤ Zpos mp) as Hp'.
  { apply Z.mul_lt_mono_pos_r in Hp; lia. }
  etrans; [|apply round_half_even_lower].
  apply Z.div_le_lower_bound; lia.
Qed.

(** Datasets between 20000 and 2^28 cells, off the ties: the two rounding
    errors together are far below the distance of 8000000 / n from the
    nearest half-integer. *)
Lemma unsupervised_middle (n mq mp : positive) (eq ep : Z) :
  20000 < Zpos n < 2 ^ 28 → 2 * (8000000 mod Zpos n) ≠ Zpos n →
  eq ≤ -51 → ep ≤ -41 → eq - 44 ≤ ep →
  (Zpos mq - 1) * Zpos n ≤ 20000 * 2 ^ (- eq) →
  20000 * 2 ^ (- eq) < (Zpos mq + 1) * Zpos n →
  (Zpos mp - 1) * 2 ^ (ep - (eq - 44)) ≤ Zpos mq * 7036874417766400 →
  Zpos mq * 7036874417766400 + 1 ≤ (Zpos mp + 1) * 2 ^ (ep - (eq - 44)) →
  round_half_even (Zpos mp) (2 ^ (- ep)) = round_half_even 8000000 (Zpos n).
Proof.
  intros Hn Htie Heq Hep Hu B1 B1' B2 B2'.
  pose proof (pow2_split (- eq) (- ep) (ep - (eq - 44)) ltac:(lia) ltac:(lia)
                ltac:(lia) ltac:(lia)) as Hs.
  assert (2 ^ 51 ≤ 2 ^ (- eq)) as HT by (apply Z.pow_le_mono_r; lia).
  assert (2 ^ 41 ≤ 2 ^ (- ep)) as HW by (apply Z.pow_le_mono_r; lia).
  assert (0 < 2 ^ (ep - (eq - 44))) as HU by (apply Z.pow_pos_nonneg; lia).
  destruct (round_half_even_spec 8000000 (Zpos n) ltac:(lia)) as [_ Hk].
  specialize (Hk Htie).
  set (k := round_half_even 8000000 (Zpos n)) in *.
  set (T := 2 ^ (- eq)) in *. set (W := 2 ^ (- ep)) in *.
  set (U := 2 ^ (ep - (eq - 44))) in *. set (N := Zpos n) in *.
  set (Mq := Zpos mq) in *. set (Mp := Zpos mp) in *.
  change (2 ^ 44) with 17592186044416 in Hs.
  change (2 ^ 51) with 2251799813685248 in HT.
  change (2 ^ 41) with 2199023255552 in HW.
  change (2 ^ 28) with 268435456 in Hn.
  apply round_half_even_unique; [lia|].
  (* the product against the exact value, scaled by U * N *)
  assert (Mp * U * N ≤ 8000000 * (W * U) + (7036874417766400 + U) * N) as Hhi.
  { assert (Mp * U ≤ Mq * 7036874417766400 + U) as H1 by lia.
    assert (Mq * N ≤ 20000 * T + N) as H2 by lia.
    assert (Mp * U * N ≤ (Mq * 7036874417766400 + U) * N) as H3 by nia.
    assert (7036874417766400 * (Mq * N) ≤ 7036874417766400 * (20000 * T + N))
      as H4 by nia.
    rewrite <- Hs. lia. }
  assert (8000000 * (W * U) - (7036874417766400 + U) * N ≤ Mp * U * N) as Hlo.
  { assert (Mq * 7036874417766400 - U ≤ Mp * U) as H1 by lia.
    assert (20000 * T - N ≤ Mq * N) as H2 by lia.
    assert ((Mq * 7036874417766400 - U) * N ≤ Mp * U * N) as H3 by nia.
    assert (7036874417766400 * (20000 * T - N) ≤ 7036874417766400 * (Mq * N))
      as H4 by nia.
    rewrite <- Hs. lia. }
  (* the margin left by the exact value *)
  assert (2 * (8000000 - k * N) ≤ N - 1 ∧ - (N - 1) ≤ 2 * (8000000 - k * N))
    as [Hk1 Hk2] by lia.
  assert (0 < W * U) as HWU by nia.
  assert (2 * (7036874417766400 + U) * N < W * U) as Hsmall.
  { assert (U ≤ 8 * T) as HU8.
    { assert (2199023255552 * U ≤ W * U) by nia. lia. }
    assert (2 * (7036874417766400 + U) * N
            ≤ 2 * (7036874417766400 + 8 * T) * 268435456) by nia.
    lia. }
  assert (2 * (8000000 - k * N) * (W * U) ≤ (N - 1) * (W * U)) as Hm1 by nia.
  assert (- ((N - 1) * (W * U)) ≤ 2 * (8000000 - k * N) * (W * U)) as Hm2 by nia.
  assert (- (W * (U * N)) < 2 * (Mp - k * W) * (U * N) < W * (U * N)) as Hfin by lia.
  assert (0 < U * N) as HUN by nia.
  split.
  - apply (Z.mul_lt_mono_pos_r (U * N)); [done|]. lia.
  - apply (Z.mul_lt_mono_pos_r (U * N)); [done|]. lia.
Qed.
End Exactness.

(** On binary64 the unsupervised heuristic computes exactly
    [min(round(8000000 / n), 400)], the rounding being to the nearest
    integer with ties to even. *)
Lemma default_n_epochs_unsupervised_exact (n : Z) :
  1 ≤ n →
  default_n_epochs_unsupervised n
  = Ok (Z.min (Float64.round_half_even 8000000 n) 400).
Proof.
  intros Hn. destruct n as [|n|n]; try lia.
  pose proof (Zdigits2_pos (Zpos n) ltac:(lia)) as Hd1.
  pose proof (Zdigits2_bounds (Zpos n) 14 ltac:(lia)) as Hd14.
  pose proof (Zdigits2_bounds (Zpos n) 15 ltac:(lia)) as Hd15.
  pose proof (Zdigits2_bounds (Zpos n) 28 ltac:(lia)) as Hd28.
  change (2 ^ 14) with 16384 in Hd14. change (2 ^ 15) with 32768 in Hd15.
  change (2 ^ 28) with 268435456 in Hd28.
  assert (268435456 ≤ Zpos n → Float64.round_half_even 8000000 (Zpos n) = 0)
    as Hbig by (intros; apply round_half_even_zero; lia).
  unfold default_n_epochs_unsupervised.
  destruct (int_truediv_20000_bracket n)
    as [[Hq HDn]|(mq & eq & Hq & Heq0 & Heq & HDq & HDq' & B1 & B1')];
    cbv zeta in *; rewrite Hq; cbn [mbind result_bind].
  { (* the quotient underflows to zero *)
    rewrite Hbig by lia. reflexivity. }
  destruct (mul_int_400_bracket mq eq Heq0 ltac:(lia))
    as [(s & Hp & HD)|(mp & ep & Hp & Hu & Hep & HDp & B2 & B2')];
    cbv zeta in *; rewrite Hp; cbn [mbind result_bind].
  { (* the product underflows to zero *)
    rewrite Hbig by lia. reflexivity. }
  pose proof (Zdigits2_pos (Zpos mp) ltac:(lia)) as Hmp1.
  destruct (Z.le_gt_cases (Zpos n) 20000) as [Hsmall|Hlarge].
  - (* at most 20000 cells: capped at 400 *)
    assert (ep < 0) as Hep0 by lia.
    rewrite round_finite_neg by done.
    cbn [mbind result_bind mret result_ret]. f_equal.
    pose proof (unsupervised_small n mq mp eq ep Hsmall Heq0 Hep0 Hu B1' B2').
    pose proof (round_half_even_lower 8000000 (Zpos n)).
    assert (400 ≤ 8000000 / Zpos n) by (apply Z.div_le_lower_bound; lia).
    lia.
  - destruct (Z.lt_ge_cases (Zpos n) 268435456) as [Hmid|Hhuge].
    + (* between 20000 and 2^28 cells *)
      assert (ep ≤ -41) as Hep0 by lia.
      rewrite round_finite_neg by lia.
      cbn [mbind result_bind mret result_ret].
      destruct (decide (2 * (8000000 mod Zpos n) = Zpos n)) as [Htie|Htie].
      * rewrite <- (default_n_epochs_unsupervised_ties_checked (Zpos n))
          by (done || lia).
        unfold default_n_epochs_unsupervised.
        rewrite Hq. cbn [mbind result_bind]. rewrite Hp.
        cbn [mbind result_bind]. rewrite round_finite_neg by lia. done.
      * f_equal. f_equal.
        apply (unsupervised_middle n mq mp eq ep); (done || lia).
    + (* 2^28 cells or more: the product is below 1/4 *)
      assert (ep < 0) as Hep0 by lia.
      rewrite round_finite_neg by done.
      cbn [mbind result_bind mret result_ret]. rewrite Hbig by lia.
      f_equal. rewrite round_half_even_zero; [done|lia|].
      assert (Zpos mp < 2 ^ (- ep - 2)) as Hlt.
      { apply Zdigits2_bounds; lia. }
      replace (- ep) with ((- ep - 2) + 2) by lia.
      rewrite Z.pow_add_r by lia. lia.
Qed.

(** C3. For every dataset size [n_obs >= 1] the default unsupervised epoch
    count is [min(round((20000 / n_obs) * 400), 400)]: the binary64
    computation never raises and returns exactly the minimum of 400 and
    20000 * 400 / n_obs rounded to the nearest integer (ties to even); the
    count lies between 0 and 400, is 400 for 20000 observations and 80 for
    100000. *)
Theorem default_n_epochs_unsupervised_spec :
  (∀ n_obs : Z, 1 ≤ n_obs →
     default_n_epochs_unsupervised n_obs
     = Ok (Z.min (Float64.round_half_even (20000 * 400) n_obs) 400)
     ∧ 0 ≤ Z.min (Float64.round_half_even (20000 * 400) n_obs) 400 ≤ 400)
  ∧ default_n_epochs_unsupervised 20000 = Ok 400
  ∧ default_n_epochs_unsupervised 100000 = Ok 80.
Proof.
  split; [|split; reflexivity].
  intros n Hn. split; [by apply default_n_epochs_unsupervised_exact|].
  pose proof (round_half_even_lower 8000000 n).
  assert (0 ≤ 8000000 / n) by (apply Z.div_pos; lia).
  change (20000 * 400) with 8000000. lia.
Qed.


(** ** Facts about the array helpers *)

Section ArrayFacts.
Context {A : Type}.

Lemma elem_of_argwhere_from (mask : list bool) (k i : nat) :
  i ∈ argwhere_from k mask ↔ ∃ j, i = (k + j)%nat ∧ mask !! j = Some true.
Proof.
  revert k. induction mask as [|b mask IH]; intros k; simpl.
  - split; [by intros ?%elem_of_nil | by intros (j & _ & ?)].
  - assert (i ∈ argwhere_from (S k) mask
            ↔ ∃ j, i = (k + S j)%nat ∧ mask !! j = Some true) as IH'.
    { rewrite IH. by setoid_rewrite Nat.add_succ_r. }
    destruct b; [rewrite elem_of_cons|]; rewrite IH'; split.
    + intros [->|(j & -> & Hj)]; [exists 0%nat | exists (S j)]; split; (done || lia).
    + intros ([|j] & -> & Hj); [left; lia | right; eauto].
    + intros (j & -> & Hj). by exists (S j).
    + intros ([|j] & -> & Hj); [done | eauto].
Qed.

Lemma elem_of_argwhere (mask : list bool) (i : nat) :
  i ∈ argwhere mask ↔ mask !! i = Some true.
Proof.
  unfold argwhere. rewrite elem_of_argwhere_from. split.
  - by intros (j & -> & ?).
  - intros. by exists i.
Qed.

Lemma NoDup_argwhere_from (mask : list bool) (k : nat) :
  NoDup (argwhere_from k mask).
Proof.
  revert k. induction mask as [|[] mask IH]; intros k; simpl; [constructor| |done].
  constructor; [|done]. rewrite elem_of_argwhere_from. intros (j & ? & _). lia.
Qed.

Lemma lookup_foldl_enumerate (l : list A) (i k : Z) (d : gmap Z A) :
  foldl (λ d kv, <[kv.1 := kv.2]> d) d (enumerate_from i l) !! k
  = if decide (i ≤ k < i + Z.of_nat (length l))
    then l !! Z.to_nat (k - i) else d !! k.
Proof.
  revert i d. induction l as [|x l IH]; intros i d; simpl.
  - case_decide; [lia | done].
  - rewrite IH. repeat case_decide; try lia.
    + replace (Z.to_nat (k - i)) with (S (Z.to_nat (k - (i + 1)))) by lia. done.
    + assert (k = i) as -> by lia. rewrite lookup_insert_eq.
      by replace (i - i) with 0 by lia.
    + rewrite lookup_insert_ne by lia. done.
Qed.

(** The dictionary built from [enumerate(l)] is [l] read by position. *)
Lemma lookup_dict_of_enumerate (l : list A) (k : Z) :
  dict_of (enumerate l) !! k
  = if decide (0 ≤ k) then l !! Z.to_nat k else None.
Proof.
  unfold dict_of, enumerate. rewrite lookup_foldl_enumerate.
  rewrite lookup_empty, Z.sub_0_r.
  repeat case_decide; try done; try lia.
  symmetry. apply lookup_ge_None. lia.
Qed.
End ArrayFacts.

(** ** Facts about [load_state_dict] *)

Section StateDictFacts.
Context {tensor : Type}.
Variable shape : tensor → list nat.
Implicit Types own src : gmap string tensor.

Lemma lookup_copy_matching own src k :
  copy_matching shape own src !! k
  = match own !! k, src !! k with
    | Some v, Some w => if decide (shape w = shape v) then Some w else Some v
    | Some v, None => Some v
    | None, _ => None
    end.
Proof.
  unfold copy_matching. rewrite map_lookup_imap.
  destruct (own !! k) as [v|]; simpl; [|done].
  destruct (src !! k) as [w|]; [|done]. by case_decide.
Qed.

Lemma lookup_size_mismatches own src k :
  size_mismatches shape own src !! k
  = match own !! k, src !! k with
    | Some v, Some w => if decide (shape w = shape v) then None else Some w
    | _, _ => None
    end.
Proof.
  unfold size_mismatches. rewrite map_lookup_imap.
  destruct (own !! k) as [v|]; simpl; [|done].
  by destruct (src !! k) as [w|].
Qed.

Lemma size_mismatches_empty own src :
  dom (size_mismatches shape own src) = ∅ ↔ compatible shape own src.
Proof.
  rewrite dom_empty_iff_L, map_empty. split.
  - intros H k v w Hv Hw. specialize (H k).
    rewrite lookup_size_mismatches, Hv, Hw in H. by case_decide.
  - intros H k. rewrite lookup_size_mismatches.
    destruct (own !! k) as [v|] eqn:Hv; [|done].
    destruct (src !! k) as [w|] eqn:Hw; [|done].
    case_decide as Hs; [done|]. destruct Hs. eauto.
Qed.

Lemma load_state_dict_result own src :
  (load_state_dict shape own src false).2 = Ok tt ↔ compatible shape own src.
Proof.
  unfold load_state_dict. cbn [snd negb orb]. rewrite andb_true_r.
  rewrite <- size_mismatches_empty.
  case_bool_decide; split; (done || intros; done).
Qed.

Lemma load_state_dict_raises own src :
  ¬ compatible shape own src →
  (load_state_dict shape own src false).2
  = Raise (RuntimeError "Error(s) in loading state_dict").
Proof.
  intros Hn. unfold load_state_dict. cbn [snd negb orb]. rewrite andb_true_r.
  rewrite <- size_mismatches_empty in Hn. by rewrite bool_decide_eq_false_2.
Qed.

(** Copying keeps the names and the shapes of the module's own entries. *)
Lemma copy_matching_shape own src k :
  shape <$> copy_matching shape own src !! k = shape <$> own !! k.
Proof.
  rewrite lookup_copy_matching.
  destruct (own !! k) as [v|]; [|done].
  destruct (src !! k) as [w|]; [|done].
  case_decide as Hs; [|done]. simpl. by rewrite Hs.
Qed.
End StateDictFacts.


Section InitFacts.
Context {label tensor pyobj : Type} `{!Collaborators label tensor pyobj}.
Implicit Types (adata : AnnData label) (hp : hyper pyobj).

(** What a successful construction fixes, whichever branch built the
    base model. *)
Lemma init_fields adata u pm hp cuda s log :
  __init__ adata u pm hp cuda = (Ok s, log) →
  _labeled_indices s
    = argwhere ((λ l, negb (label_eq l u)) <$> obs_labels adata)
  ∧ _unlabeled_indices s = argwhere ((λ l, label_eq l u) <$> obs_labels adata)
  ∧ _label_mapping s = label_mapping adata
  ∧ _code_to_label s = dict_of (enumerate (label_mapping adata))
  ∧ is_trained s = false
  ∧ _unsupervised_trainer s = None ∧ trainer s = None
  ∧ _is_trained_base s = bool_decide (is_Some pm).
Proof.
  unfold __init__. destruct pm as [pm|].
  - destruct (scvi_is_trained pm); cbn [negb]; [|done].
    intros [= <- <-]. cbn. repeat split; try done.
  - intros [= <- <-]. cbn. repeat split; done.
Qed.

(** C1. In a constructed model the labeled indices are the positions
    whose raw label differs from the sentinel, the unlabeled indices the
    positions whose raw label equals it; the two sets are disjoint and
    together they are all of [0, N). *)
Theorem init_partition adata u pm hp cuda s log :
  __init__ adata u pm hp cuda = (Ok s, log) →
  (∀ i, i ∈ _labeled_indices s
        ↔ ∃ l, obs_labels adata !! i = Some l ∧ label_eq l u = false)
  ∧ (∀ i, i ∈ _unlabeled_indices s
          ↔ ∃ l, obs_labels adata !! i = Some l ∧ label_eq l u = true)
  ∧ list_to_set (C:=gset nat) (_labeled_indices s)
      ## list_to_set (_unlabeled_indices s)
  ∧ list_to_set (C:=gset nat) (_labeled_indices s)
      ∪ list_to_set (_unlabeled_indices s)
    = list_to_set (seq 0 (length (obs_labels adata))).
Proof.
  intros (Hl & Hu & _)%init_fields.
  assert (∀ i, i ∈ _labeled_indices s
               ↔ ∃ l, obs_labels adata !! i = Some l ∧ label_eq l u = false) as HL.
  { intros i. rewrite Hl, elem_of_argwhere, list_lookup_fmap.
    destruct (obs_labels adata !! i) as [l|]; simpl.
    - split; [intros [= ?%negb_true_iff]; eauto|].
      intros (? & [= <-] & ->). done.
    - split; [done | by intros (? & ? & _)]. }
  assert (∀ i, i ∈ _unlabeled_indices s
               ↔ ∃ l, obs_labels adata !! i = Some l ∧ label_eq l u = true) as HU.
  { intros i. rewrite Hu, elem_of_argwhere, list_lookup_fmap.
    destruct (obs_labels adata !! i) as [l|]; simpl.
    - split; [intros [= ?]; eauto|]. intros (? & [= <-] & ->). done.
    - split; [done | by intros (? & ? & _)]. }
  split; [done|]. split; [done|]. split.
  - intros i. rewrite !elem_of_list_to_set, HL, HU.
    intros (l & Hi & Hf) (l' & Hi' & Ht). congruence.
  - apply set_eq. intros i.
    rewrite elem_of_union, !elem_of_list_to_set, HL, HU, elem_of_seq. split.
    + intros [(l & Hi & _)|(l & Hi & _)]; apply lookup_lt_Some in Hi; lia.
    + intros [_ Hi]. destruct (lookup_lt_is_Some_2 (obs_labels adata) i) as [l Hl'];
        [lia|]. destruct (label_eq l u) eqn:E; eauto.
Qed.

(** C8. A pretrained model whose trained flag is false makes the
    constructor raise at once: no network and no trainer has been built,
    and no object exists on which [train] could run. *)
Theorem init_untrained_pretrained adata u pm hp cuda :
  scvi_is_trained pm = false →
  __init__ adata u (Some pm) hp cuda
  = (Raise (ValueError "pretrained model has not been trained"), []).
Proof. intros H. unfold __init__. by rewrite H. Qed.
End InitFacts.

Section PredictFacts.
Context {label tensor pyobj : Type} `{!Collaborators label tensor pyobj}.
Implicit Types (s : SCANVI label tensor pyobj) (d : gmap Z label).

Lemma mapM_result_cons {A B : Type} (f : A → result B) (x : A) (l : list A) :
  mapM f (x :: l)
  = match f x with
    | Ok y => match mapM f l with
              | Ok k => Ok (y :: k)
              | Raise e => Raise e
              end
    | Raise e => Raise e
    end.
Proof. reflexivity. Qed.

Lemma mapM_getitem_cons d (p : Z) (codes : list Z) :
  mapM (getitem d) (p :: codes)
  = match d !! p with
    | Some l => match mapM (getitem d) codes with
                | Ok ls => Ok (l :: ls)
                | Raise e => Raise e
                end
    | None => Raise (KeyError p)
    end.
Proof. rewrite mapM_result_cons. unfold getitem at 1. by destruct (d !! p). Qed.

Lemma mapM_getitem_ok d (codes : list Z) (ls : list label) :
  Forall2 (λ p l, d !! p = Some l) codes ls → mapM (getitem d) codes = Ok ls.
Proof.
  induction 1 as [|p l codes ls Hp _ IH]; [done|].
  by rewrite mapM_getitem_cons, Hp, IH.
Qed.

Lemma mapM_getitem_raise d (pre rest : list Z) (p : Z) :
  Forall (λ q, is_Some (d !! q)) pre → d !! p = None →
  mapM (getitem d) (pre ++ p :: rest) = Raise (KeyError p).
Proof.
  intros Hpre Hp. induction Hpre as [|q pre [l Hq] _ IH]; cbn [app].
  - by rewrite mapM_getitem_cons, Hp.
  - by rewrite mapM_getitem_cons, Hq, IH.
Qed.

Lemma predict_hard_unfold s a indices :
  predict s a indices false
  = (mapM (getitem (_code_to_label s))
       (predicted_code (model s) (_validate_anndata s a)
          <$> _make_posterior (_validate_anndata s a) indices))
      ≫= (λ ls, Ok (Labels ls)).
Proof. reflexivity. Qed.

(** C5. Hard mode, on a model whose code table is the one the
    constructor builds.  When every predicted code is a position of the
    label mapping, the result has one label per queried cell, in the
    order queried, each the mapping's entry at the cell's code.  The
    first code outside the mapping makes the call raise [KeyError] on
    that code.  With the mapping [[A; B]] and the codes [[0; 1; 0; 1]]
    the result is [[A; B; A; B]]. *)
Theorem predict_hard_spec s a indices :
  _code_to_label s = dict_of (enumerate (_label_mapping s)) →
  let a' := _validate_anndata s a in
  let post := _make_posterior a' indices in
  let code := predicted_code (model s) a' in
  let L := Z.of_nat (length (_label_mapping s)) in
  ((∀ i, i ∈ post → 0 ≤ code i < L) →
     ∃ ls, predict s a indices false = Ok (Labels ls)
           ∧ length ls = length post
           ∧ ∀ j i, post !! j = Some i →
                    ls !! j = _label_mapping s !! Z.to_nat (code i))
  ∧ (∀ pre i rest,
       post = pre ++ i :: rest →
       (∀ i', i' ∈ pre → 0 ≤ code i' < L) →
       ¬ (0 ≤ code i < L) →
       predict s a indices false = Raise (KeyError (code i)))
  ∧ (∀ A B,
       _label_mapping s = [A; B] → code <$> post = [0; 1; 0; 1] →
       predict s a indices false = Ok (Labels [A; B; A; B])).
Proof.
  intros Hd a' post code L.
  assert (∀ p, 0 ≤ p < L →
               ∃ l, _code_to_label s !! p = Some l
                    ∧ _label_mapping s !! Z.to_nat p = Some l) as Hin.
  { intros p Hp. rewrite Hd, lookup_dict_of_enumerate.
    rewrite decide_True by lia.
    destruct (lookup_lt_is_Some_2 (_label_mapping s) (Z.to_nat p)) as [l Hl];
      [lia|]. eauto. }
  assert (∀ p, ¬ (0 ≤ p < L) → _code_to_label s !! p = None) as Hout.
  { intros p Hp. rewrite Hd, lookup_dict_of_enumerate.
    case_decide; [|done]. apply lookup_ge_None. lia. }
  split; [|split].
  - intros Hall.
    set (ls := omap (λ i, _label_mapping s !! Z.to_nat (code i)) post).
    assert (Forall2 (λ p l, _code_to_label s !! p = Some l) (code <$> post) ls
            ∧ ∀ j i, post !! j = Some i →
                     ls !! j = _label_mapping s !! Z.to_nat (code i)) as [HF Hj].
    { subst ls. clearbody post. induction post as [|i post IH]; [split; [constructor|done]|].
      destruct (Hin (code i)) as (l & Hc & Hm); [apply Hall; left|].
      destruct IH as [IH1 IH2]; [intros; apply Hall; by right|].
      cbn. rewrite Hm. cbn. split; [by constructor|].
      intros [|j] i'; cbn; [by intros [= <-] | apply IH2]. }
    exists ls. rewrite predict_hard_unfold. fold a' post code.
    rewrite (mapM_getitem_ok _ _ _ HF). split; [done|]. split; [|done].
    apply Forall2_length in HF. by rewrite length_fmap in HF.
  - intros pre i rest Hpost Hpre Hi.
    rewrite predict_hard_unfold. fold a' post code.
    rewrite Hpost, fmap_app, fmap_cons.
    rewrite mapM_getitem_raise; [done| |by apply Hout].
    apply Forall_fmap, Forall_forall. intros i' Hi'. simpl.
    destruct (Hin (code i')) as (l & Hl & _); [by apply Hpre|]. by rewrite Hl.
  - intros A B HAB Hcodes.
    rewrite predict_hard_unfold. fold a' post code.
    rewrite Hcodes, Hd, HAB. reflexivity.
Qed.

(** Soft mode with a subset of another length than the dataset: the
    frame's index is the whole of [obs_names], so pandas refuses it. *)
Lemma predict_soft_subset_raises s a ix :
  length ix ≠ length (obs_names (_validate_anndata s a)) →
  predict s a (Some ix) true
  = Raise (ValueError "Shape of passed values does not match the indices").
Proof.
  intros Hn. unfold predict, pd_DataFrame. cbn [negb rows ncols _make_posterior].
  rewrite length_fmap. apply Nat.eqb_neq in Hn. by rewrite Hn.
Qed.

(** Soft mode over all cells: the columns are the label mapping in code
    order, the rows the cells in order, the entries the posterior's. *)
Lemma predict_soft_all s a :
  n_classes (model s) = length (_label_mapping s) →
  let a' := _validate_anndata s a in
  predict s a None true
  = Ok (Table {| df_columns := _label_mapping s;
                 df_index := obs_names a';
                 df_values := predicted_proba (model s) a'
                                <$> seq 0 (length (obs_names a')) |}).
Proof.
  intros Hn a'. unfold predict, pd_DataFrame.
  cbn [negb rows ncols _make_posterior]. fold a'.
  rewrite length_fmap, length_seq, Hn, !Nat.eqb_refl. reflexivity.
Qed.
End PredictFacts.


Section TrainFacts.
Context {label tensor pyobj : Type} `{!Collaborators label tensor pyobj}.
Implicit Types (w : world label tensor pyobj) (a : train_args pyobj).

Lemma train_unfold a w :
  train a w
  = match resolve_epochs a (shape0 (adata (self w))) with
    | Ok (n_u, n_s) =>
        let w1 := (phase1 a n_u w).2 in
        let w2 := (transplant w1).2 in
        match (transplant w1).1 with
        | Ok _ => phase2 n_s w2
        | Raise e => (Raise e, w2)
        end
    | Raise e => (Raise e, w)
    end.
Proof.
  unfold train. cbv [mbind exec_bind get lift].
  destruct (resolve_epochs a (shape0 (adata (self w)))) as [[n_u n_s]|e]; [|done].
  unfold phase1 at 1. cbv [mbind exec_bind get lift mret exec_ret].
  destruct (_is_trained_base (self w)) eqn:Hb; cbn [negb].
  - unfold phase1. cbv [mbind exec_bind get lift mret exec_ret].
    rewrite Hb. cbn [negb snd].
    by destruct (transplant w) as [[] ?].
  - unfold phase1. cbv [mbind exec_bind get lift mret exec_ret modify emit].
    rewrite Hb. cbn [negb snd self trace].
    by destruct (transplant _) as [[] ?].
Qed.

Lemma phase1_skipped a n_u w :
  _is_trained_base (self w) = true → phase1 a n_u w = (Ok tt, w).
Proof.
  intros Hb. unfold phase1. cbv [mbind exec_bind get mret exec_ret].
  by rewrite Hb.
Qed.

Lemma phase1_runs a n_u w :
  _is_trained_base (self w) = false →
  ∃ t, phase1 a n_u w
       = (Ok tt, {| self := pretrained a n_u (self w);
                    trace := trace w ++ [New_UnsupervisedTrainer t;
                                         UnsupervisedTrainer_train_call n_u] |}).
Proof.
  intros Hb. unfold phase1.
  cbv [mbind exec_bind get mret exec_ret modify emit].
  rewrite Hb. cbn [negb self trace]. eexists.
  rewrite <- app_assoc. reflexivity.
Qed.

Lemma phase1_ok a n_u w : (phase1 a n_u w).1 = Ok tt.
Proof.
  destruct (_is_trained_base (self w)) eqn:Hb.
  - by rewrite phase1_skipped.
  - by destruct (phase1_runs a n_u w Hb) as [t ->].
Qed.

Lemma transplant_run w :
  transplant w
  = ((load_state_dict shape (model (self w)) (_base_model (self w)) false).2,
     {| self := set_model
                  (copy_matching shape (model (self w)) (_base_model (self w)))
                  (self w);
        trace := trace w ++ [Load_state_dict] |}).
Proof. reflexivity. Qed.

Lemma phase2_run n_s w :
  phase2 n_s w
  = (Ok tt,
     {| self := set_is_trained true
                  (set_model
                     (SemiSupervisedTrainer_train (model (self w))
                        (adata (self w)) (views (self w)) n_s)
                     (set_trainer (Some (views (self w))) (self w)));
        trace := trace w ++ [New_SemiSupervisedTrainer (model (self w));
                             Create_posterior (_unlabeled_indices (self w));
                             Create_posterior (_labeled_indices (self w));
                             SemiSupervisedTrainer_train_call n_s] |}).
Proof.
  unfold phase2. cbv [mbind exec_bind get mret exec_ret modify emit].
  cbn [self trace]. rewrite <- !app_assoc. reflexivity.
Qed.

(** Whatever a call of [train] does, it leaves the dataset, the label
    tables and the partition as the constructor made them. *)
Lemma train_frame a w :
  let s' := self (train a w).2 in
  adata s' = adata (self w)
  ∧ _label_mapping s' = _label_mapping (self w)
  ∧ _code_to_label s' = _code_to_label (self w)
  ∧ _labeled_indices s' = _labeled_indices (self w)
  ∧ _unlabeled_indices s' = _unlabeled_indices (self w).
Proof.
  cbv zeta. rewrite train_unfold.
  destruct (resolve_epochs a _) as [[n_u n_s]|]; [|done]. cbv zeta.
  assert (∀ w1, phase1 a n_u w = (Ok tt, w1) →
                adata (self w1) = adata (self w)
                ∧ _label_mapping (self w1) = _label_mapping (self w)
                ∧ _code_to_label (self w1) = _code_to_label (self w)
                ∧ _labeled_indices (self w1) = _labeled_indices (self w)
                ∧ _unlabeled_indices (self w1) = _unlabeled_indices (self w)) as H1.
  { intros w1. destruct (_is_trained_base (self w)) eqn:Hb.
    - rewrite phase1_skipped by done. by intros [= <-].
    - destruct (phase1_runs a n_u w Hb) as [t ->]. by intros [= <-]. }
  pose proof (phase1_ok a n_u w) as Hok.
  destruct (phase1 a n_u w) as [r w1]. cbn [fst snd] in *. subst r.
  specialize (H1 w1 eq_refl). rewrite transplant_run. cbn [fst snd].
  destruct (load_state_dict shape _ _ false).2; [rewrite phase2_run|]; apply H1.
Qed.

(** With no unsupervised override and no cell, [train] raises at once and
    leaves the object and the trace alone. *)
Lemma train_empty_dataset a w :
  n_epochs_unsupervised a = None →
  shape0 (adata (self w)) = 0 →
  train a w = (Raise ZeroDivisionError, w).
Proof.
  intros Ha Hn. rewrite train_unfold. unfold resolve_epochs.
  by rewrite Ha, Hn.
Qed.

(** C9. The default unsupervised epoch count of an observation set with
    zero observations is an error: the division raises
    [ZeroDivisionError] (the spec's [InvalidDatasetSize]), and a call of
    [train] that needs the default raises it before doing anything. *)
Theorem default_n_epochs_unsupervised_zero :
  default_n_epochs_unsupervised 0 = Raise ZeroDivisionError
  ∧ ∀ a w, n_epochs_unsupervised a = None →
           shape0 (adata (self w)) = 0 →
           train a w = (Raise ZeroDivisionError, w).
Proof. split; [reflexivity | apply train_empty_dataset]. Qed.

(** C7 (amended). After the transplant, a parameter of the
    semi-supervised model that the base model has under the same name
    with the same shape equals the base model's; a parameter the base
    model lacks keeps its value, and so does one whose shape differs; no
    parameter is added and the base model is untouched.  Names present on
    one side only are no error: the step raises [RuntimeError] exactly
    when some name is present on both sides with different shapes. *)
Theorem transplant_spec w :
  let own := model (self w) in
  let src := _base_model (self w) in
  let own' := model (self (transplant w).2) in
  (∀ k v b, own !! k = Some v → src !! k = Some b → shape b = shape v →
            own' !! k = Some b)
  ∧ (∀ k v, own !! k = Some v → src !! k = None → own' !! k = Some v)
  ∧ (∀ k v b, own !! k = Some v → src !! k = Some b → shape b ≠ shape v →
              own' !! k = Some v)
  ∧ dom own' = dom own
  ∧ _base_model (self (transplant w).2) = src
  ∧ ((transplant w).1 = Ok tt ↔ compatible shape own src)
  ∧ (¬ compatible shape own src →
     (transplant w).1 = Raise (RuntimeError "Error(s) in loading state_dict")).
Proof.
  intros own src own'. subst own'. rewrite transplant_run.
  cbn [fst snd self model _base_model set_model]. fold own src. repeat split.
  - intros k v b Hv Hb Hs. rewrite lookup_copy_matching, Hv, Hb.
    by rewrite decide_True.
  - intros k v Hv Hb. by rewrite lookup_copy_matching, Hv, Hb.
  - intros k v b Hv Hb Hs. rewrite lookup_copy_matching, Hv, Hb.
    by rewrite decide_False.
  - apply set_eq. intros k. rewrite !elem_of_dom.
    rewrite <- !(fmap_is_Some shape), copy_matching_shape. done.
  - by intros ?%load_state_dict_result.
  - by intros ?%load_state_dict_result.
  - apply load_state_dict_raises.
Qed.

(** C10. Whenever [train] gets past its epoch schedule, the transplant
    runs right after phase 1, whether phase 1 ran or was skipped: the
    parameters [m] the semi-supervised trainer is built on carry the base
    model's value at every name the two models share with equal shapes,
    whatever fine-tuning had left there, and phase 2 trains from [m]. *)
Theorem train_always_transplants a w n_u n_s :
  resolve_epochs a (shape0 (adata (self w))) = Ok (n_u, n_s) →
  let w1 := (phase1 a n_u w).2 in
  let base := _base_model (self w1) in
  let m := copy_matching shape (model (self w)) base in
  (_is_trained_base (self w) = true → w1 = w)
  ∧ (∀ k v b, model (self w) !! k = Some v → base !! k = Some b →
              shape b = shape v → m !! k = Some b)
  ∧ (compatible shape (model (self w)) base →
     ∃ w', train a w = (Ok tt, w')
           ∧ trace w' = trace w1 ++
               [Load_state_dict;
                New_SemiSupervisedTrainer m;
                Create_posterior (_unlabeled_indices (self w));
                Create_posterior (_labeled_indices (self w));
                SemiSupervisedTrainer_train_call n_s]
           ∧ model (self w')
             = SemiSupervisedTrainer_train m (adata (self w)) (views (self w)) n_s)
  ∧ (¬ compatible shape (model (self w)) base →
     ∃ w', train a w = (Raise (RuntimeError "Error(s) in loading state_dict"), w')
           ∧ trace w' = trace w1 ++ [Load_state_dict]
           ∧ model (self w') = m).
Proof.
  intros Hr w1 base m.
  assert (model (self w1) = model (self w)
          ∧ adata (self w1) = adata (self w)
          ∧ _unlabeled_indices (self w1) = _unlabeled_indices (self w)
          ∧ _labeled_indices (self w1) = _labeled_indices (self w)
          ∧ use_cuda (self w1) = use_cuda (self w)) as (Hm & Ha & Hu & Hl & Hc).
  { subst w1. destruct (_is_trained_base (self w)) eqn:Hb.
    - by rewrite phase1_skipped.
    - by destruct (phase1_runs a n_u w Hb) as [t ->]. }
  split; [|split; [|split]].
  - intros Hb. subst w1. by rewrite phase1_skipped.
  - intros k v b Hv Hb Hs. subst m. rewrite lookup_copy_matching, Hv, Hb.
    by rewrite decide_True.
  - intros Hcompat. rewrite train_unfold, Hr. cbv zeta. fold w1.
    rewrite transplant_run. cbn [fst snd]. rewrite Hm. fold base.
    rewrite (proj2 (load_state_dict_result shape _ _) Hcompat).
    rewrite phase2_run. eexists. split; [reflexivity|].
    cbn [self trace model adata set_model set_is_trained set_trainer
         _unlabeled_indices _labeled_indices use_cuda views].
    unfold views. cbn [set_model use_cuda _unlabeled_indices _labeled_indices].
    rewrite Ha, Hu, Hl, Hc, <- app_assoc. done.
  - intros Hn. rewrite train_unfold, Hr. cbv zeta. fold w1.
    rewrite transplant_run. cbn [fst snd]. rewrite Hm. fold base.
    rewrite (load_state_dict_raises shape _ _ Hn).
    eexists. split; [reflexivity|]. done.
Qed.

(** C2. After a first complete call, a second call (whose epoch schedule
    resolves) completes too, builds no unsupervised trainer and leaves
    the base model's parameters as they were, yet transplants and runs
    phase 2: its trace is exactly the transplant and the four
    semi-supervised events. *)
Theorem train_twice_skips_phase1 a1 a2 w0 w1 n_u n_s :
  (∀ m ad t n k,
     shape <$> SemiSupervisedTrainer_train m ad t n !! k = shape <$> m !! k) →
  train a1 w0 = (Ok tt, w1) →
  resolve_epochs a2 (shape0 (adata (self w1))) = Ok (n_u, n_s) →
  let m := copy_matching shape (model (self w1)) (_base_model (self w1)) in
  ∃ w2, train a2 w1 = (Ok tt, w2)
        ∧ _base_model (self w2) = _base_model (self w1)
        ∧ _is_trained_base (self w2) = true
        ∧ _unsupervised_trainer (self w2) = _unsupervised_trainer (self w1)
        ∧ trace w2 = trace w1 ++
            [Load_state_dict;
             New_SemiSupervisedTrainer m;
             Create_posterior (_unlabeled_indices (self w1));
             Create_posterior (_labeled_indices (self w1));
             SemiSupervisedTrainer_train_call n_s]
        ∧ model (self w2)
          = SemiSupervisedTrainer_train m (adata (self w1)) (views (self w1)) n_s
        ∧ is_trained (self w2) = true.
Proof.
  intros Hshape H1 H2 m.
  (* what the first call established *)
  assert (_is_trained_base (self w1) = true
          ∧ compatible shape (model (self w1)) (_base_model (self w1)))
    as [Hb Hcompat].
  { rewrite train_unfold in H1.
    destruct (resolve_epochs a1 _) as [[n_u1 n_s1]|]; [|done].
    cbv zeta in H1. set (v := (phase1 a1 n_u1 w0).2) in *.
    assert (_is_trained_base (self v) = true) as Hbv.
    { subst v. destruct (_is_trained_base (self w0)) eqn:Hb0.
      - by rewrite phase1_skipped.
      - by destruct (phase1_runs a1 n_u1 w0 Hb0) as [t ->]. }
    rewrite transplant_run in H1. cbn [fst snd] in H1.
    destruct (load_state_dict shape _ _ false).2 as [[]|] eqn:Hl; [|done].
    apply load_state_dict_result in Hl.
    rewrite phase2_run in H1. injection H1 as <-.
    cbn [self trace model _base_model _is_trained_base
         set_model set_is_trained set_trainer].
    split; [done|].
    intros k x b Hx Hb.
    assert (shape <$> model (self v) !! k = Some (shape x)) as Hk.
    { rewrite <- (copy_matching_shape shape _ (_base_model (self v))).
      rewrite <- (Hshape _ (adata (self v)) (views
        {| self := set_model (copy_matching shape (model (self v))
                                (_base_model (self v))) (self v);
           trace := trace v ++ [Load_state_dict] |}.(self)) n_s1 k).
      cbn [self model set_model] in Hx |- *. by rewrite Hx. }
    destruct (model (self v) !! k) as [x0|] eqn:Hx0; [|done].
    injection Hk as <-. by eapply Hl. }
  rewrite train_unfold, H2. cbv zeta.
  rewrite phase1_skipped by done. cbn [snd].
  rewrite transplant_run. cbn [fst snd].
  rewrite (proj2 (load_state_dict_result shape _ _) Hcompat).
  rewrite phase2_run. eexists. split; [reflexivity|].
  cbn [self trace model adata set_model set_is_trained set_trainer
       _base_model _is_trained_base _unsupervised_trainer is_trained
       _unlabeled_indices _labeled_indices use_cuda views].
  rewrite <- app_assoc. done.
Qed.
End TrainFacts.

(** ** More on the schedule *)

Section Schedule.
Import Float64.

(** The sign of the input only decides the sign of the result. *)
Lemma of_int_neg (p : positive) :
  of_int (Zneg p)
  = match of_int (Zpos p) with
    | Ok (S754_finite _ m e) => Ok (S754_finite true m e)
    | Ok (S754_zero _) => Ok (S754_zero true)
    | r => r
    end.
Proof.
  unfold of_int, binary_normalize, binary_round.
  destruct (shl_align p 0 (fexp prec emax (Z.pos (digits2_pos p) + 0))) as [mz ez].
  unfold binary_round_aux.
  destruct (shr_fexp prec emax (Z.pos mz) ez loc_Exact) as [mrs1 e1].
  destruct (shr_fexp prec emax _ e1 loc_Exact) as [mrs2 e2].
  destruct (shr_m mrs2); [done| |done].
  by destruct (e2 <=? emax - prec).
Qed.

Lemma round_half_even_nonneg m d : 0 ≤ m → 0 < d → 0 ≤ round_half_even m d.
Proof.
  intros. pose proof (round_half_even_lower m d).
  assert (0 ≤ m / d) by (apply Z.div_pos; lia). lia.
Qed.

(** [round] of a finite number with the sign bit set returns, and what it
    returns is not positive. *)
Lemma round_finite_signed m e :
  ∃ r, round (S754_finite true m e) = Ok r ∧ r ≤ 0.
Proof.
  unfold round. eexists. split; [reflexivity|].
  destruct e as [|p|p].
  - lia.
  - assert (0 < 2 ^ Zpos p) by (apply Z.pow_pos_nonneg; lia). nia.
  - assert (0 < 2 ^ Zpos p) by (apply Z.pow_pos_nonneg; lia).
    pose proof (round_half_even_nonneg (Zpos m) (2 ^ Zpos p) ltac:(lia) ltac:(lia)).
    lia.
Qed.
End Schedule.

(** Every count that converts to a float: the heuristic is the exact
    formula. *)
Lemma default_n_epochs_semisupervised_exact n :
  0 ≤ n < 2 ^ 1024 - 2 ^ 970 →
  default_n_epochs_semisupervised n
  = Ok (Z.min 10 (Z.max 2 (Float64.round_half_even n 3))).
Proof.
  intros [Hn HT].
  destruct (Z.lt_ge_cases n 64) as [Hs|Hl].
  { apply default_n_epochs_semisupervised_small. lia. }
  assert (Z.min 10 (Z.max 2 (Float64.round_half_even n 3)) = 10) as ->.
  { pose proof (round_half_even_lower n 3).
    assert (21 ≤ n / 3) by (apply Z.div_le_lower_bound; lia). lia. }
  unfold default_n_epochs_semisupervised, Float64.int_div, Float64.three.
  destruct (of_int_ok n ltac:(lia)) as [[-> _]|(m & e & -> & Hm & He & HD)];
    [lia|].
  cbn [mbind result_bind mret result_ret].
  assert (7 ≤ Zdigits2 n) as Hd7.
  { destruct (Z.le_gt_cases 7 (Zdigits2 n)) as [|Hlt]; [done|].
    pose proof (Zdigits2_bounds n 6 ltac:(lia)). lia. }
  pose proof (SFdiv_finite_spec false m e false 6755399441055744 (-51)) as Hq.
  cbv zeta in Hq. change (Zdigits2 6755399441055744) with 53 in Hq.
  destruct (SFdiv Float64.prec Float64.emax (S754_finite false m e)
              (S754_finite false 6755399441055744 (-51)))
    as [s|s| |s m' e']; [| |done|].
  + lia.
  + lia.
  + destruct Hq as (-> & _ & _ & _ & Hlow). cbn [xorb].
    destruct (round_finite_pos m' e') as (r & -> & Hr).
    pose proof (shiftl_lower m' e' 4 ltac:(lia) ltac:(lia)).
    cbn [mbind result_bind mret result_ret]. f_equal. lia.
Qed.

(** A negative count that converts to a float gives the floor of two
    epochs. *)
Lemma default_n_epochs_semisupervised_neg n :
  - (2 ^ 1024 - 2 ^ 970) < n < 0 → default_n_epochs_semisupervised n = Ok 2.
Proof.
  intros [HT Hn]. destruct n as [|p|p]; [lia|lia|].
  unfold default_n_epochs_semisupervised, Float64.int_div, Float64.three.
  rewrite of_int_neg.
  destruct (of_int_ok (Zpos p) ltac:(lia)) as [[? _]|(m & e & -> & Hm & He & HD)];
    [lia|].
  cbn [mbind result_bind mret result_ret].
  pose proof (SFdiv_finite_spec true m e false 6755399441055744 (-51)) as Hq.
  cbv zeta in Hq. change (Zdigits2 6755399441055744) with 53 in Hq.
  destruct (SFdiv Float64.prec Float64.emax (S754_finite true m e)
              (S754_finite false 6755399441055744 (-51)))
    as [s|s| |s m' e']; [| |done|].
  + reflexivity.
  + lia.
  + destruct Hq as (-> & _). cbn [xorb].
    destruct (round_finite_signed m' e') as (r & -> & Hr).
    cbn [mbind result_bind mret result_ret]. f_equal. lia.
Qed.

Lemma default_n_epochs_semisupervised_raises n :
  2 ^ 1024 - 2 ^ 970 ≤ Z.abs n →
  default_n_epochs_semisupervised n = Raise OverflowError.
Proof.
  intros HT. unfold default_n_epochs_semisupervised, Float64.int_div.
  destruct n as [|p|p]; [lia| |].
  - by rewrite of_int_overflow by lia.
  - rewrite of_int_neg, of_int_overflow by lia. done.
Qed.

Section ScheduleShape.
Import Float64.

(** Where the rounded quotient crosses an integer [k]: strictly above the
    half-way point [k - 1/2] it is at least [k], strictly below it is less. *)
Lemma round_half_even_ge a n k :
  0 < n → (2 * k - 1) * n < 2 * a → k ≤ round_half_even a n.
Proof.
  intros Hn H. destruct (round_half_even_spec a n Hn) as [Hr _].
  cbv zeta in Hr. set (r := round_half_even a n) in *.
  destruct (Z.le_gt_cases k r) as [|Hlt]; [done|]. exfalso.
  assert ((2 * r + 1) * n ≤ (2 * k - 1) * n) by nia. lia.
Qed.

Lemma round_half_even_lt a n k :
  0 < n → 2 * a < (2 * k - 1) * n → round_half_even a n < k.
Proof.
  intros Hn H. destruct (round_half_even_spec a n Hn) as [Hr _].
  cbv zeta in Hr. set (r := round_half_even a n) in *.
  destruct (Z.lt_ge_cases r k) as [|Hge]; [done|]. exfalso.
  assert ((2 * k - 1) * n ≤ (2 * r - 1) * n) by nia. lia.
Qed.

(** More cells never round to more epochs. *)
Lemma round_half_even_antitone a n m :
  0 ≤ a → 0 < n → n ≤ m → round_half_even a m ≤ round_half_even a n.
Proof.
  intros Ha Hn Hm. destruct (Z.eq_dec n m) as [->|Hne]; [done|].
  destruct (Z.le_gt_cases (round_half_even a m) (round_half_even a n))
    as [|Hlt]; [done|]. exfalso.
  destruct (round_half_even_spec a n Hn) as [Hrn _].
  pose proof (round_half_even_nonneg a n Ha Hn) as H0.
  cbv zeta in Hrn. set (r := round_half_even a n) in *.
  assert (round_half_even a m < r + 1); [|lia].
  apply round_half_even_lt; [lia|].
  assert ((2 * r + 1) * n < (2 * r + 1) * m) by nia. lia.
Qed.

(** A third is never half way: the rounded third is within one of it. *)
Lemma round_half_even_third x :
  - 1 ≤ x - 3 * round_half_even x 3 ≤ 1.
Proof.
  destruct (round_half_even_spec x 3 ltac:(lia)) as [_ Hr]. cbv zeta in Hr.
  assert (2 * (x mod 3) ≠ 3) as Hodd by lia.
  specialize (Hr Hodd). lia.
Qed.
End ScheduleShape.

(** X1. Smaller datasets never get fewer default unsupervised epochs:
    for two dataset sizes [1 <= n <= m] both defaults are computed, and
    the one for [m] is at most the one for [n]. *)
Theorem default_n_epochs_unsupervised_antitone (n m : Z) :
  1 ≤ n → n ≤ m →
  ∃ a b, default_n_epochs_unsupervised n = Ok a
         ∧ default_n_epochs_unsupervised m = Ok b
         ∧ b ≤ a.
Proof.
  intros Hn Hm. eexists _, _.
  split; [apply default_n_epochs_unsupervised_exact; lia|].
  split; [apply default_n_epochs_unsupervised_exact; lia|].
  pose proof (round_half_even_antitone 8000000 n m ltac:(lia) ltac:(lia) Hm). lia.
Qed.

(** X2. The default unsupervised epoch count reaches the cap of 400
    exactly for the datasets of at most 20025 cells. *)
Theorem default_n_epochs_unsupervised_cap (n : Z) :
  1 ≤ n → (default_n_epochs_unsupervised n = Ok 400 ↔ n ≤ 20025).
Proof.
  intros Hn. rewrite default_n_epochs_unsupervised_exact by done. split.
  - intros [= H]. destruct (Z.le_gt_cases n 20025) as [|Hgt]; [done|]. exfalso.
    pose proof (round_half_even_lt 8000000 n 400 ltac:(lia) ltac:(lia)). lia.
  - intros H. f_equal.
    pose proof (round_half_even_ge 8000000 n 400 ltac:(lia) ltac:(lia)). lia.
Qed.

(** X3. The default unsupervised epoch count is 0 exactly for the
    datasets of 16000000 cells or more: from there on the unsupervised
    phase trains for no epoch at all. *)
Theorem default_n_epochs_unsupervised_vanishes (n : Z) :
  1 ≤ n → (default_n_epochs_unsupervised n = Ok 0 ↔ 16000000 ≤ n).
Proof.
  intros Hn. rewrite default_n_epochs_unsupervised_exact by done. split.
  - intros [= H]. destruct (Z.le_gt_cases 16000000 n) as [|Hlt]; [done|]. exfalso.
    pose proof (round_half_even_ge 8000000 n 1 ltac:(lia) ltac:(lia)). lia.
  - intros H. f_equal.
    pose proof (round_half_even_nonneg 8000000 n ltac:(lia) ltac:(lia)).
    destruct (Z.eq_dec n 16000000) as [->|]; [reflexivity|].
    pose proof (round_half_even_lt 8000000 n 1 ltac:(lia) ltac:(lia)). lia.
Qed.

(** X4. A negative unsupervised epoch count (an override: the heuristic
    gives none) that converts to a float gives the floor of 2
    semi-supervised epochs; at or below [-(2^1024 - 2^970)] the
    computation raises [OverflowError]. *)
Theorem default_n_epochs_semisupervised_negative :
  (∀ n : Z, - (2 ^ 1024 - 2 ^ 970) < n → n < 0 →
     default_n_epochs_semisupervised n = Ok 2)
  ∧ (∀ n : Z, n ≤ - (2 ^ 1024 - 2 ^ 970) →
       default_n_epochs_semisupervised n = Raise OverflowError).
Proof.
  split.
  - intros n ? ?. by apply default_n_epochs_semisupervised_neg.
  - intros n ?. apply default_n_epochs_semisupervised_raises. lia.
Qed.

(** With both heuristics: the schedule of a dataset of [n >= 1] cells. *)
Lemma default_schedule (n : Z) :
  1 ≤ n →
  let n_u := Z.min (Float64.round_half_even 8000000 n) 400 in
  default_n_epochs_unsupervised n = Ok n_u
  ∧ default_n_epochs_semisupervised n_u
    = Ok (Z.min 10 (Z.max 2 (Float64.round_half_even n_u 3)))
  ∧ 0 ≤ n_u ≤ 400.
Proof.
  intros Hn n_u.
  pose proof (round_half_even_nonneg 8000000 n ltac:(lia) ltac:(lia)).
  assert (0 ≤ n_u ≤ 400) as Hu by (subst n_u; lia).
  split; [by apply default_n_epochs_unsupervised_exact|]. split; [|done].
  apply default_n_epochs_semisupervised_exact.
  assert (400 < 2 ^ 1024 - 2 ^ 970) by reflexivity. lia.
Qed.

Section ResolveFacts.
Context {pyobj : Type}.
Implicit Types a : train_args pyobj.

(** How the first two statements of [train] can end, on a dataset of [n]
    cells. *)
Lemma resolve_epochs_cases a n :
  0 ≤ n →
  match resolve_epochs a n with
  | Ok (n_u, n_s) =>
      match n_epochs_unsupervised a with
      | Some u => n_u = u
      | None => 1 ≤ n ∧ n_u = Z.min (Float64.round_half_even 8000000 n) 400
      end
      ∧ match n_epochs_semisupervised a with
        | Some k => n_s = k
        | None => n_s = Z.min 10 (Z.max 2 (Float64.round_half_even n_u 3))
                  ∧ Z.abs n_u < 2 ^ 1024 - 2 ^ 970
        end
  | Raise e =>
      (e = ZeroDivisionError ∧ n_epochs_unsupervised a = None ∧ n = 0)
      ∨ (e = OverflowError ∧ n_epochs_semisupervised a = None
         ∧ ∃ u, n_epochs_unsupervised a = Some u ∧ 2 ^ 1024 - 2 ^ 970 ≤ Z.abs u)
  end.
Proof.
  intros Hn. unfold resolve_epochs.
  assert (400 < 2 ^ 1024 - 2 ^ 970) as H400 by reflexivity.
  assert (∀ u, Z.abs u < 2 ^ 1024 - 2 ^ 970 →
               default_n_epochs_semisupervised u
               = Ok (Z.min 10 (Z.max 2 (Float64.round_half_even u 3)))) as Hsemi.
  { intros u Hu. destruct (Z.lt_ge_cases u 0).
    - rewrite default_n_epochs_semisupervised_neg by lia. f_equal.
      pose proof (round_half_even_third u). lia.
    - apply default_n_epochs_semisupervised_exact. lia. }
  destruct (n_epochs_unsupervised a) as [u|] eqn:Eu;
    cbn [mbind result_bind mret result_ret].
  - destruct (n_epochs_semisupervised a) as [k|] eqn:Ek;
      cbn [mbind result_bind mret result_ret]; [done|].
    destruct (Z.lt_ge_cases (Z.abs u) (2 ^ 1024 - 2 ^ 970)) as [Hu|Hu].
    + rewrite Hsemi by done. cbn [mbind result_bind mret result_ret]. done.
    + rewrite default_n_epochs_semisupervised_raises by done.
      cbn [mbind result_bind]. right. eauto.
  - destruct (Z.eq_dec n 0) as [->|Hn0]; [by left|].
    destruct (default_schedule n ltac:(lia)) as (Hu & Hs & Hb). cbv zeta in *.
    rewrite Hu. cbn [mbind result_bind mret result_ret].
    destruct (n_epochs_semisupervised a) as [k|] eqn:Ek;
      cbn [mbind result_bind mret result_ret].
    + split; [split; [lia|done]|done].
    + rewrite Hs. cbn [mbind result_bind mret result_ret].
      split; [split; [lia|done]|]. split; [done|lia].
Qed.
End ResolveFacts.

(** X5. With no override at all, a dataset of at least one cell always
    gets a schedule: between 0 and 400 unsupervised epochs and between 2
    and 10 semi-supervised ones, ten of them up to 280701 cells and two of
    them from 1066667 cells on. *)
Theorem resolve_epochs_defaults {pyobj : Type} (a : train_args pyobj) (n : Z) :
  n_epochs_unsupervised a = None → n_epochs_semisupervised a = None →
  1 ≤ n →
  ∃ n_u n_s, resolve_epochs a n = Ok (n_u, n_s)
             ∧ 0 ≤ n_u ≤ 400 ∧ 2 ≤ n_s ≤ 10
             ∧ (n_s = 10 ↔ n ≤ 280701)
             ∧ (n_s = 2 ↔ 1066667 ≤ n).
Proof.
  intros Hu Hs Hn. unfold resolve_epochs. rewrite Hu, Hs.
  destruct (default_schedule n Hn) as (-> & E & Hb). cbv zeta in *.
  cbn [mbind result_bind mret result_ret]. rewrite E.
  cbn [mbind result_bind mret result_ret]. eexists _, _.
  split; [reflexivity|]. split; [done|]. split; [lia|].
  set (r := Float64.round_half_even 8000000 n) in *.
  pose proof (round_half_even_third (Z.min r 400)) as H3.
  set (t := Float64.round_half_even (Z.min r 400) 3) in *.
  split; split; intros H.
  - destruct (Z.le_gt_cases n 280701) as [|Hgt]; [done|]. exfalso.
    pose proof (round_half_even_lt 8000000 n 29 ltac:(lia) ltac:(lia)).
    fold r in H0. lia.
  - pose proof (round_half_even_ge 8000000 n 29 ltac:(lia) ltac:(lia)).
    fold r in H0. lia.
  - destruct (Z.le_gt_cases 1066667 n) as [|Hlt]; [done|]. exfalso.
    pose proof (round_half_even_ge 8000000 n 8 ltac:(lia) ltac:(lia)).
    fold r in H0. lia.
  - pose proof (round_half_even_lt 8000000 n 8 ltac:(lia) ltac:(lia)).
    fold r in H0. lia.
Qed.

(** ** More on [train] *)

Section StateDictMore.
Context {tensor : Type}.
Variable shape : tensor → list nat.
Implicit Types own src : gmap string tensor.

(** Loading the same source a second time changes nothing. *)
Lemma copy_matching_idemp own src :
  copy_matching shape (copy_matching shape own src) src
  = copy_matching shape own src.
Proof.
  apply map_eq. intros k. rewrite !lookup_copy_matching.
  destruct (own !! k) as [v|]; [|done].
  destruct (src !! k) as [b|]; [|done].
  case_decide as Hs; [by rewrite decide_True | by rewrite decide_False].
Qed.

(** Whether a load raises depends on the module's names and shapes only. *)
Lemma compatible_shapes own own' src :
  (∀ k, shape <$> own' !! k = shape <$> own !! k) →
  compatible shape own src → compatible shape own' src.
Proof.
  intros Hsh H k v' b Hv' Hb. specialize (Hsh k). rewrite Hv' in Hsh.
  destruct (own !! k) as [v|] eqn:Hv; [|done].
  injection Hsh as ->. by eapply H.
Qed.

Lemma load_state_dict_shapes own own' src :
  (∀ k, shape <$> own' !! k = shape <$> own !! k) →
  (load_state_dict shape own' src false).2
  = (load_state_dict shape own src false).2.
Proof.
  intros Hsh.
  destruct (load_state_dict shape own src false).2 as [[]|e] eqn:E.
  - apply load_state_dict_result. apply load_state_dict_result in E.
    by eapply compatible_shapes.
  - assert (¬ compatible shape own src) as Hn.
    { intros Hc%load_state_dict_result. congruence. }
    rewrite (load_state_dict_raises shape own src Hn) in E. injection E as <-.
    apply load_state_dict_raises. intros Hc. apply Hn.
    eapply compatible_shapes; [|done]. intros k. by rewrite Hsh.
Qed.

End StateDictMore.

Section TrainMore.
Context {label tensor pyobj : Type} `{!Collaborators label tensor pyobj}.
Implicit Types (w : world label tensor pyobj) (a : train_args pyobj).
Implicit Types (s : SCANVI label tensor pyobj).

Lemma set_model_same s : set_model (model s) s = s.
Proof. by destruct s. Qed.

(** The world after phase 1, whichever way it went. *)
Lemma phase1_fields a n_u w :
  let w1 := (phase1 a n_u w).2 in
  _is_trained_base (self w1) = true
  ∧ model (self w1) = model (self w)
  ∧ is_trained (self w1) = is_trained (self w)
  ∧ trainer (self w1) = trainer (self w)
  ∧ adata (self w1) = adata (self w)
  ∧ use_cuda (self w1) = use_cuda (self w)
  ∧ unlabeled_category (self w1) = unlabeled_category (self w)
  ∧ _label_mapping (self w1) = _label_mapping (self w)
  ∧ _code_to_label (self w1) = _code_to_label (self w)
  ∧ _labeled_indices (self w1) = _labeled_indices (self w)
  ∧ _unlabeled_indices (self w1) = _unlabeled_indices (self w).
Proof.
  cbv zeta. destruct (_is_trained_base (self w)) eqn:Hb.
  - rewrite phase1_skipped by done. cbn [snd]. by rewrite Hb.
  - destruct (phase1_runs a n_u w Hb) as [t ->]. done.
Qed.

(** One call of [train], in its three possible endings. *)
Lemma train_step a w :
  (∃ e, train a w = (Raise e, w)
        ∧ resolve_epochs a (shape0 (adata (self w))) = Raise e)
  ∨ ∃ n_u n_s,
      resolve_epochs a (shape0 (adata (self w))) = Ok (n_u, n_s)
      ∧ let w1 := (phase1 a n_u w).2 in
        let m := copy_matching shape (model (self w)) (_base_model (self w1)) in
        let w2 := {| self := set_model m (self w1);
                     trace := trace w1 ++ [Load_state_dict] |} in
        ((∃ e, train a w = (Raise e, w2)
               ∧ (load_state_dict shape (model (self w)) (_base_model (self w1))
                    false).2 = Raise e)
         ∨ (train a w = phase2 n_s w2
            ∧ compatible shape (model (self w)) (_base_model (self w1)))).
Proof.
  rewrite train_unfold.
  destruct (resolve_epochs a _) as [[n_u n_s]|e]; [|left; eauto].
  right. exists n_u, n_s. split; [done|]. cbv zeta.
  rewrite transplant_run. cbn [fst snd].
  destruct (phase1_fields a n_u w) as (_ & -> & _).
  destruct (load_state_dict shape _ _ false).2 as [[]|e] eqn:E.
  - right. split; [done|]. by apply load_state_dict_result.
  - left. eauto.
Qed.

(** The flags after one call: the trained flag is set exactly by a call
    that returns. *)
Lemma train_flags a w :
  let w' := (train a w).2 in
  is_trained (self w')
  = (if (train a w).1 is Ok _ then true else is_trained (self w))
  ∧ (_is_trained_base (self w) = true → _is_trained_base (self w') = true)
  ∧ (if (train a w).1 is Ok _
     then _is_trained_base (self w') = true ∧ is_Some (trainer (self w'))
     else trainer (self w') = trainer (self w)).
Proof.
  cbv zeta.
  destruct (train_step a w) as [(e & -> & _)|(n_u & n_s & _ & H)]; [done|].
  cbv zeta in H. destruct (phase1_fields a n_u w) as (Hb & _ & Hi & Ht & _).
  destruct H as [(e & -> & _)|[-> _]].
  - cbn [fst snd self is_trained _is_trained_base trainer set_model]. done.
  - rewrite phase2_run.
    cbn [fst snd self is_trained _is_trained_base trainer set_model
         set_is_trained set_trainer]. eauto.
Qed.

(** What one call leaves alone, whether it returns or raises. *)
Lemma train_frame_full a w :
  let s' := self (train a w).2 in
  adata s' = adata (self w)
  ∧ use_cuda s' = use_cuda (self w)
  ∧ unlabeled_category s' = unlabeled_category (self w)
  ∧ _label_mapping s' = _label_mapping (self w)
  ∧ _code_to_label s' = _code_to_label (self w)
  ∧ _labeled_indices s' = _labeled_indices (self w)
  ∧ _unlabeled_indices s' = _unlabeled_indices (self w).
Proof.
  cbv zeta.
  destruct (train_step a w) as [(e & -> & _)|(n_u & n_s & _ & H)]; [done|].
  cbv zeta in H.
  destruct (phase1_fields a n_u w) as (_ & _ & _ & _ & H1).
  destruct H as [(e & -> & _)|[-> _]]; [|rewrite phase2_run]; apply H1.
Qed.

(** *** What [train] raises *)


(** *** Invariants of the object over any number of calls *)

Lemma foldl_snoc {A B : Type} (f : A → B → A) (x : A) (l : list B) (y : B) :
  foldl f x (l ++ [y]) = f (foldl f x l) y.
Proof. by rewrite foldl_app. Qed.

(** X7. However often [train] is called on a constructed model, returning
    or raising, the dataset, the label mapping, the code table and the two
    index arrays stay the constructor's: code [i] decodes to the [i]-th
    label of the registry's mapping and to nothing outside it, and the
    arrays hold the cells whose label differs from, respectively equals,
    the sentinel. *)
Theorem train_keeps_tables (ad : AnnData label) u pm hp cuda s log
    (calls : list (train_args pyobj)) :
  __init__ ad u pm hp cuda = (Ok s, log) →
  let w := foldl (λ w a, (train a w).2) {| self := s; trace := log |} calls in
  adata (self w) = ad
  ∧ _label_mapping (self w) = label_mapping ad
  ∧ (∀ (i : nat) l, _code_to_label (self w) !! Z.of_nat i = Some l
                    ↔ label_mapping ad !! i = Some l)
  ∧ (∀ k, k < 0 → _code_to_label (self w) !! k = None)
  ∧ (∀ i, i ∈ _labeled_indices (self w)
          ↔ ∃ l, obs_labels ad !! i = Some l ∧ label_eq l u = false)
  ∧ (∀ i, i ∈ _unlabeled_indices (self w)
          ↔ ∃ l, obs_labels ad !! i = Some l ∧ label_eq l u = true).
Proof.
  intros Hi w.
  assert (adata (self w) = adata s
          ∧ _label_mapping (self w) = _label_mapping s
          ∧ _code_to_label (self w) = _code_to_label s
          ∧ _labeled_indices (self w) = _labeled_indices s
          ∧ _unlabeled_indices (self w) = _unlabeled_indices s)
    as (Ha & Hm & Hc & Hl & Hu).
  { subst w. induction calls as [|a calls IH] using rev_ind; [done|].
    rewrite foldl_snoc.
    destruct (train_frame_full a
      (foldl (λ w a, (train a w).2) {| self := s; trace := log |} calls))
      as (-> & _ & _ & -> & -> & -> & ->). exact IH. }
  rewrite Ha, Hm, Hc, Hl, Hu.
  destruct (init_fields _ _ _ _ _ _ _ Hi) as (El & Eu & Em & Ec & _).
  assert (adata s = ad) as ->.
  { unfold __init__ in Hi. destruct pm as [pm|].
    - destruct (scvi_is_trained pm); [|done]. by injection Hi as <- _.
    - by injection Hi as <- _. }
  split; [done|]. split; [done|]. split; [|split; [|split]].
  - intros i l. rewrite Ec, lookup_dict_of_enumerate, decide_True by lia.
    by rewrite Nat2Z.id.
  - intros k Hk. rewrite Ec, lookup_dict_of_enumerate. by rewrite decide_False by lia.
  - intros i. rewrite El, elem_of_argwhere, list_lookup_fmap.
    destruct (obs_labels ad !! i) as [l|]; simpl.
    + split; [intros [= ?%negb_true_iff]; eauto|].
      intros (? & [= <-] & ->). done.
    + split; [done | by intros (? & ? & _)].
  - intros i. rewrite Eu, elem_of_argwhere, list_lookup_fmap.
    destruct (obs_labels ad !! i) as [l|]; simpl.
    + split; [intros [= ?]; eauto|]. intros (? & [= <-] & ->). done.
    + split; [done | by intros (? & ? & _)].
Qed.

(** X8. After any sequence of calls of [train] on a constructed model,
    [is_trained] is true exactly when one of the calls returned; and when
    it is true, the base model counts as trained and the semi-supervised
    trainer is set. *)
Theorem is_trained_iff_returned (ad : AnnData label) u pm hp cuda s log
    (calls : list (train_args pyobj)) :
  __init__ ad u pm hp cuda = (Ok s, log) →
  let run := foldl (λ w a, (train a w).2) {| self := s; trace := log |} in
  let w := run calls in
  (is_trained (self w) = true
   ↔ ∃ i a, calls !! i = Some a ∧ (train a (run (take i calls))).1 = Ok tt)
  ∧ (is_trained (self w) = true →
     _is_trained_base (self w) = true ∧ is_Some (trainer (self w))).
Proof.
  intros Hi run w. subst w.
  induction calls as [|a calls IH] using rev_ind.
  - cbn. destruct (init_fields _ _ _ _ _ _ _ Hi) as (_ & _ & _ & _ & -> & _).
    split; [|done]. split; [done|]. by intros (i & a & ? & _).
  - assert (run (calls ++ [a]) = (train a (run calls)).2) as ->
      by (unfold run; by rewrite foldl_snoc).
    destruct IH as [IH1 IH2].
    destruct (train_flags a (run calls)) as (Ht & Hb & Hk). cbv zeta in *.
    assert ((∃ i a', (calls ++ [a]) !! i = Some a'
                     ∧ (train a' (run (take i (calls ++ [a])))).1 = Ok tt)
            ↔ (train a (run calls)).1 = Ok tt
              ∨ ∃ i a', calls !! i = Some a'
                        ∧ (train a' (run (take i calls))).1 = Ok tt) as ->.
    { split.
      - intros (i & a' & Hl & Hr).
        destruct (decide (i < length calls)%nat) as [Hlt|Hge].
        + right. exists i, a'. rewrite lookup_app_l in Hl by done.
          rewrite take_app_le in Hr by lia. done.
        + left. assert (i = length calls) as ->.
          { apply lookup_lt_Some in Hl. rewrite length_app in Hl. simpl in Hl. lia. }
          rewrite list_lookup_middle in Hl by done. injection Hl as <-.
          by rewrite take_app_length in Hr.
      - intros [Hr|(i & a' & Hl & Hr)].
        + exists (length calls), a. rewrite list_lookup_middle by done.
          by rewrite take_app_length.
        + exists i, a'. pose proof (lookup_lt_Some _ _ _ Hl).
          rewrite lookup_app_l by done. rewrite take_app_le by lia. done. }
    rewrite Ht.
    destruct (train a (run calls)).1 as [[]|e] eqn:E.
    + split; [split; eauto|]. intros _. exact Hk.
    + split.
      * rewrite IH1. split; [eauto|]. intros [?|?]; [done|done].
      * intros H. destruct (IH2 H) as [? ?]. rewrite Hk. eauto.
Qed.
End TrainMore.

Section TrainMore2.
Context {label tensor pyobj : Type} `{!Collaborators label tensor pyobj}.
Implicit Types (w : world label tensor pyobj) (a : train_args pyobj).
Implicit Types (s : SCANVI label tensor pyobj).

(** A call on an object whose base model counts as trained: the base
    model and the unsupervised trainer are not touched, and the trace
    gains no unsupervised run. *)
Lemma train_step_trained a w :
  _is_trained_base (self w) = true →
  let w' := (train a w).2 in
  _is_trained_base (self w') = true
  ∧ _base_model (self w') = _base_model (self w)
  ∧ _unsupervised_trainer (self w') = _unsupervised_trainer (self w)
  ∧ unsupervised_runs (trace w') = unsupervised_runs (trace w)
  ∧ (New_VAE ∈ trace w' → New_VAE ∈ trace w).
Proof.
  intros Hb. cbv zeta.
  destruct (train_step a w) as [(e & -> & _)|(n_u & n_s & _ & H)]; [done|].
  cbv zeta in H. rewrite phase1_skipped in H by done. cbn [snd] in H.
  destruct H as [(e & -> & _)|[-> _]].
  - cbn [snd self trace _is_trained_base _base_model _unsupervised_trainer
         set_model]. unfold unsupervised_runs. rewrite omap_app. cbn.
    rewrite app_nil_r. repeat split; try done.
    rewrite elem_of_app, elem_of_cons, elem_of_nil. by intros [?|[?|?]].
  - rewrite phase2_run.
    cbn [snd self trace _is_trained_base _base_model _unsupervised_trainer
         set_model set_is_trained set_trainer].
    unfold unsupervised_runs. rewrite !omap_app. cbn.
    rewrite !app_nil_r. repeat split; try done.
    rewrite !elem_of_app, !elem_of_cons, elem_of_nil.
    intuition congruence.
Qed.

(** A call on an object whose base model is still untrained: either the
    schedule fails and nothing happens, or the base model is trained, for
    the first time. *)
Lemma train_step_untrained a w :
  _is_trained_base (self w) = false →
  let w' := (train a w).2 in
  w' = w
  ∨ (_is_trained_base (self w') = true
     ∧ ∃ n, unsupervised_runs (trace w') = unsupervised_runs (trace w) ++ [n]).
Proof.
  intros Hb. cbv zeta.
  destruct (train_step a w) as [(e & -> & _)|(n_u & n_s & _ & H)]; [by left|].
  right. cbv zeta in H.
  destruct (phase1_runs a n_u w Hb) as [t Hp]. rewrite Hp in H. cbn [snd] in H.
  destruct H as [(e & -> & _)|[-> _]].
  - cbn [snd self trace _is_trained_base set_model]. split; [done|].
    exists n_u. unfold unsupervised_runs. rewrite !omap_app. cbn.
    by rewrite app_nil_r.
  - rewrite phase2_run.
    cbn [snd self trace _is_trained_base set_model set_is_trained set_trainer].
    split; [done|]. exists n_u. unfold unsupervised_runs. rewrite !omap_app. cbn.
    by rewrite !app_nil_r.
Qed.

(** X9. A model built on a pretrained one never trains its base model:
    after any sequence of calls of [train] the base parameters are still
    the pretrained model's, no unsupervised trainer was built or run, and
    no [VAE] was constructed. *)
Theorem pretrained_base_is_kept (ad : AnnData label) u pm hp cuda s log
    (calls : list (train_args pyobj)) :
  __init__ ad u (Some pm) hp cuda = (Ok s, log) →
  let w := foldl (λ w a, (train a w).2) {| self := s; trace := log |} calls in
  _base_model (self w) = scvi_model pm
  ∧ _is_trained_base (self w) = true
  ∧ _unsupervised_trainer (self w) = None
  ∧ unsupervised_runs (trace w) = []
  ∧ New_VAE ∉ trace w.
Proof.
  intros Hi w. subst w.
  assert (s = assemble ad u hp cuda (scvi_model pm) true ∧ log = [New_SCANVAE])
    as [-> ->].
  { unfold __init__ in Hi. destruct (scvi_is_trained pm); [|done].
    by injection Hi as <- <-. }
  induction calls as [|a calls IH] using rev_ind.
  - cbn. repeat split; try done.
    rewrite elem_of_cons, elem_of_nil. by intros [?|?].
  - rewrite foldl_snoc. destruct IH as (IH1 & IH2 & IH3 & IH4 & IH5).
    destruct (train_step_trained a _ IH2) as (-> & -> & -> & -> & H5).
    repeat split; try done. intros H. by apply IH5, H5.
Qed.

(** X10. A model built without a pretrained one trains its base model at
    most once, however often [train] is called: once the base counts as
    trained the trace holds exactly one unsupervised run; until then it
    holds none, and every call so far has failed at the schedule and left
    the constructor's object. *)
Theorem unsupervised_phase_runs_once (ad : AnnData label) u hp cuda s log
    (calls : list (train_args pyobj)) :
  __init__ ad u None hp cuda = (Ok s, log) →
  let w := foldl (λ w a, (train a w).2) {| self := s; trace := log |} calls in
  if _is_trained_base (self w)
  then ∃ n, unsupervised_runs (trace w) = [n]
  else unsupervised_runs (trace w) = [] ∧ w = {| self := s; trace := log |}.
Proof.
  intros Hi w. subst w.
  assert (_is_trained_base s = false ∧ log = [New_VAE; New_SCANVAE]) as [Hb ->].
  { unfold __init__ in Hi. by injection Hi as <- <-. }
  induction calls as [|a calls IH] using rev_ind.
  - cbn. by rewrite Hb.
  - rewrite foldl_snoc.
    set (w := foldl (λ w a, (train a w).2) _ calls) in *.
    destruct (_is_trained_base (self w)) eqn:Hw.
    + destruct IH as [n Hn].
      destruct (train_step_trained a w Hw) as (-> & _ & _ & -> & _). eauto.
    + destruct IH as [Hr Hw0].
      destruct (train_step_untrained a w Hw) as [->|[-> [n ->]]].
      * by rewrite Hw.
      * exists n. by rewrite Hr.
Qed.

(** X11. Once the transplant has raised, it raises again on every later
    call whose schedule resolves: the retry skips phase 1, records the
    load in the trace and leaves the object as it was. *)
Theorem transplant_failure_is_permanent a1 a2 w msg n_u n_s :
  (train a1 w).1 = Raise (RuntimeError msg) →
  let w1 := (train a1 w).2 in
  resolve_epochs a2 (shape0 (adata (self w1))) = Ok (n_u, n_s) →
  train a2 w1
  = (Raise (RuntimeError msg),
     {| self := self w1; trace := trace w1 ++ [Load_state_dict] |}).
Proof.
  intros H1 w1 H2. subst w1.
  destruct (train_step a1 w) as [(e & Ht & Hs)|(n_u1 & n_s1 & _ & H)].
  { exfalso. rewrite Ht in H1. injection H1 as ->.
    pose proof (resolve_epochs_cases a1 (shape0 (adata (self w)))
                  ltac:(unfold shape0; lia)) as Hc.
    rewrite Hs in Hc. by destruct Hc as [(? & _)|(? & _)]. }
  cbv zeta in H. destruct (phase1_fields a1 n_u1 w) as (Hb & _).
  destruct H as [(e & Ht & Hl)|[Ht _]]; [|by rewrite Ht, phase2_run in H1].
  rewrite Ht in H1, H2 |- *. cbn [fst snd] in *. injection H1 as ->.
  set (w1 := (phase1 a1 n_u1 w).2) in *.
  set (m := copy_matching shape (model (self w)) (_base_model (self w1))) in *.
  set (w2 := {| self := set_model m (self w1);
                trace := trace w1 ++ [Load_state_dict] |}) in *.
  assert (_is_trained_base (self w2) = true) as Hb2 by done.
  destruct (train_step a2 w2) as [(e & _ & Hs)|(n_u2 & n_s2 & _ & H)].
  { by rewrite H2 in Hs. }
  cbv zeta in H. rewrite phase1_skipped in H by done. cbn [snd] in H.
  change (model (self w2)) with m in H.
  change (_base_model (self w2)) with (_base_model (self w1)) in H.
  assert ((load_state_dict shape m (_base_model (self w1)) false).2
          = Raise (RuntimeError msg)) as Hl2.
  { rewrite <- Hl. apply load_state_dict_shapes. intros k.
    apply copy_matching_shape. }
  destruct H as [(e & -> & He)|[_ Hc]].
  - rewrite Hl2 in He. injection He as <-. f_equal.
    f_equal. subst m. rewrite copy_matching_idemp.
    subst w2. cbn [self]. by destruct (self w1).
  - apply load_state_dict_result in Hc. by rewrite Hl2 in Hc.
Qed.

(** X12. The transplant is idempotent: made a second time it leaves the
    object as the first left it, and ends the same way. *)
Theorem transplant_idempotent w :
  let w1 := (transplant w).2 in
  self (transplant w1).2 = self w1
  ∧ (transplant w1).1 = (transplant w).1.
Proof.
  cbv zeta. rewrite !transplant_run.
  cbn [fst snd self model _base_model set_model]. split.
  - rewrite copy_matching_idemp. by destruct (self w).
  - apply load_state_dict_shapes. intros k. apply copy_matching_shape.
Qed.
End TrainMore2.

Section TrainArguments.
Context {label tensor pyobj : Type} `{!Collaborators label tensor pyobj}.
Implicit Types (w : world label tensor pyobj) (a : train_args pyobj).

Lemma resolve_epochs_ext a a' n :
  n_epochs_unsupervised a = n_epochs_unsupervised a' →
  n_epochs_semisupervised a = n_epochs_semisupervised a' →
  resolve_epochs a n = resolve_epochs a' n.
Proof. intros Hu Hs. unfold resolve_epochs. by rewrite Hu, Hs. Qed.

(** X13. [semisupervised_trainer_kwargs] is never used: changing it does
    not change what [train] does.  And once the base model counts as
    trained, [train] depends on its two epoch counts alone: the sizes,
    the learning rate, the warm-up, the frequency and the keyword
    dictionaries go to the unsupervised trainer only. *)
Theorem train_ignored_arguments :
  (∀ a (kwargs : pyobj) w,
     train {| n_epochs_unsupervised := n_epochs_unsupervised a;
              n_epochs_semisupervised := n_epochs_semisupervised a;
              train_size := train_size a;
              test_size := test_size a;
              lr := lr a;
              n_iter_kl_warmup := n_iter_kl_warmup a;
              n_epochs_kl_warmup := n_epochs_kl_warmup a;
              frequency := frequency a;
              unsupervised_trainer_kwargs := unsupervised_trainer_kwargs a;
              semisupervised_trainer_kwargs := kwargs;
              train_kwargs := train_kwargs a |} w
     = train a w)
  ∧ (∀ a a' w,
       _is_trained_base (self w) = true →
       n_epochs_unsupervised a = n_epochs_unsupervised a' →
       n_epochs_semisupervised a = n_epochs_semisupervised a' →
       train a w = train a' w).
Proof.
  split.
  - intros a kwargs w. rewrite !train_unfold.
    rewrite (resolve_epochs_ext _ a) by done.
    destruct (resolve_epochs a _) as [[n_u n_s]|]; [|done].
    assert (phase1 {| n_epochs_unsupervised := n_epochs_unsupervised a;
                      semisupervised_trainer_kwargs := kwargs |} n_u w
            = phase1 a n_u w) as -> by reflexivity.
    done.
  - intros a a' w Hb Hu Hs. rewrite !train_unfold.
    rewrite (resolve_epochs_ext a a') by done.
    destruct (resolve_epochs a' _) as [[n_u n_s]|]; [|done].
    by rewrite !phase1_skipped by done.
Qed.
End TrainArguments.

(** ** More on the constructor and on [predict] *)

Section ArgwhereMore.

Lemma argwhere_from_lower (mask : list bool) (k x : nat) :
  x ∈ argwhere_from k mask → (k ≤ x)%nat.
Proof. rewrite elem_of_argwhere_from. intros (j & -> & _). lia. Qed.

(** The positions come out in increasing order. *)
Lemma argwhere_from_increasing (mask : list bool) (k i j x y : nat) :
  (i < j)%nat →
  argwhere_from k mask !! i = Some x → argwhere_from k mask !! j = Some y →
  (x < y)%nat.
Proof.
  revert k i j. induction mask as [|b mask IH]; intros k i j Hij; [done|].
  destruct b; cbn [argwhere_from]; [|by apply IH].
  destruct j as [|j]; [lia|]. destruct i as [|i]; cbn.
  - intros [= <-] Hy%list_elem_of_lookup_2%argwhere_from_lower. lia.
  - apply IH. lia.
Qed.

Lemma argwhere_from_lengths {A : Type} (f : A → bool) (l : list A) (k : nat) :
  (length (argwhere_from k (f <$> l))
   + length (argwhere_from k ((λ x, negb (f x)) <$> l)) = length l)%nat.
Proof.
  revert k. induction l as [|x l IH]; intros k; [done|]. cbn.
  specialize (IH (S k)). destruct (f x); cbn; lia.
Qed.

Lemma argwhere_from_all {A : Type} (f : A → bool) (l : list A) (k : nat) :
  (∀ x, x ∈ l → f x = true) →
  argwhere_from k (f <$> l) = seq k (length l)
  ∧ argwhere_from k ((λ x, negb (f x)) <$> l) = [].
Proof.
  revert k. induction l as [|x l IH]; intros k H; [done|]. cbn.
  rewrite (H x) by left. cbn.
  destruct (IH (S k)) as [-> ->]; [intros; apply H; by right|]. done.
Qed.

Lemma argwhere_from_none {A : Type} (f : A → bool) (l : list A) (k : nat) :
  (∀ x, x ∈ l → f x = false) →
  argwhere_from k (f <$> l) = []
  ∧ argwhere_from k ((λ x, negb (f x)) <$> l) = seq k (length l).
Proof.
  revert k. induction l as [|x l IH]; intros k H; [done|]. cbn.
  rewrite (H x) by left. cbn.
  destruct (IH (S k)) as [-> ->]; [intros; apply H; by right|]. done.
Qed.
End ArgwhereMore.

Section InitMore.
Context {label tensor pyobj : Type} `{!Collaborators label tensor pyobj}.
Implicit Types (ad : AnnData label) (hp : hyper pyobj).

(** X14. The labeled and the unlabeled index arrays of a constructed
    model are strictly increasing, and their lengths add up to the number
    of cells. *)
Theorem init_partition_increasing ad u pm hp cuda s log :
  __init__ ad u pm hp cuda = (Ok s, log) →
  (∀ i j x y, (i < j)%nat → _labeled_indices s !! i = Some x →
              _labeled_indices s !! j = Some y → (x < y)%nat)
  ∧ (∀ i j x y, (i < j)%nat → _unlabeled_indices s !! i = Some x →
                _unlabeled_indices s !! j = Some y → (x < y)%nat)
  ∧ (length (_labeled_indices s) + length (_unlabeled_indices s)
     = length (obs_labels ad))%nat.
Proof.
  intros (-> & -> & _)%init_fields. split; [|split].
  - intros i j x y. apply argwhere_from_increasing.
  - intros i j x y. apply argwhere_from_increasing.
  - unfold argwhere.
    pose proof (argwhere_from_lengths (λ l, label_eq l u) (obs_labels ad) 0). lia.
Qed.

(** X15. The constructor accepts a label column in which no cell, or
    every cell, carries the sentinel: the one index array is then empty
    and the other holds every position in order. *)
Theorem init_partition_one_sided ad u pm hp cuda s log :
  __init__ ad u pm hp cuda = (Ok s, log) →
  ((∀ l, l ∈ obs_labels ad → label_eq l u = false) →
     _unlabeled_indices s = []
     ∧ _labeled_indices s = seq 0 (length (obs_labels ad)))
  ∧ ((∀ l, l ∈ obs_labels ad → label_eq l u = true) →
       _labeled_indices s = []
       ∧ _unlabeled_indices s = seq 0 (length (obs_labels ad))).
Proof.
  intros (-> & -> & _)%init_fields. unfold argwhere. split; intros H.
  - by destruct (argwhere_from_none (λ l, label_eq l u) (obs_labels ad) 0 H).
  - by destruct (argwhere_from_all (λ l, label_eq l u) (obs_labels ad) 0 H).
Qed.
End InitMore.

Section PredictMore.
Context {label tensor pyobj : Type} `{!Collaborators label tensor pyobj}.
Implicit Types (s : SCANVI label tensor pyobj).

(** X16. Soft mode returns exactly when the number of queried cells is
    the number of cells of the dataset and the posterior's class count is
    the length of the label mapping; otherwise it raises [ValueError].
    The table it returns has the label mapping as columns, all the names
    of the dataset as index, and the posterior's rows in query order.
    With no [indices] the first condition always holds. *)
Theorem predict_soft_outcome s (a : option (AnnData label))
    (indices : option (list nat)) :
  let a' := _validate_anndata s a in
  let post := _make_posterior a' indices in
  let fits := length post = length (obs_names a')
              ∧ n_classes (model s) = length (_label_mapping s) in
  (fits →
     predict s a indices true
     = Ok (Table {| df_columns := _label_mapping s;
                    df_index := obs_names a';
                    df_values := predicted_proba (model s) a' <$> post |}))
  ∧ (¬ fits →
       predict s a indices true
       = Raise (ValueError "Shape of passed values does not match the indices"))
  ∧ (indices = None → length post = length (obs_names a')).
Proof.
  intros a' post fits. subst fits. unfold predict, pd_DataFrame.
  cbn [negb rows ncols]. fold a' post. rewrite length_fmap.
  split; [|split].
  - intros [-> ->]. by rewrite !Nat.eqb_refl.
  - intros Hn.
    destruct (Nat.eqb_spec (length post) (length (obs_names a'))) as [E1|E1];
      [|done].
    destruct (Nat.eqb_spec (n_classes (model s)) (length (_label_mapping s)));
      [|done]. by destruct Hn.
  - intros ->. subst post. cbn. by rewrite length_seq.
Qed.
End PredictMore.

(** ** The hooks of [conftest.py] *)

Section ConftestFacts.
Import conftest.
Implicit Types (config : Config) (items : list Item) (item : Item).
Implicit Types (parser : Parser).

Lemma modifyitems_run config items ri ro :
  getoption config "--internet-tests" = Ok ri →
  getoption config "--optional" = Ok ro →
  pytest_collection_modifyitems config items
  = (Ok tt,
     skip_unless ro "optional" (skip "need --optional option to run")
       (skip_unless ri "internet" (skip "need --internet-tests option to run")
          items)).
Proof.
  intros Hi Ho. unfold pytest_collection_modifyitems.
  cbv [mbind hook_bind lift modify]. by rewrite Hi, Ho.
Qed.

Lemma lookup_skip_unless run keyword m items (i : nat) :
  skip_unless run keyword m items !! i
  = (λ item, if negb (truth run) && bool_decide (keyword ∈ keywords item)
             then add_marker m item else item) <$> items !! i.
Proof. unfold skip_unless. by rewrite list_lookup_fmap. Qed.

(** One item through the two loops: the second loop sees the keywords
    the first one left. *)
Lemma lookup_modifyitems ri ro items (i : nat) item :
  items !! i = Some item →
  let skip_i := negb (truth ri) && bool_decide ("internet" ∈ keywords item) in
  let skip_o := negb (truth ro) && bool_decide ("optional" ∈ keywords item) in
  ∃ item',
    skip_unless ro "optional" (skip "need --optional option to run")
      (skip_unless ri "internet" (skip "need --internet-tests option to run")
         items) !! i = Some item'
    ∧ own_markers item'
      = own_markers item
        ++ (if skip_i then [skip "need --internet-tests option to run"] else [])
        ++ (if skip_o then [skip "need --optional option to run"] else [])
    ∧ keywords item'
      = keywords item ∪ (if skip_i || skip_o then {[ "skip" ]} else ∅).
Proof.
  intros Hl skip_i skip_o.
  rewrite !lookup_skip_unless, Hl. cbn [fmap option_fmap option_map].
  eexists. split; [reflexivity|]. fold skip_i.
  destruct skip_i eqn:Ei; cbn [orb].
  - assert (bool_decide ("optional" ∈ keywords
              (add_marker (skip "need --internet-tests option to run") item))
            = bool_decide ("optional" ∈ keywords item)) as ->.
    { apply bool_decide_ext. cbn. rewrite elem_of_union, elem_of_singleton.
      split; [by intros [?|?] | by left]. }
    fold skip_o. destruct skip_o; cbn.
    + split; [by rewrite <- app_assoc|].
      by rewrite <- (assoc_L (∪)), (idemp_L (∪)).
    + done.
  - fold skip_o. destruct skip_o; cbn.
    + done.
    + split; [by rewrite app_nil_r|]. by rewrite (right_id_L ∅ (∪)).
Qed.

(** X17. With both options known, the collection hook returns and keeps
    the items and their order; an item gets the internet skip marker
    exactly when the internet option is false and [internet] is among its
    keywords, then the optional skip marker under the same test for
    [optional], appended in that order after the markers it had; its
    keywords gain [skip] when it got either, and nothing else changes. *)
Theorem modifyitems_marks config items ri ro :
  getoption config "--internet-tests" = Ok ri →
  getoption config "--optional" = Ok ro →
  ∃ items',
    pytest_collection_modifyitems config items = (Ok tt, items')
    ∧ length items' = length items
    ∧ ∀ (i : nat) item, items !! i = Some item →
        let skip_i := negb (truth ri) && bool_decide ("internet" ∈ keywords item) in
        let skip_o := negb (truth ro) && bool_decide ("optional" ∈ keywords item) in
        ∃ item',
          items' !! i = Some item'
          ∧ own_markers item'
            = own_markers item
              ++ (if skip_i then [skip "need --internet-tests option to run"] else [])
              ++ (if skip_o then [skip "need --optional option to run"] else [])
          ∧ keywords item'
            = keywords item ∪ (if skip_i || skip_o then {[ "skip" ]} else ∅).
Proof.
  intros Hi Ho. eexists. split; [by apply modifyitems_run|].
  split; [unfold skip_unless; by rewrite !length_fmap|].
  intros i item. apply lookup_modifyitems.
Qed.

(** X18. The collection hook raises [ValueError] when one of its two
    options is unknown: with the first unknown no item is touched; with
    only the second unknown the items that need the internet have been
    marked already. *)
Theorem modifyitems_unknown_option config items :
  (config_option config !! "--internet-tests" = None →
     pytest_collection_modifyitems config items
     = (Raise (ValueError "no option named '--internet-tests'"), items))
  ∧ (∀ ri, config_option config !! "--internet-tests" = Some ri →
           config_option config !! "--optional" = None →
           pytest_collection_modifyitems config items
           = (Raise (ValueError "no option named '--optional'"),
              skip_unless ri "internet"
                (skip "need --internet-tests option to run") items)).
Proof.
  split.
  - intros H. unfold pytest_collection_modifyitems, getoption.
    cbv [mbind hook_bind lift modify]. by rewrite H.
  - intros ri H1 H2. unfold pytest_collection_modifyitems, getoption.
    cbv [mbind hook_bind lift modify]. by rewrite H1, H2.
Qed.

Lemma addoption_fresh o parser :
  opt_name o ∉ opt_name <$> parser → addoption o parser = (Ok tt, parser ++ [o]).
Proof. intros H. unfold addoption. by rewrite bool_decide_eq_false_2. Qed.

Lemma addoption_known o parser :
  opt_name o ∈ opt_name <$> parser →
  ∃ msg, addoption o parser = (Raise (ValueError msg), parser).
Proof. intros H. unfold addoption. rewrite bool_decide_eq_true_2 by done. eauto. Qed.

Lemma elem_of_names (n : string) :
  n ∈ ["--internet-tests"; "--optional"; "--accelerator"; "--devices"]
  ↔ n = "--internet-tests" ∨ n = "--optional"
    ∨ n = "--accelerator" ∨ n = "--devices".
Proof. rewrite !elem_of_cons, elem_of_nil. tauto. Qed.

(** On a parser that has none of the four names, the hook appends the
    four options. *)
Lemma pytest_addoption_fresh parser :
  (∀ n, n ∈ ["--internet-tests"; "--optional"; "--accelerator"; "--devices"] →
        n ∉ opt_name <$> parser) →
  ∃ h1 h2 h3 h4,
    pytest_addoption parser
    = (Ok tt,
       parser ++
       [ {| opt_name := "--internet-tests"; opt_action := store_true;
            opt_default := VBool false; opt_help := h1 |};
         {| opt_name := "--optional"; opt_action := store_true;
            opt_default := VBool false; opt_help := h2 |};
         {| opt_name := "--accelerator"; opt_action := store;
            opt_default := VStr "cpu"; opt_help := h3 |};
         {| opt_name := "--devices"; opt_action := store;
            opt_default := VStr "auto"; opt_help := h4 |} ]).
Proof.
  intros H. unfold pytest_addoption. cbv [mbind hook_bind].
  set (o1 := {| opt_name := "--internet-tests" |}).
  set (o2 := {| opt_name := "--optional" |}).
  set (o3 := {| opt_name := "--accelerator" |}).
  set (o4 := {| opt_name := "--devices" |}).
  assert ("--internet-tests" ∉ opt_name <$> parser) as H1
    by (apply H, elem_of_names; auto).
  assert ("--optional" ∉ opt_name <$> parser) as H2
    by (apply H, elem_of_names; auto).
  assert ("--accelerator" ∉ opt_name <$> parser) as H3
    by (apply H, elem_of_names; auto).
  assert ("--devices" ∉ opt_name <$> parser) as H4
    by (apply H, elem_of_names; auto).
  rewrite (addoption_fresh o1) by done.
  rewrite (addoption_fresh o2).
  2:{ rewrite fmap_app, elem_of_app. cbn. rewrite elem_of_cons, elem_of_nil.
      intros [?|[?|?]]; done. }
  rewrite (addoption_fresh o3).
  2:{ rewrite !fmap_app, !elem_of_app. cbn. rewrite !elem_of_cons, !elem_of_nil.
      intros [[?|[?|?]]|[?|?]]; done. }
  rewrite (addoption_fresh o4).
  2:{ rewrite !fmap_app, !elem_of_app. cbn. rewrite !elem_of_cons, !elem_of_nil.
      intros [[[?|[?|?]]|[?|?]]|[?|?]]; done. }
  eexists _, _, _, _. rewrite <- !app_assoc. reflexivity.
Qed.

(** X19. [pytest_addoption] returns exactly on a parser that has none of
    its four option names: it appends the four options in order, with the
    defaults false, false, [cpu] and [auto].  On a parser that has one of
    the names (so also when run a second time) it raises [ValueError]. *)
Theorem pytest_addoption_outcome parser :
  let names := ["--internet-tests"; "--optional"; "--accelerator"; "--devices"] in
  ((∀ n, n ∈ names → n ∉ opt_name <$> parser) →
     ∃ parser',
       pytest_addoption parser = (Ok tt, parser')
       ∧ opt_name <$> parser' = (opt_name <$> parser) ++ names
       ∧ (opt_default <$> parser')
         = (opt_default <$> parser)
             ++ [VBool false; VBool false; VStr "cpu"; VStr "auto"])
  ∧ (∀ n, n ∈ names → n ∈ opt_name <$> parser →
       ∃ msg parser',
         pytest_addoption parser = (Raise (ValueError msg), parser')).
Proof.
  intros names. split.
  - intros H. destruct (pytest_addoption_fresh parser H) as (h1 & h2 & h3 & h4 & ->).
    eexists. split; [reflexivity|]. split; by rewrite fmap_app.
  - intros n Hn Hin. unfold pytest_addoption. cbv [mbind hook_bind].
    set (o1 := {| opt_name := "--internet-tests" |}).
    set (o2 := {| opt_name := "--optional" |}).
    set (o3 := {| opt_name := "--accelerator" |}).
    set (o4 := {| opt_name := "--devices" |}).
    destruct (decide (opt_name o1 ∈ opt_name <$> parser)) as [H1|H1].
    { destruct (addoption_known o1 parser H1) as [msg ->]. eauto. }
    rewrite (addoption_fresh o1) by done.
    destruct (decide (opt_name o2 ∈ opt_name <$> parser ++ [o1])) as [H2|H2].
    { destruct (addoption_known o2 _ H2) as [msg ->]. eauto. }
    rewrite (addoption_fresh o2) by done.
    destruct (decide (opt_name o3 ∈ opt_name <$> (parser ++ [o1]) ++ [o2]))
      as [H3|H3].
    { destruct (addoption_known o3 _ H3) as [msg ->]. eauto. }
    rewrite (addoption_fresh o3) by done.
    destruct (addoption_known o4 (((parser ++ [o1]) ++ [o2]) ++ [o3]))
      as [msg ->]; [|eauto].
    rewrite !fmap_app, !elem_of_app in *. cbn in *.
    apply elem_of_names in Hn. destruct Hn as [->|[->|[->| ->]]]; tauto.
Qed.

(** The value parsing leaves for an option the parser got from
    [pytest_addoption], whatever was registered before. *)
Lemma lookup_parse_args_app parser (opts : list Argument) c (name : string) :
  name ∉ opt_name <$> parser →
  parse_args (parser ++ opts) c !! name = parse_args opts c !! name.
Proof.
  intros H. unfold parse_args.
  rewrite fmap_app, list_to_map_app. apply lookup_union_r.
  apply not_elem_of_list_to_map_1. by rewrite <- list_fmap_compose.
Qed.

(** X20. The options the collection hook and the two fixtures read are
    the ones [pytest_addoption] registers: on a parser without the four
    names and for every command line, the hook returns, the fixtures
    give the accelerator and the devices of the command line or else
    [cpu] and [auto], and a test is marked to be skipped exactly when it
    carries [internet] and [--internet-tests] was not given, and likewise
    for [optional]. *)
Theorem registered_options_are_read parser c (ini : list string) items :
  (∀ n, n ∈ ["--internet-tests"; "--optional"; "--accelerator"; "--devices"] →
        n ∉ opt_name <$> parser) →
  ∃ parser' items',
    pytest_addoption parser = (Ok tt, parser')
    ∧ let config := pytest_configure {| config_option := parse_args parser' c;
                                        markers := ini |} in
      pytest_collection_modifyitems config items = (Ok tt, items')
      ∧ accelerator config
        = Ok (VStr (default "cpu" (given_values c !! "--accelerator")))
      ∧ devices config
        = Ok (VStr (default "auto" (given_values c !! "--devices")))
      ∧ ∀ (i : nat) item, items !! i = Some item →
          let skip_i := bool_decide ("--internet-tests" ∉ given_flags c)
                        && bool_decide ("internet" ∈ keywords item) in
          let skip_o := bool_decide ("--optional" ∉ given_flags c)
                        && bool_decide ("optional" ∈ keywords item) in
          ∃ item',
            items' !! i = Some item'
            ∧ own_markers item'
              = own_markers item
                ++ (if skip_i then [skip "need --internet-tests option to run"]
                    else [])
                ++ (if skip_o then [skip "need --optional option to run"]
                    else []).
Proof.
  intros H. destruct (pytest_addoption_fresh parser H) as (h1 & h2 & h3 & h4 & ->).
  set (opts := [ {| opt_name := "--internet-tests" |}; _; _; _ ]).
  assert (∀ name, name ∈ ["--internet-tests"; "--optional"; "--accelerator";
                          "--devices"] →
                  getoption
                    (pytest_configure
                       {| config_option := parse_args (parser ++ opts) c;
                          markers := ini |}) name
                  = match parse_args opts c !! name with
                    | Some v => Ok v
                    | None => Raise (ValueError ("no option named '" +:+ name +:+ "'"))
                    end) as Hget.
  { intros name Hn. unfold getoption, pytest_configure, addinivalue_line.
    cbn [config_option]. rewrite lookup_parse_args_app; [done|by apply H]. }
  assert (parse_args opts c !! "--internet-tests"
          = Some (VBool (bool_decide ("--internet-tests" ∈ given_flags c)))) as G1.
  { unfold parse_args, opts, option_value. cbn.
    rewrite lookup_insert_eq. cbn.
    destruct (decide ("--internet-tests" ∈ given_flags c));
      [rewrite !bool_decide_eq_true_2 by done
      |rewrite !bool_decide_eq_false_2 by done]; done. }
  assert (parse_args opts c !! "--optional"
          = Some (VBool (bool_decide ("--optional" ∈ given_flags c)))) as G2.
  { unfold parse_args, opts, option_value. cbn.
    rewrite lookup_insert_ne, lookup_insert_eq by done. cbn.
    destruct (decide ("--optional" ∈ given_flags c));
      [rewrite !bool_decide_eq_true_2 by done
      |rewrite !bool_decide_eq_false_2 by done]; done. }
  assert (parse_args opts c !! "--accelerator"
          = Some (VStr (default "cpu" (given_values c !! "--accelerator")))) as G3.
  { unfold parse_args, opts, option_value. cbn.
    rewrite !lookup_insert_ne, lookup_insert_eq by done. cbn.
    by destruct (given_values c !! "--accelerator"). }
  assert (parse_args opts c !! "--devices"
          = Some (VStr (default "auto" (given_values c !! "--devices")))) as G4.
  { unfold parse_args, opts, option_value. cbn.
    rewrite !lookup_insert_ne, lookup_insert_eq by done. cbn.
    by destruct (given_values c !! "--devices"). }
  eexists _, _. split; [reflexivity|]. cbv zeta.
  split; [|split; [|split]].
  - apply modifyitems_run; rewrite Hget by (apply elem_of_names; auto).
    + by rewrite G1.
    + by rewrite G2.
  - unfold accelerator. rewrite Hget by (apply elem_of_names; auto). by rewrite G3.
  - unfold devices. rewrite Hget by (apply elem_of_names; auto). by rewrite G4.
  - intros i item Hl.
    destruct (lookup_modifyitems
                (VBool (bool_decide ("--internet-tests" ∈ given_flags c)))
                (VBool (bool_decide ("--optional" ∈ given_flags c)))
                items i item Hl) as (item' & Hi' & Hm & _).
    exists item'. split; [done|]. rewrite Hm. cbn [truth].
    by rewrite <- !bool_decide_not.
Qed.
End ConftestFacts.


(** ** The definitions at work on the small instance *)

Section ToyFacts.
Import Toy.

(** Ties go to the even neighbour: 312.5, 62.5, 12.5, 2.5 and 0.5 epochs. *)
Example default_n_epochs_unsupervised_ties :
  default_n_epochs_unsupervised <$> [25600; 128000; 640000; 3200000; 16000000]
  = Ok <$> [312; 62; 12; 2; 0].
Proof. reflexivity. Qed.

(** An explicit epoch count is used as it is. *)
Example resolve_epochs_override :
  resolve_epochs
    {| n_epochs_unsupervised := Some 7; n_epochs_semisupervised := Some 1000;
       train_size := tt; test_size := tt; lr := tt; n_iter_kl_warmup := tt;
       n_epochs_kl_warmup := tt; frequency := tt;
       unsupervised_trainer_kwargs := tt; semisupervised_trainer_kwargs := tt;
       train_kwargs := tt |} 4
  = Ok (7, 1000).
Proof. reflexivity. Qed.

Lemma toy_train_keeps_shapes (m : gmap string tensor) (ad : AnnData string)
    (t : SemiSupervisedTrainer) (n : Z) (k : string) :
  shape <$> SemiSupervisedTrainer_train m ad t n !! k = shape <$> m !! k.
Proof.
  cbn. unfold shift. rewrite lookup_fmap, <- option_fmap_compose. reflexivity.
Qed.

Lemma fresh_is_init (a : AnnData string) :
  __init__ a "Unknown" None hp false = (Ok (self (fresh a)), trace (fresh a)).
Proof. reflexivity. Qed.

Lemma train_once : train defaults (fresh cells) = (Ok tt, once).
Proof. vm_compute. reflexivity. Qed.

Lemma once_schedule :
  resolve_epochs defaults (shape0 (adata (self once))) = Ok (400, 10).
Proof. vm_compute. reflexivity. Qed.

(** C1, at the four cells. *)
Lemma init_partition_witness :
  __init__ cells "Unknown" None hp false = (Ok (self (fresh cells)), trace (fresh cells))
  ∧ _labeled_indices (self (fresh cells)) = [0; 2]%nat
  ∧ _unlabeled_indices (self (fresh cells)) = [1; 3]%nat
  ∧ list_to_set (C:=gset nat) (_labeled_indices (self (fresh cells)))
      ## list_to_set (_unlabeled_indices (self (fresh cells)))
  ∧ list_to_set (C:=gset nat) (_labeled_indices (self (fresh cells)))
      ∪ list_to_set (_unlabeled_indices (self (fresh cells)))
    = list_to_set (seq 0 4).
Proof.
  split; [reflexivity|]. split; [reflexivity|]. split; [reflexivity|].
  exact (proj2 (proj2 (init_partition cells "Unknown" None hp false _ _
                         (fresh_is_init cells)))).
Defined.

(** C2, at the four cells: the second call with defaults. *)
Lemma train_twice_witness :
  train defaults (fresh cells) = (Ok tt, once)
  ∧ resolve_epochs defaults (shape0 (adata (self once))) = Ok (400, 10)
  ∧ ∃ w2, train defaults once = (Ok tt, w2)
          ∧ _base_model (self w2) = _base_model (self once)
          ∧ _unsupervised_trainer (self w2) = _unsupervised_trainer (self once)
          ∧ is_trained (self w2) = true.
Proof.
  split; [exact train_once|]. split; [exact once_schedule|].
  destruct (train_twice_skips_phase1 defaults defaults (fresh cells) once 400 10
              toy_train_keeps_shapes train_once once_schedule)
    as (w2 & Ht & Hb & _ & Hu & _ & _ & Hi).
  exists w2. repeat split; assumption.
Defined.

(** C3, at 20000 observations. *)
Lemma default_n_epochs_unsupervised_witness :
  1 ≤ 20000 ∧ default_n_epochs_unsupervised 20000 = Ok 400.
Proof.
  assert (1 ≤ 20000) as H by lia. split; [exact H|].
  exact (proj1 (proj1 default_n_epochs_unsupervised_spec 20000 H)).
Defined.

(** C4, at 400 epochs. *)
Lemma default_n_epochs_semisupervised_witness :
  0 ≤ 400 ∧ 400 < 2 ^ 1024 - 2 ^ 970
  ∧ default_n_epochs_semisupervised 400 = Ok 10.
Proof.
  assert (0 ≤ 400) as H0 by lia.
  assert (400 < 2 ^ 1024 - 2 ^ 970) as H1 by reflexivity.
  split; [exact H0|]. split; [exact H1|].
  exact (proj1 (proj1 default_n_epochs_semisupervised_spec 400 H0 H1)).
Defined.

(** C5, at the four cells labeled A and B: the codes are [[0; 1; 0; 1]]. *)
Lemma predict_hard_witness :
  _code_to_label (self (fresh cells_ab))
  = dict_of (enumerate (_label_mapping (self (fresh cells_ab))))
  ∧ predict (self (fresh cells_ab)) None None false
    = Ok (Labels ["A"; "B"; "A"; "B"]).
Proof.
  split; [reflexivity|].
  exact (proj2 (proj2 (predict_hard_spec (self (fresh cells_ab)) None None
                         eq_refl)) "A" "B" eq_refl eq_refl).
Defined.

(** C6: soft mode on a subset.  Asking for cell 1 alone raises, because
    the frame is indexed by all four names; asking for the cells in the
    order 1, 0, 3, 2 returns a frame whose row named c0 holds the
    probabilities of cell 1, not those of cell 0. *)
Theorem predict_soft_subset_misaligned :
  predict (self (fresh cells_ab)) None (Some [1%nat]) true
  = Raise (ValueError "Shape of passed values does not match the indices")
  ∧ predict (self (fresh cells_ab)) None (Some [1; 0; 3; 2]%nat) true
    = Ok (Table {| df_columns := ["A"; "B"];
                   df_index := ["c0"; "c1"; "c2"; "c3"];
                   df_values := [[S754_zero false; one]; [one; S754_zero false];
                                 [S754_zero false; one]; [one; S754_zero false]] |})
  ∧ predicted_proba (model (self (fresh cells_ab))) cells_ab 0
    = [one; S754_zero false].
Proof. repeat split. Qed.

(** C7, at the four cells: the encoder weight is shared by the two
    networks with one shape, and takes the base model's value. *)
Lemma transplant_witness :
  model (self (fresh cells)) !! "z_encoder.weight" = Some ([2; 3]%nat, 1)
  ∧ _base_model (self (fresh cells)) !! "z_encoder.weight" = Some ([2; 3]%nat, 0)
  ∧ model (self (transplant (fresh cells)).2) !! "z_encoder.weight"
    = Some ([2; 3]%nat, 0).
Proof.
  assert (model (self (fresh cells)) !! "z_encoder.weight" = Some ([2; 3]%nat, 1))
    as Hv by reflexivity.
  assert (_base_model (self (fresh cells)) !! "z_encoder.weight"
          = Some ([2; 3]%nat, 0)) as Hb by reflexivity.
  split; [exact Hv|]. split; [exact Hb|].
  exact (proj1 (transplant_spec (fresh cells)) _ _ _ Hv Hb eq_refl).
Defined.

(** C7, counterexample to "a shape mismatch is not an error": built on a
    trained model whose encoder is wider, [train] raises at the
    transplant. *)
Lemma transplant_size_mismatch_raises :
  __init__ cells "Unknown" (Some wide_scvi) hp false
  = (Ok (self (seeded cells wide_scvi)), trace (seeded cells wide_scvi))
  ∧ (train defaults (seeded cells wide_scvi)).1
    = Raise (RuntimeError "Error(s) in loading state_dict").
Proof. split; [reflexivity | vm_compute; reflexivity]. Qed.

(** C8, at a pretrained model that was never trained. *)
Lemma init_untrained_pretrained_witness :
  scvi_is_trained untrained_scvi = false
  ∧ __init__ cells "Unknown" (Some untrained_scvi) hp false
    = (Raise (ValueError "pretrained model has not been trained"), []).
Proof.
  split; [reflexivity|].
  exact (init_untrained_pretrained cells "Unknown" untrained_scvi hp false eq_refl).
Defined.

(** C9, at the dataset with no cell. *)
Lemma default_n_epochs_unsupervised_zero_witness :
  n_epochs_unsupervised defaults = None
  ∧ shape0 (adata (self (fresh no_cells))) = 0
  ∧ train defaults (fresh no_cells) = (Raise ZeroDivisionError, fresh no_cells).
Proof.
  split; [reflexivity|]. split; [reflexivity|].
  exact (proj2 default_n_epochs_unsupervised_zero defaults (fresh no_cells)
           eq_refl eq_refl).
Defined.

(** C10, at the second call on the four cells: phase 1 is skipped, and the
    encoder weight that the first call had fine-tuned to 1400 goes back to
    the base model's 400 before phase 2. *)
Lemma train_always_transplants_witness :
  resolve_epochs defaults (shape0 (adata (self once))) = Ok (400, 10)
  ∧ _is_trained_base (self once) = true
  ∧ model (self once) !! "z_encoder.weight" = Some ([2; 3]%nat, 1400)
  ∧ (phase1 defaults 400 once).2 = once
  ∧ copy_matching shape (model (self once))
      (_base_model (self (phase1 defaults 400 once).2)) !! "z_encoder.weight"
    = Some ([2; 3]%nat, 400).
Proof.
  assert (_is_trained_base (self once) = true) as Hb by (vm_compute; reflexivity).
  assert (model (self once) !! "z_encoder.weight" = Some ([2; 3]%nat, 1400))
    as Hv by (vm_compute; reflexivity).
  assert (_base_model (self (phase1 defaults 400 once).2) !! "z_encoder.weight"
          = Some ([2; 3]%nat, 400)) as Hs by (vm_compute; reflexivity).
  split; [exact once_schedule|]. split; [exact Hb|]. split; [exact Hv|].
  destruct (train_always_transplants defaults once 400 10 once_schedule)
    as (H1 & H2 & _).
  split; [exact (H1 Hb)|].
  exact (H2 _ _ _ Hv Hs eq_refl).
Defined.
End ToyFacts.

Section MoreToyFacts.
Import Toy.

Lemma seeded_is_init :
  __init__ cells "Unknown" (Some wide_scvi) hp false
  = (Ok (self (seeded cells wide_scvi)), trace (seeded cells wide_scvi)).
Proof. reflexivity. Qed.

Lemma seeded_train_raises :
  (train defaults (seeded cells wide_scvi)).1
  = Raise (RuntimeError "Error(s) in loading state_dict").
Proof. vm_compute. reflexivity. Qed.

Lemma seeded_schedule :
  resolve_epochs defaults
    (shape0 (adata (self (train defaults (seeded cells wide_scvi)).2)))
  = Ok (400, 10).
Proof. vm_compute. reflexivity. Qed.

Lemma once_is_run :
  foldl (λ w a, (train a w).2)
    {| self := self (fresh cells); trace := trace (fresh cells) |} [defaults]
  = once.
Proof. vm_compute. reflexivity. Qed.

Lemma twice_is_run :
  foldl (λ w a, (train a w).2)
    {| self := self (fresh cells); trace := trace (fresh cells) |}
    [defaults; defaults]
  = twice.
Proof. vm_compute. reflexivity. Qed.

(** X1, at 20000 cells against 100000 cells. *)
Lemma default_n_epochs_unsupervised_antitone_witness :
  1 ≤ 20000 ∧ 20000 ≤ 100000
  ∧ ∃ a b, default_n_epochs_unsupervised 20000 = Ok a
           ∧ default_n_epochs_unsupervised 100000 = Ok b
           ∧ b ≤ a.
Proof.
  assert (1 ≤ 20000) as H1 by lia. assert (20000 ≤ 100000) as H2 by lia.
  split; [exact H1|]. split; [exact H2|].
  exact (default_n_epochs_unsupervised_antitone 20000 100000 H1 H2).
Defined.

(** X2, at the last size that still gets the cap. *)
Lemma default_n_epochs_unsupervised_cap_witness :
  1 ≤ 20025 ∧ default_n_epochs_unsupervised 20025 = Ok 400.
Proof.
  assert (1 ≤ 20025) as H1 by lia. split; [exact H1|].
  exact (proj2 (default_n_epochs_unsupervised_cap 20025 H1) (Z.le_refl 20025)).
Defined.

(** X3, at the first size that gets no unsupervised epoch. *)
Lemma default_n_epochs_unsupervised_vanishes_witness :
  1 ≤ 16000000 ∧ default_n_epochs_unsupervised 16000000 = Ok 0.
Proof.
  assert (1 ≤ 16000000) as H1 by lia. split; [exact H1|].
  exact (proj2 (default_n_epochs_unsupervised_vanishes 16000000 H1)
           (Z.le_refl 16000000)).
Defined.

(** X4, at an override of minus five epochs. *)
Lemma default_n_epochs_semisupervised_negative_witness :
  - (2 ^ 1024 - 2 ^ 970) < -5 ∧ -5 < 0
  ∧ default_n_epochs_semisupervised (-5) = Ok 2.
Proof.
  assert (- (2 ^ 1024 - 2 ^ 970) < -5) as H1 by reflexivity.
  assert (-5 < 0) as H2 by reflexivity.
  split; [exact H1|]. split; [exact H2|].
  exact (proj1 default_n_epochs_semisupervised_negative (-5) H1 H2).
Defined.

(** X5, at the four cells. *)
Lemma resolve_epochs_defaults_witness :
  n_epochs_unsupervised defaults = None
  ∧ n_epochs_semisupervised defaults = None
  ∧ 1 ≤ 4
  ∧ ∃ n_u n_s, resolve_epochs defaults 4 = Ok (n_u, n_s)
               ∧ 0 ≤ n_u ≤ 400 ∧ 2 ≤ n_s ≤ 10
               ∧ (n_s = 10 ↔ 4 ≤ 280701)
               ∧ (n_s = 2 ↔ 1066667 ≤ 4).
Proof.
  assert (1 ≤ 4) as H1 by lia.
  split; [reflexivity|]. split; [reflexivity|]. split; [exact H1|].
  exact (resolve_epochs_defaults defaults 4 eq_refl eq_refl H1).
Defined.


(** X7, at two calls on the four cells. *)
Lemma train_keeps_tables_witness :
  __init__ cells "Unknown" None hp false
  = (Ok (self (fresh cells)), trace (fresh cells))
  ∧ _label_mapping (self twice) = ["A"; "B"; "Unknown"]
  ∧ _code_to_label (self twice) !! 1 = Some "B".
Proof.
  split; [exact (fresh_is_init cells)|].
  pose proof (train_keeps_tables cells "Unknown" None hp false _ _
                [defaults; defaults] (fresh_is_init cells)) as H.
  cbv zeta in H. rewrite twice_is_run in H. destruct H as (_ & Hm & Hc & _).
  split; [exact Hm|]. exact (proj2 (Hc 1%nat "B") eq_refl).
Defined.

(** X8, at one call on the four cells. *)
Lemma is_trained_iff_returned_witness :
  __init__ cells "Unknown" None hp false
  = (Ok (self (fresh cells)), trace (fresh cells))
  ∧ is_trained (self once) = true
  ∧ _is_trained_base (self once) = true
  ∧ is_Some (trainer (self once)).
Proof.
  split; [exact (fresh_is_init cells)|].
  pose proof (is_trained_iff_returned cells "Unknown" None hp false _ _
                [defaults] (fresh_is_init cells)) as H.
  cbv zeta in H. rewrite once_is_run in H. destruct H as [H1 H2].
  assert (is_trained (self once) = true) as Ht.
  { apply H1. exists 0%nat, defaults. split; [reflexivity|].
    exact (f_equal fst train_once). }
  split; [exact Ht|]. exact (H2 Ht).
Defined.

(** X9, at a model built on a pretrained network, after two calls. *)
Lemma pretrained_base_is_kept_witness :
  __init__ cells "Unknown" (Some wide_scvi) hp false
  = (Ok (self (seeded cells wide_scvi)), trace (seeded cells wide_scvi))
  ∧ _base_model (self (train defaults
                         (train defaults (seeded cells wide_scvi)).2).2)
    = scvi_model wide_scvi.
Proof.
  split; [exact seeded_is_init|].
  exact (proj1 (pretrained_base_is_kept cells "Unknown" wide_scvi hp false _ _
                  [defaults; defaults] seeded_is_init)).
Defined.

(** X10, at the four cells after two calls: one unsupervised run. *)
Lemma unsupervised_phase_runs_once_witness :
  __init__ cells "Unknown" None hp false
  = (Ok (self (fresh cells)), trace (fresh cells))
  ∧ _is_trained_base (self twice) = true
  ∧ ∃ n, unsupervised_runs (trace twice) = [n].
Proof.
  split; [exact (fresh_is_init cells)|].
  assert (_is_trained_base (self twice) = true) as Hb by (vm_compute; reflexivity).
  split; [exact Hb|].
  pose proof (unsupervised_phase_runs_once cells "Unknown" hp false _ _
                [defaults; defaults] (fresh_is_init cells)) as H.
  cbv zeta in H. rewrite twice_is_run, Hb in H. exact H.
Defined.

(** X11, at the model built on the wider pretrained network, called
    twice. *)
Lemma transplant_failure_is_permanent_witness :
  (train defaults (seeded cells wide_scvi)).1
  = Raise (RuntimeError "Error(s) in loading state_dict")
  ∧ resolve_epochs defaults
      (shape0 (adata (self (train defaults (seeded cells wide_scvi)).2)))
    = Ok (400, 10)
  ∧ (train defaults (train defaults (seeded cells wide_scvi)).2).1
    = Raise (RuntimeError "Error(s) in loading state_dict").
Proof.
  split; [exact seeded_train_raises|]. split; [exact seeded_schedule|].
  exact (f_equal fst
           (transplant_failure_is_permanent defaults defaults
              (seeded cells wide_scvi) _ 400 10
              seeded_train_raises seeded_schedule)).
Defined.

(** X14, at the four cells: two labeled and two unlabeled. *)
Lemma init_partition_increasing_witness :
  __init__ cells "Unknown" None hp false
  = (Ok (self (fresh cells)), trace (fresh cells))
  ∧ (length (_labeled_indices (self (fresh cells)))
     + length (_unlabeled_indices (self (fresh cells))) = 4)%nat.
Proof.
  split; [exact (fresh_is_init cells)|].
  exact (proj2 (proj2 (init_partition_increasing cells "Unknown" None hp false
                         _ _ (fresh_is_init cells)))).
Defined.

(** X15, at four cells labeled A and B, none of them unlabeled. *)
Lemma init_partition_one_sided_witness :
  __init__ cells_ab "Unknown" None hp false
  = (Ok (self (fresh cells_ab)), trace (fresh cells_ab))
  ∧ _unlabeled_indices (self (fresh cells_ab)) = []
  ∧ _labeled_indices (self (fresh cells_ab)) = [0; 1; 2; 3]%nat.
Proof.
  split; [exact (fresh_is_init cells_ab)|].
  assert (Forall (λ l, label_eq l "Unknown" = false) (obs_labels cells_ab)) as HF
    by (repeat constructor).
  exact (proj1 (init_partition_one_sided cells_ab "Unknown" None hp false _ _
                  (fresh_is_init cells_ab))
           (proj1 (Forall_forall _ _) HF)).
Defined.
(** X16, at the four cells labeled A and B queried in the order 1, 0, 3,
    2: the frame is returned, indexed by the names in dataset order. *)
Lemma predict_soft_outcome_witness :
  predict (self (fresh cells_ab)) None (Some [1; 0; 3; 2]%nat) true
  = Ok (Table {| df_columns := ["A"; "B"];
                 df_index := ["c0"; "c1"; "c2"; "c3"];
                 df_values := predicted_proba (model (self (fresh cells_ab)))
                                cells_ab <$> [1; 0; 3; 2]%nat |}).
Proof.
  exact (proj1 (predict_soft_outcome (self (fresh cells_ab)) None
                  (Some [1; 0; 3; 2]%nat)) (conj eq_refl eq_refl)).
Defined.
End MoreToyFacts.

Section SessionFacts.
Import conftest ToySession.

(** X17, at [pytest --optional] on the four tests. *)
Lemma modifyitems_marks_witness :
  getoption config "--internet-tests" = Ok (VBool false)
  ∧ getoption config "--optional" = Ok (VBool true)
  ∧ ∃ items',
      pytest_collection_modifyitems config items = (Ok tt, items')
      ∧ length items' = 4%nat.
Proof.
  assert (getoption config "--internet-tests" = Ok (VBool false)) as H1
    by reflexivity.
  assert (getoption config "--optional" = Ok (VBool true)) as H2
    by reflexivity.
  split; [exact H1|]. split; [exact H2|].
  destruct (modifyitems_marks config items _ _ H1 H2) as (items' & Hr & Hl & _).
  exists items'. split; [exact Hr | exact Hl].
Defined.

(** X18, at a configuration without options. *)
Lemma modifyitems_unknown_option_witness :
  config_option bare_config !! "--internet-tests" = None
  ∧ pytest_collection_modifyitems bare_config items
    = (Raise (ValueError "no option named '--internet-tests'"), items).
Proof.
  assert (config_option bare_config !! "--internet-tests" = None) as H
    by reflexivity.
  split; [exact H|].
  exact (proj1 (modifyitems_unknown_option bare_config items) H).
Defined.

(** X19, at a fresh parser. *)
Lemma pytest_addoption_outcome_witness :
  (∀ n, n ∈ ["--internet-tests"; "--optional"; "--accelerator"; "--devices"] →
        n ∉ opt_name <$> ([] : Parser))
  ∧ ∃ parser',
      pytest_addoption [] = (Ok tt, parser')
      ∧ opt_name <$> parser'
        = ["--internet-tests"; "--optional"; "--accelerator"; "--devices"].
Proof.
  assert (∀ n, n ∈ ["--internet-tests"; "--optional"; "--accelerator";
                    "--devices"] → n ∉ opt_name <$> ([] : Parser)) as H
    by (intros n _; apply not_elem_of_nil).
  split; [exact H|].
  destruct (proj1 (pytest_addoption_outcome []) H) as (parser' & Hp & Hn & _).
  exists parser'. split; [exact Hp | exact Hn].
Defined.

(** X20, at a fresh parser and [pytest --optional --accelerator gpu]. *)
Lemma registered_options_are_read_witness :
  (∀ n, n ∈ ["--internet-tests"; "--optional"; "--accelerator"; "--devices"] →
        n ∉ opt_name <$> ([] : Parser))
  ∧ ∃ parser',
      pytest_addoption [] = (Ok tt, parser')
      ∧ accelerator
          (pytest_configure {| config_option := parse_args parser' optional_on_gpu;
                               markers := [] |})
        = Ok (VStr "gpu")
      ∧ devices
          (pytest_configure {| config_option := parse_args parser' optional_on_gpu;
                               markers := [] |})
        = Ok (VStr "auto").
Proof.
  assert (∀ n, n ∈ ["--internet-tests"; "--optional"; "--accelerator";
                    "--devices"] → n ∉ opt_name <$> ([] : Parser)) as H
    by (intros n _; apply not_elem_of_nil).
  split; [exact H|].
  destruct (registered_options_are_read [] optional_on_gpu [] items H)
    as (parser' & items' & Hp & _ & Ha & Hd & _).
  exists parser'. split; [exact Hp|]. split; [exact Ha | exact Hd].
Defined.
End SessionFacts.
